(** * Readouts notebook (packages/demo/notebook.py)

    A shallow embedding of the marimo notebook that loads a table of
    pathology readouts and renders box plots of selected column groups.

    - [Py]: the fragment of Python's built-in strings, dicts and
      truthiness that the notebook uses.
    - [Frame]: the fragment of the dataframe layer ([len], column
      selection, [rename], [melt]).
    - [Notebook]: the cells of the notebook, in source order. *)

From Stdlib Require Import ZArith NArith List String Ascii DecimalString Bool Lia.
From Stdlib.Strings Require Byte.
From stdpp Require Import gmap.
Import ListNotations.

(* ===================================================================== *)
(** ** Python built-ins *)
(* ===================================================================== *)

Module Py.

(** *** Strings

    A Python [str] is a sequence of Unicode code points. *)
Definition codepoint : Type := N.

Inductive str : Type :=
| EmptyStr
| Str (c : codepoint) (s : str).

Fixpoint str_of_list (l : list codepoint) : str :=
  match l with
  | [] => EmptyStr
  | c :: r => Str c (str_of_list r)
  end.

Fixpoint list_of_str (s : str) : list codepoint :=
  match s with
  | EmptyStr => []
  | Str c r => c :: list_of_str r
  end.

(** String literals are read as UTF-8, as Python reads its source. *)
Definition continuation (b : N) : bool := ((128 <=? b) && (b <? 192))%N.

Fixpoint utf8_decode (bytes : list N) : option (list codepoint) :=
  match bytes with
  | [] => Some []
  | b :: r =>
      if (b <? 128)%N then option_map (cons b) (utf8_decode r)
      else match r with
      | [] => None
      | b1 :: r1 =>
          if negb (continuation b1) then None
          else if ((192 <=? b) && (b <? 224))%N
          then option_map (cons ((b - 192) * 64 + (b1 - 128))%N) (utf8_decode r1)
          else match r1 with
          | [] => None
          | b2 :: r2 =>
              if negb (continuation b2) then None
              else if ((224 <=? b) && (b <? 240))%N
              then option_map
                     (cons ((b - 224) * 4096 + (b1 - 128) * 64 + (b2 - 128))%N)
                     (utf8_decode r2)
              else match r2 with
              | [] => None
              | b3 :: r3 =>
                  if negb (continuation b3) then None
                  else if ((240 <=? b) && (b <? 248))%N
                  then option_map
                         (cons ((b - 240) * 262144 + (b1 - 128) * 4096
                                + (b2 - 128) * 64 + (b3 - 128))%N)
                         (utf8_decode r3)
                  else None
              end
          end
      end
  end.

Definition utf8_encode_one (c : codepoint) : list N :=
  if (c <? 128)%N then [c]
  else if (c <? 2048)%N then [192 + c / 64; 128 + c mod 64]%N
  else if (c <? 65536)%N
  then [224 + c / 4096; 128 + (c / 64) mod 64; 128 + c mod 64]%N
  else [240 + c / 262144; 128 + (c / 4096) mod 64; 128 + (c / 64) mod 64;
        128 + c mod 64]%N.

Definition str_of_bytes (bytes : list Byte.byte) : option str :=
  option_map str_of_list (utf8_decode (map Byte.to_N bytes)).

Definition bytes_of_str (s : str) : option (list Byte.byte) :=
  fold_right
    (fun n acc =>
       match Byte.of_N n, acc with
       | Some b, Some l => Some (b :: l)
       | _, _ => None
       end)
    (Some []) (flat_map utf8_encode_one (list_of_str s)).

Declare Scope str_scope.
Delimit Scope str_scope with str.
Bind Scope str_scope with str.
String Notation str str_of_bytes bytes_of_str : str_scope.
Open Scope str_scope.

Fixpoint str_app (s t : str) : str :=
  match s with
  | EmptyStr => t
  | Str c r => Str c (str_app r t)
  end.

Notation "s ++ t" := (str_app s t) : str_scope.

Fixpoint str_eqb (s t : str) : bool :=
  match s, t with
  | EmptyStr, EmptyStr => true
  | Str c s', Str d t' => (c =? d)%N && str_eqb s' t'
  | _, _ => false
  end.

Fixpoint str_length (s : str) : nat :=
  match s with
  | EmptyStr => 0
  | Str _ r => S (str_length r)
  end.

(** *** Case mappings

    [str.upper], [str.lower] and [str.capitalize] map every cased code
    point, by the tables of the interpreter's Unicode database.  Those
    tables are no part of the notebook; they are given here as CPython
    3.11 has them (Unicode 14.0.0). *)

(** The code points [str.upper] changes, in ascending order, each with
    its full upper-case mapping (Unicode 14.0.0). *)
Definition upper_table : list (codepoint * list codepoint) :=
  [(97, [65]); (98, [66]); (99, [67]); (100, [68]); (101, [69]); (102, [70]);
   (103, [71]); (104, [72]); (105, [73]); (106, [74]); (107, [75]);
   (108, [76]); (109, [77]); (110, [78]); (111, [79]); (112, [80]);
   (113, [81]); (114, [82]); (115, [83]); (116, [84]); (117, [85]);
   (118, [86]); (119, [87]); (120, [88]); (121, [89]); (122, [90]);
   (181, [924]); (223, [83; 83]); (224, [192]); (225, [193]); (226, [194]);
   (227, [195]); (228, [196]); (229, [197]); (230, [198]); (231, [199]);
   (232, [200]); (233, [201]); (234, [202]); (235, [203]); (236, [204]);
   (237, [205]); (238, [206]); (239, [207]); (240, [208]); (241, [209]);
   (242, [210]); (243, [211]); (244, [212]); (245, [213]); (246, [214]);
   (248, [216]); (249, [217]); (250, [218]); (251, [219]); (252, [220]);
   (253, [221]); (254, [222]); (255, [376]); (257, [256]); (259, [258]);
   (261, [260]); (263, [262]); (265, [264]); (267, [266]); (269, [268]);
   (271, [270]); (273, [272]); (275, [274]); (277, [276]); (279, [278]);
   (281, [280]); (283, [282]); (285, [284]); (287, [286]); (289, [288]);
   (291, [290]); (293, [292]); (295, [294]); (297, [296]); (299, [298]);
   (301, [300]); (303, [302]); (305, [73]); (307, [306]); (309, [308]);
   (311, [310]); (314, [313]); (316, [315]); (318, [317]); (320, [319]);
   (322, [321]); (324, [323]); (326, [325]); (328, [327]); (329, [700; 78]);
   (331, [330]); (333, [332]); (335, [334]); (337, [336]); (339, [338]);
   (341, [340]); (343, [342]); (345, [344]); (347, [346]); (349, [348]);
   (351, [350]); (353, [352]); (355, [354]); (357, [356]); (359, [358]);
   (361, [360]); (363, [362]); (365, [364]); (367, [366]); (369, [368]);
   (371, [370]); (373, [372]); (375, [374]); (378, [377]); (380, [379]);
   (382, [381]); (383, [83]); (384, [579]); (387, [386]); (389, [388]);
   (392, [391]); (396, [395]); (402, [401]); (405, [502]); (409, [408]);
   (410, [573]); (414, [544]); (417, [416]); (419, [418]); (421, [420]);
   (424, [423]); (429, [428]); (432, [431]); (436, [435]); (438, [437]);
   (441, [440]); (445, [444]); (447, [503]); (453, [452]); (454, [452]);
   (456, [455]); (457, [455]); (459, [458]); (460, [458]); (462, [461]);
   (464, [463]); (466, [465]); (468, [467]); (470, [469]); (472, [471]);
   (474, [473]); (476, [475]); (477, [398]); (479, [478]); (481, [480]);
   (483, [482]); (485, [484]); (487, [486]); (489, [488]); (491, [490]);
   (493, [492]); (495, [494]); (496, [74; 780]); (498, [497]); (499, [497]);
   (501, [500]); (505, [504]); (507, [506]); (509, [508]); (511, [510]);
   (513, [512]); (515, [514]); (517, [516]); (519, [518]); (521, [520]);
   (523, [522]); (525, [524]); (527, [526]); (529, [528]); (531, [530]);
   (533, [532]); (535, [534]); (537, [536]); (539, [538]); (541, [540]);
   (543, [542]); (547, [546]); (549, [548]); (551, [550]); (553, [552]);
   (555, [554]); (557, [556]); (559, [558]); (561, [560]); (563, [562]);
   (572, [571]); (575, [11390]); (576, [11391]); (578, [577]); (583, [582]);
   (585, [584]); (587, [586]); (589, [588]); (591, [590]); (592, [11375]);
   (593, [11373]); (594, [11376]); (595, [385]); (596, [390]); (598, [393]);
   (599, [394]); (601, [399]); (603, [400]); (604, [42923]); (608, [403]);
   (609, [42924]); (611, [404]); (613, [42893]); (614, [42922]); (616, [407]);
   (617, [406]); (618, [42926]); (619, [11362]); (620, [42925]); (623, [412]);
   (625, [11374]); (626, [413]); (629, [415]); (637, [11364]); (640, [422]);
   (642, [42949]); (643, [425]); (647, [42929]); (648, [430]); (649, [580]);
   (650, [433]); (651, [434]); (652, [581]); (658, [439]); (669, [42930]);
   (670, [42928]); (837, [921]); (881, [880]); (883, [882]); (887, [886]);
   (891, [1021]); (892, [1022]); (893, [1023]); (912, [921; 776; 769]);
   (940, [902]); (941, [904]); (942, [905]); (943, [906]);
   (944, [933; 776; 769]); (945, [913]); (946, [914]); (947, [915]);
   (948, [916]); (949, [917]); (950, [918]); (951, [919]); (952, [920]);
   (953, [921]); (954, [922]); (955, [923]); (956, [924]); (957, [925]);
   (958, [926]); (959, [927]); (960, [928]); (961, [929]); (962, [931]);
   (963, [931]); (964, [932]); (965, [933]); (966, [934]); (967, [935]);
   (968, [936]); (969, [937]); (970, [938]); (971, [939]); (972, [908]);
   (973, [910]); (974, [911]); (976, [914]); (977, [920]); (981, [934]);
   (982, [928]); (983, [975]); (985, [984]); (987, [986]); (989, [988]);
   (991, [990]); (993, [992]); (995, [994]); (997, [996]); (999, [998]);
   (1001, [1000]); (1003, [1002]); (1005, [1004]); (1007, [1006]);
   (1008, [922]); (1009, [929]); (1010, [1017]); (1011, [895]); (1013, [917]);
   (1016, [1015]); (1019, [1018]); (1072, [1040]); (1073, [1041]);
   (1074, [1042]); (1075, [1043]); (1076, [1044]); (1077, [1045]);
   (1078, [1046]); (1079, [1047]); (1080, [1048]); (1081, [1049]);
   (1082, [1050]); (1083, [1051]); (1084, [1052]); (1085, [1053]);
   (1086, [1054]); (1087, [1055]); (1088, [1056]); (1089, [1057]);
   (1090, [1058]); (1091, [1059]); (1092, [1060]); (1093, [1061]);
   (1094, [1062]); (1095, [1063]); (1096, [1064]); (1097, [1065]);
   (1098, [1066]); (1099, [1067]); (1100, [1068]); (1101, [1069]);
   (1102, [1070]); (1103, [1071]); (1104, [1024]); (1105, [1025]);
   (1106, [1026]); (1107, [1027]); (1108, [1028]); (1109, [1029]);
   (1110, [1030]); (1111, [1031]); (1112, [1032]); (1113, [1033]);
   (1114, [1034]); (1115, [1035]); (1116, [1036]); (1117, [1037]);
   (1118, [1038]); (1119, [1039]); (1121, [1120]); (1123, [1122]);
   (1125, [1124]); (1127, [1126]); (1129, [1128]); (1131, [1130]);
   (1133, [1132]); (1135, [1134]); (1137, [1136]); (1139, [1138]);
   (1141, [1140]); (1143, [1142]); (1145, [1144]); (1147, [1146]);
   (1149, [1148]); (1151, [1150]); (1153, [1152]); (1163, [1162]);
   (1165, [1164]); (1167, [1166]); (1169, [1168]); (1171, [1170]);
   (1173, [1172]); (1175, [1174]); (1177, [1176]); (1179, [1178]);
   (1181, [1180]); (1183, [1182]); (1185, [1184]); (1187, [1186]);
   (1189, [1188]); (1191, [1190]); (1193, [1192]); (1195, [1194]);
   (1197, [1196]); (1199, [1198]); (1201, [1200]); (1203, [1202]);
   (1205, [1204]); (1207, [1206]); (1209, [1208]); (1211, [1210]);
   (1213, [1212]); (1215, [1214]); (1218, [1217]); (1220, [1219]);
   (1222, [1221]); (1224, [1223]); (1226, [1225]); (1228, [1227]);
   (1230, [1229]); (1231, [1216]); (1233, [1232]); (1235, [1234]);
   (1237, [1236]); (1239, [1238]); (1241, [1240]); (1243, [1242]);
   (1245, [1244]); (1247, [1246]); (1249, [1248]); (1251, [1250]);
   (1253, [1252]); (1255, [1254]); (1257, [1256]); (1259, [1258]);
   (1261, [1260]); (1263, [1262]); (1265, [1264]); (1267, [1266]);
   (1269, [1268]); (1271, [1270]); (1273, [1272]); (1275, [1274]);
   (1277, [1276]); (1279, [1278]); (1281, [1280]); (1283, [1282]);
   (1285, [1284]); (1287, [1286]); (1289, [1288]); (1291, [1290]);
   (1293, [1292]); (1295, [1294]); (1297, [1296]); (1299, [1298]);
   (1301, [1300]); (1303, [1302]); (1305, [1304]); (1307, [1306]);
   (1309, [1308]); (1311, [1310]); (1313, [1312]); (1315, [1314]);
   (1317, [1316]); (1319, [1318]); (1321, [1320]); (1323, [1322]);
   (1325, [1324]); (1327, [1326]); (1377, [1329]); (1378, [1330]);
   (1379, [1331]); (1380, [1332]); (1381, [1333]); (1382, [1334]);
   (1383, [1335]); (1384, [1336]); (1385, [1337]); (1386, [1338]);
   (1387, [1339]); (1388, [1340]); (1389, [1341]); (1390, [1342]);
   (1391, [1343]); (1392, [1344]); (1393, [1345]); (1394, [1346]);
   (1395, [1347]); (1396, [1348]); (1397, [1349]); (1398, [1350]);
   (1399, [1351]); (1400, [1352]); (1401, [1353]); (1402, [1354]);
   (1403, [1355]); (1404, [1356]); (1405, [1357]); (1406, [1358]);
   (1407, [1359]); (1408, [1360]); (1409, [1361]); (1410, [1362]);
   (1411, [1363]); (1412, [1364]); (1413, [1365]); (1414, [1366]);
   (1415, [1333; 1362]); (4304, [7312]); (4305, [7313]); (4306, [7314]);
   (4307, [7315]); (4308, [7316]); (4309, [7317]); (4310, [7318]);
   (4311, [7319]); (4312, [7320]); (4313, [7321]); (4314, [7322]);
   (4315, [7323]); (4316, [7324]); (4317, [7325]); (4318, [7326]);
   (4319, [7327]); (4320, [7328]); (4321, [7329]); (4322, [7330]);
   (4323, [7331]); (4324, [7332]); (4325, [7333]); (4326, [7334]);
   (4327, [7335]); (4328, [7336]); (4329, [7337]); (4330, [7338]);
   (4331, [7339]); (4332, [7340]); (4333, [7341]); (4334, [7342]);
   (4335, [7343]); (4336, [7344]); (4337, [7345]); (4338, [7346]);
   (4339, [7347]); (4340, [7348]); (4341, [7349]); (4342, [7350]);
   (4343, [7351]); (4344, [7352]); (4345, [7353]); (4346, [7354]);
   (4349, [7357]); (4350, [7358]); (4351, [7359]); (5112, [5104]);
   (5113, [5105]); (5114, [5106]); (5115, [5107]); (5116, [5108]);
   (5117, [5109]); (7296, [1042]); (7297, [1044]); (7298, [1054]);
   (7299, [1057]); (7300, [1058]); (7301, [1058]); (7302, [1066]);
   (7303, [1122]); (7304, [42570]); (7545, [42877]); (7549, [11363]);
   (7566, [42950]); (7681, [7680]); (7683, [7682]); (7685, [7684]);
   (7687, [7686]); (7689, [7688]); (7691, [7690]); (7693, [7692]);
   (7695, [7694]); (7697, [7696]); (7699, [7698]); (7701, [7700]);
   (7703, [7702]); (7705, [7704]); (7707, [7706]); (7709, [7708]);
   (7711, [7710]); (7713, [7712]); (7715, [7714]); (7717, [7716]);
   (7719, [7718]); (7721, [7720]); (7723, [7722]); (7725, [7724]);
   (7727, [7726]); (7729, [7728]); (7731, [7730]); (7733, [7732]);
   (7735, [7734]); (7737, [7736]); (7739, [7738]); (7741, [7740]);
   (7743, [7742]); (7745, [7744]); (7747, [7746]); (7749, [7748]);
   (7751, [7750]); (7753, [7752]); (7755, [7754]); (7757, [7756]);
   (7759, [7758]); (7761, [7760]); (7763, [7762]); (7765, [7764]);
   (7767, [7766]); (7769, [7768]); (7771, [7770]); (7773, [7772]);
   (7775, [7774]); (7777, [7776]); (7779, [7778]); (7781, [7780]);
   (7783, [7782]); (7785, [7784]); (7787, [7786]); (7789, [7788]);
   (7791, [7790]); (7793, [7792]); (7795, [7794]); (7797, [7796]);
   (7799, [7798]); (7801, [7800]); (7803, [7802]); (7805, [7804]);
   (7807, [7806]); (7809, [7808]); (7811, [7810]); (7813, [7812]);
   (7815, [7814]); (7817, [7816]); (7819, [7818]); (7821, [7820]);
   (7823, [7822]); (7825, [7824]); (7827, [7826]); (7829, [7828]);
   (7830, [72; 817]); (7831, [84; 776]); (7832, [87; 778]); (7833, [89; 778]);
   (7834, [65; 702]); (7835, [7776]); (7841, [7840]); (7843, [7842]);
   (7845, [7844]); (7847, [7846]); (7849, [7848]); (7851, [7850]);
   (7853, [7852]); (7855, [7854]); (7857, [7856]); (7859, [7858]);
   (7861, [7860]); (7863, [7862]); (7865, [7864]); (7867, [7866]);
   (7869, [7868]); (7871, [7870]); (7873, [7872]); (7875, [7874]);
   (7877, [7876]); (7879, [7878]); (7881, [7880]); (7883, [7882]);
   (7885, [7884]); (7887, [7886]); (7889, [7888]); (7891, [7890]);
   (7893, [7892]); (7895, [7894]); (7897, [7896]); (7899, [7898]);
   (7901, [7900]); (7903, [7902]); (7905, [7904]); (7907, [7906]);
   (7909, [7908]); (7911, [7910]); (7913, [7912]); (7915, [7914]);
   (7917, [7916]); (7919, [7918]); (7921, [7920]); (7923, [7922]);
   (7925, [7924]); (7927, [7926]); (7929, [7928]); (7931, [7930]);
   (7933, [7932]); (7935, [7934]); (7936, [7944]); (7937, [7945]);
   (7938, [7946]); (7939, [7947]); (7940, [7948]); (7941, [7949]);
   (7942, [7950]); (7943, [7951]); (7952, [7960]); (7953, [7961]);
   (7954, [7962]); (7955, [7963]); (7956, [7964]); (7957, [7965]);
   (7968, [7976]); (7969, [7977]); (7970, [7978]); (7971, [7979]);
   (7972, [7980]); (7973, [7981]); (7974, [7982]); (7975, [7983]);
   (7984, [7992]); (7985, [7993]); (7986, [7994]); (7987, [7995]);
   (7988, [7996]); (7989, [7997]); (7990, [7998]); (7991, [7999]);
   (8000, [8008]); (8001, [8009]); (8002, [8010]); (8003, [8011]);
   (8004, [8012]); (8005, [8013]); (8016, [933; 787]); (8017, [8025]);
   (8018, [933; 787; 768]); (8019, [8027]); (8020, [933; 787; 769]);
   (8021, [8029]); (8022, [933; 787; 834]); (8023, [8031]); (8032, [8040]);
   (8033, [8041]); (8034, [8042]); (8035, [8043]); (8036, [8044]);
   (8037, [8045]); (8038, [8046]); (8039, [8047]); (8048, [8122]);
   (8049, [8123]); (8050, [8136]); (8051, [8137]); (8052, [8138]);
   (8053, [8139]); (8054, [8154]); (8055, [8155]); (8056, [8184]);
   (8057, [8185]); (8058, [8170]); (8059, [8171]); (8060, [8186]);
   (8061, [8187]); (8064, [7944; 921]); (8065, [7945; 921]);
   (8066, [7946; 921]); (8067, [7947; 921]); (8068, [7948; 921]);
   (8069, [7949; 921]); (8070, [7950; 921]); (8071, [7951; 921]);
   (8072, [7944; 921]); (8073, [7945; 921]); (8074, [7946; 921]);
   (8075, [7947; 921]); (8076, [7948; 921]); (8077, [7949; 921]);
   (8078, [7950; 921]); (8079, [7951; 921]); (8080, [7976; 921]);
   (8081, [7977; 921]); (8082, [7978; 921]); (8083, [7979; 921]);
   (8084, [7980; 921]); (8085, [7981; 921]); (8086, [7982; 921]);
   (8087, [7983; 921]); (8088, [7976; 921]); (8089, [7977; 921]);
   (8090, [7978; 921]); (8091, [7979; 921]); (8092, [7980; 921]);
   (8093, [7981; 921]); (8094, [7982; 921]); (8095, [7983; 921]);
   (8096, [8040; 921]); (8097, [8041; 921]); (8098, [8042; 921]);
   (8099, [8043; 921]); (8100, [8044; 921]); (8101, [8045; 921]);
   (8102, [8046; 921]); (8103, [8047; 921]); (8104, [8040; 921]);
   (8105, [8041; 921]); (8106, [8042; 921]); (8107, [8043; 921]);
   (8108, [8044; 921]); (8109, [8045; 921]); (8110, [8046; 921]);
   (8111, [8047; 921]); (8112, [8120]); (8113, [8121]); (8114, [8122; 921]);
   (8115, [913; 921]); (8116, [902; 921]); (8118, [913; 834]);
   (8119, [913; 834; 921]); (8124, [913; 921]); (8126, [921]);
   (8130, [8138; 921]); (8131, [919; 921]); (8132, [905; 921]);
   (8134, [919; 834]); (8135, [919; 834; 921]); (8140, [919; 921]);
   (8144, [8152]); (8145, [8153]); (8146, [921; 776; 768]);
   (8147, [921; 776; 769]); (8150, [921; 834]); (8151, [921; 776; 834]);
   (8160, [8168]); (8161, [8169]); (8162, [933; 776; 768]);
   (8163, [933; 776; 769]); (8164, [929; 787]); (8165, [8172]);
   (8166, [933; 834]); (8167, [933; 776; 834]); (8178, [8186; 921]);
   (8179, [937; 921]); (8180, [911; 921]); (8182, [937; 834]);
   (8183, [937; 834; 921]); (8188, [937; 921]); (8526, [8498]);
   (8560, [8544]); (8561, [8545]); (8562, [8546]); (8563, [8547]);
   (8564, [8548]); (8565, [8549]); (8566, [8550]); (8567, [8551]);
   (8568, [8552]); (8569, [8553]); (8570, [8554]); (8571, [8555]);
   (8572, [8556]); (8573, [8557]); (8574, [8558]); (8575, [8559]);
   (8580, [8579]); (9424, [9398]); (9425, [9399]); (9426, [9400]);
   (9427, [9401]); (9428, [9402]); (9429, [9403]); (9430, [9404]);
   (9431, [9405]); (9432, [9406]); (9433, [9407]); (9434, [9408]);
   (9435, [9409]); (9436, [9410]); (9437, [9411]); (9438, [9412]);
   (9439, [9413]); (9440, [9414]); (9441, [9415]); (9442, [9416]);
   (9443, [9417]); (9444, [9418]); (9445, [9419]); (9446, [9420]);
   (9447, [9421]); (9448, [9422]); (9449, [9423]); (11312, [11264]);
   (11313, [11265]); (11314, [11266]); (11315, [11267]); (11316, [11268]);
   (11317, [11269]); (11318, [11270]); (11319, [11271]); (11320, [11272]);
   (11321, [11273]); (11322, [11274]); (11323, [11275]); (11324, [11276]);
   (11325, [11277]); (11326, [11278]); (11327, [11279]); (11328, [11280]);
   (11329, [11281]); (11330, [11282]); (11331, [11283]); (11332, [11284]);
   (11333, [11285]); (11334, [11286]); (11335, [11287]); (11336, [11288]);
   (11337, [11289]); (11338, [11290]); (11339, [11291]); (11340, [11292]);
   (11341, [11293]); (11342, [11294]); (11343, [11295]); (11344, [11296]);
   (11345, [11297]); (11346, [11298]); (11347, [11299]); (11348, [11300]);
   (11349, [11301]); (11350, [11302]); (11351, [11303]); (11352, [11304]);
   (11353, [11305]); (11354, [11306]); (11355, [11307]); (11356, [11308]);
   (11357, [11309]); (11358, [11310]); (11359, [11311]); (11361, [11360]);
   (11365, [570]); (11366, [574]); (11368, [11367]); (11370, [11369]);
   (11372, [11371]); (11379, [11378]); (11382, [11381]); (11393, [11392]);
   (11395, [11394]); (11397, [11396]); (11399, [11398]); (11401, [11400]);
   (11403, [11402]); (11405, [11404]); (11407, [11406]); (11409, [11408]);
   (11411, [11410]); (11413, [11412]); (11415, [11414]); (11417, [11416]);
   (11419, [11418]); (11421, [11420]); (11423, [11422]); (11425, [11424]);
   (11427, [11426]); (11429, [11428]); (11431, [11430]); (11433, [11432]);
   (11435, [11434]); (11437, [11436]); (11439, [11438]); (11441, [11440]);
   (11443, [11442]); (11445, [11444]); (11447, [11446]); (11449, [11448]);
   (11451, [11450]); (11453, [11452]); (11455, [11454]); (11457, [11456]);
   (11459, [11458]); (11461, [11460]); (11463, [11462]); (11465, [11464]);
   (11467, [11466]); (11469, [11468]); (11471, [11470]); (11473, [11472]);
   (11475, [11474]); (11477, [11476]); (11479, [11478]); (11481, [11480]);
   (11483, [11482]); (11485, [11484]); (11487, [11486]); (11489, [11488]);
   (11491, [11490]); (11500, [11499]); (11502, [11501]); (11507, [11506]);
   (11520, [4256]); (11521, [4257]); (11522, [4258]); (11523, [4259]);
   (11524, [4260]); (11525, [4261]); (11526, [4262]); (11527, [4263]);
   (11528, [4264]); (11529, [4265]); (11530, [4266]); (11531, [4267]);
   (11532, [4268]); (11533, [4269]); (11534, [4270]); (11535, [4271]);
   (11536, [4272]); (11537, [4273]); (11538, [4274]); (11539, [4275]);
   (11540, [4276]); (11541, [4277]); (11542, [4278]); (11543, [4279]);
   (11544, [4280]); (11545, [4281]); (11546, [4282]); (11547, [4283]);
   (11548, [4284]); (11549, [4285]); (11550, [4286]); (11551, [4287]);
   (11552, [4288]); (11553, [4289]); (11554, [4290]); (11555, [4291]);
   (11556, [4292]); (11557, [4293]); (11559, [4295]); (11565, [4301]);
   (42561, [42560]); (42563, [42562]); (42565, [42564]); (42567, [42566]);
   (42569, [42568]); (42571, [42570]); (42573, [42572]); (42575, [42574]);
   (42577, [42576]); (42579, [42578]); (42581, [42580]); (42583, [42582]);
   (42585, [42584]); (42587, [42586]); (42589, [42588]); (42591, [42590]);
   (42593, [42592]); (42595, [42594]); (42597, [42596]); (42599, [42598]);
   (42601, [42600]); (42603, [42602]); (42605, [42604]); (42625, [42624]);
   (42627, [42626]); (42629, [42628]); (42631, [42630]); (42633, [42632]);
   (42635, [42634]); (42637, [42636]); (42639, [42638]); (42641, [42640]);
   (42643, [42642]); (42645, [42644]); (42647, [42646]); (42649, [42648]);
   (42651, [42650]); (42787, [42786]); (42789, [42788]); (42791, [42790]);
   (42793, [42792]); (42795, [42794]); (42797, [42796]); (42799, [42798]);
   (42803, [42802]); (42805, [42804]); (42807, [42806]); (42809, [42808]);
   (42811, [42810]); (42813, [42812]); (42815, [42814]); (42817, [42816]);
   (42819, [42818]); (42821, [42820]); (42823, [42822]); (42825, [42824]);
   (42827, [42826]); (42829, [42828]); (42831, [42830]); (42833, [42832]);
   (42835, [42834]); (42837, [42836]); (42839, [42838]); (42841, [42840]);
   (42843, [42842]); (42845, [42844]); (42847, [42846]); (42849, [42848]);
   (42851, [42850]); (42853, [42852]); (42855, [42854]); (42857, [42856]);
   (42859, [42858]); (42861, [42860]); (42863, [42862]); (42874, [42873]);
   (42876, [42875]); (42879, [42878]); (42881, [42880]); (42883, [42882]);
   (42885, [42884]); (42887, [42886]); (42892, [42891]); (42897, [42896]);
   (42899, [42898]); (42900, [42948]); (42903, [42902]); (42905, [42904]);
   (42907, [42906]); (42909, [42908]); (42911, [42910]); (42913, [42912]);
   (42915, [42914]); (42917, [42916]); (42919, [42918]); (42921, [42920]);
   (42933, [42932]); (42935, [42934]); (42937, [42936]); (42939, [42938]);
   (42941, [42940]); (42943, [42942]); (42945, [42944]); (42947, [42946]);
   (42952, [42951]); (42954, [42953]); (42961, [42960]); (42967, [42966]);
   (42969, [42968]); (42998, [42997]); (43859, [42931]); (43888, [5024]);
   (43889, [5025]); (43890, [5026]); (43891, [5027]); (43892, [5028]);
   (43893, [5029]); (43894, [5030]); (43895, [5031]); (43896, [5032]);
   (43897, [5033]); (43898, [5034]); (43899, [5035]); (43900, [5036]);
   (43901, [5037]); (43902, [5038]); (43903, [5039]); (43904, [5040]);
   (43905, [5041]); (43906, [5042]); (43907, [5043]); (43908, [5044]);
   (43909, [5045]); (43910, [5046]); (43911, [5047]); (43912, [5048]);
   (43913, [5049]); (43914, [5050]); (43915, [5051]); (43916, [5052]);
   (43917, [5053]); (43918, [5054]); (43919, [5055]); (43920, [5056]);
   (43921, [5057]); (43922, [5058]); (43923, [5059]); (43924, [5060]);
   (43925, [5061]); (43926, [5062]); (43927, [5063]); (43928, [5064]);
   (43929, [5065]); (43930, [5066]); (43931, [5067]); (43932, [5068]);
   (43933, [5069]); (43934, [5070]); (43935, [5071]); (43936, [5072]);
   (43937, [5073]); (43938, [5074]); (43939, [5075]); (43940, [5076]);
   (43941, [5077]); (43942, [5078]); (43943, [5079]); (43944, [5080]);
   (43945, [5081]); (43946, [5082]); (43947, [5083]); (43948, [5084]);
   (43949, [5085]); (43950, [5086]); (43951, [5087]); (43952, [5088]);
   (43953, [5089]); (43954, [5090]); (43955, [5091]); (43956, [5092]);
   (43957, [5093]); (43958, [5094]); (43959, [5095]); (43960, [5096]);
   (43961, [5097]); (43962, [5098]); (43963, [5099]); (43964, [5100]);
   (43965, [5101]); (43966, [5102]); (43967, [5103]); (64256, [70; 70]);
   (64257, [70; 73]); (64258, [70; 76]); (64259, [70; 70; 73]);
   (64260, [70; 70; 76]); (64261, [83; 84]); (64262, [83; 84]);
   (64275, [1348; 1350]); (64276, [1348; 1333]); (64277, [1348; 1339]);
   (64278, [1358; 1350]); (64279, [1348; 1341]); (65345, [65313]);
   (65346, [65314]); (65347, [65315]); (65348, [65316]); (65349, [65317]);
   (65350, [65318]); (65351, [65319]); (65352, [65320]); (65353, [65321]);
   (65354, [65322]); (65355, [65323]); (65356, [65324]); (65357, [65325]);
   (65358, [65326]); (65359, [65327]); (65360, [65328]); (65361, [65329]);
   (65362, [65330]); (65363, [65331]); (65364, [65332]); (65365, [65333]);
   (65366, [65334]); (65367, [65335]); (65368, [65336]); (65369, [65337]);
   (65370, [65338]); (66600, [66560]); (66601, [66561]); (66602, [66562]);
   (66603, [66563]); (66604, [66564]); (66605, [66565]); (66606, [66566]);
   (66607, [66567]); (66608, [66568]); (66609, [66569]); (66610, [66570]);
   (66611, [66571]); (66612, [66572]); (66613, [66573]); (66614, [66574]);
   (66615, [66575]); (66616, [66576]); (66617, [66577]); (66618, [66578]);
   (66619, [66579]); (66620, [66580]); (66621, [66581]); (66622, [66582]);
   (66623, [66583]); (66624, [66584]); (66625, [66585]); (66626, [66586]);
   (66627, [66587]); (66628, [66588]); (66629, [66589]); (66630, [66590]);
   (66631, [66591]); (66632, [66592]); (66633, [66593]); (66634, [66594]);
   (66635, [66595]); (66636, [66596]); (66637, [66597]); (66638, [66598]);
   (66639, [66599]); (66776, [66736]); (66777, [66737]); (66778, [66738]);
   (66779, [66739]); (66780, [66740]); (66781, [66741]); (66782, [66742]);
   (66783, [66743]); (66784, [66744]); (66785, [66745]); (66786, [66746]);
   (66787, [66747]); (66788, [66748]); (66789, [66749]); (66790, [66750]);
   (66791, [66751]); (66792, [66752]); (66793, [66753]); (66794, [66754]);
   (66795, [66755]); (66796, [66756]); (66797, [66757]); (66798, [66758]);
   (66799, [66759]); (66800, [66760]); (66801, [66761]); (66802, [66762]);
   (66803, [66763]); (66804, [66764]); (66805, [66765]); (66806, [66766]);
   (66807, [66767]); (66808, [66768]); (66809, [66769]); (66810, [66770]);
   (66811, [66771]); (66967, [66928]); (66968, [66929]); (66969, [66930]);
   (66970, [66931]); (66971, [66932]); (66972, [66933]); (66973, [66934]);
   (66974, [66935]); (66975, [66936]); (66976, [66937]); (66977, [66938]);
   (66979, [66940]); (66980, [66941]); (66981, [66942]); (66982, [66943]);
   (66983, [66944]); (66984, [66945]); (66985, [66946]); (66986, [66947]);
   (66987, [66948]); (66988, [66949]); (66989, [66950]); (66990, [66951]);
   (66991, [66952]); (66992, [66953]); (66993, [66954]); (66995, [66956]);
   (66996, [66957]); (66997, [66958]); (66998, [66959]); (66999, [66960]);
   (67000, [66961]); (67001, [66962]); (67003, [66964]); (67004, [66965]);
   (68800, [68736]); (68801, [68737]); (68802, [68738]); (68803, [68739]);
   (68804, [68740]); (68805, [68741]); (68806, [68742]); (68807, [68743]);
   (68808, [68744]); (68809, [68745]); (68810, [68746]); (68811, [68747]);
   (68812, [68748]); (68813, [68749]); (68814, [68750]); (68815, [68751]);
   (68816, [68752]); (68817, [68753]); (68818, [68754]); (68819, [68755]);
   (68820, [68756]); (68821, [68757]); (68822, [68758]); (68823, [68759]);
   (68824, [68760]); (68825, [68761]); (68826, [68762]); (68827, [68763]);
   (68828, [68764]); (68829, [68765]); (68830, [68766]); (68831, [68767]);
   (68832, [68768]); (68833, [68769]); (68834, [68770]); (68835, [68771]);
   (68836, [68772]); (68837, [68773]); (68838, [68774]); (68839, [68775]);
   (68840, [68776]); (68841, [68777]); (68842, [68778]); (68843, [68779]);
   (68844, [68780]); (68845, [68781]); (68846, [68782]); (68847, [68783]);
   (68848, [68784]); (68849, [68785]); (68850, [68786]); (71872, [71840]);
   (71873, [71841]); (71874, [71842]); (71875, [71843]); (71876, [71844]);
   (71877, [71845]); (71878, [71846]); (71879, [71847]); (71880, [71848]);
   (71881, [71849]); (71882, [71850]); (71883, [71851]); (71884, [71852]);
   (71885, [71853]); (71886, [71854]); (71887, [71855]); (71888, [71856]);
   (71889, [71857]); (71890, [71858]); (71891, [71859]); (71892, [71860]);
   (71893, [71861]); (71894, [71862]); (71895, [71863]); (71896, [71864]);
   (71897, [71865]); (71898, [71866]); (71899, [71867]); (71900, [71868]);
   (71901, [71869]); (71902, [71870]); (71903, [71871]); (93792, [93760]);
   (93793, [93761]); (93794, [93762]); (93795, [93763]); (93796, [93764]);
   (93797, [93765]); (93798, [93766]); (93799, [93767]); (93800, [93768]);
   (93801, [93769]); (93802, [93770]); (93803, [93771]); (93804, [93772]);
   (93805, [93773]); (93806, [93774]); (93807, [93775]); (93808, [93776]);
   (93809, [93777]); (93810, [93778]); (93811, [93779]); (93812, [93780]);
   (93813, [93781]); (93814, [93782]); (93815, [93783]); (93816, [93784]);
   (93817, [93785]); (93818, [93786]); (93819, [93787]); (93820, [93788]);
   (93821, [93789]); (93822, [93790]); (93823, [93791]); (125218, [125184]);
   (125219, [125185]); (125220, [125186]); (125221, [125187]);
   (125222, [125188]); (125223, [125189]); (125224, [125190]);
   (125225, [125191]); (125226, [125192]); (125227, [125193]);
   (125228, [125194]); (125229, [125195]); (125230, [125196]);
   (125231, [125197]); (125232, [125198]); (125233, [125199]);
   (125234, [125200]); (125235, [125201]); (125236, [125202]);
   (125237, [125203]); (125238, [125204]); (125239, [125205]);
   (125240, [125206]); (125241, [125207]); (125242, [125208]);
   (125243, [125209]); (125244, [125210]); (125245, [125211]);
   (125246, [125212]); (125247, [125213]); (125248, [125214]);
   (125249, [125215]); (125250, [125216]); (125251, [125217])]%N.

(** The code points [str.lower] changes outside the final-sigma context,
    each with its full lower-case mapping. *)
Definition lower_table : list (codepoint * list codepoint) :=
  [(65, [97]); (66, [98]); (67, [99]); (68, [100]); (69, [101]); (70, [102]);
   (71, [103]); (72, [104]); (73, [105]); (74, [106]); (75, [107]);
   (76, [108]); (77, [109]); (78, [110]); (79, [111]); (80, [112]);
   (81, [113]); (82, [114]); (83, [115]); (84, [116]); (85, [117]);
   (86, [118]); (87, [119]); (88, [120]); (89, [121]); (90, [122]);
   (192, [224]); (193, [225]); (194, [226]); (195, [227]); (196, [228]);
   (197, [229]); (198, [230]); (199, [231]); (200, [232]); (201, [233]);
   (202, [234]); (203, [235]); (204, [236]); (205, [237]); (206, [238]);
   (207, [239]); (208, [240]); (209, [241]); (210, [242]); (211, [243]);
   (212, [244]); (213, [245]); (214, [246]); (216, [248]); (217, [249]);
   (218, [250]); (219, [251]); (220, [252]); (221, [253]); (222, [254]);
   (256, [257]); (258, [259]); (260, [261]); (262, [263]); (264, [265]);
   (266, [267]); (268, [269]); (270, [271]); (272, [273]); (274, [275]);
   (276, [277]); (278, [279]); (280, [281]); (282, [283]); (284, [285]);
   (286, [287]); (288, [289]); (290, [291]); (292, [293]); (294, [295]);
   (296, [297]); (298, [299]); (300, [301]); (302, [303]); (304, [105; 775]);
   (306, [307]); (308, [309]); (310, [311]); (313, [314]); (315, [316]);
   (317, [318]); (319, [320]); (321, [322]); (323, [324]); (325, [326]);
   (327, [328]); (330, [331]); (332, [333]); (334, [335]); (336, [337]);
   (338, [339]); (340, [341]); (342, [343]); (344, [345]); (346, [347]);
   (348, [349]); (350, [351]); (352, [353]); (354, [355]); (356, [357]);
   (358, [359]); (360, [361]); (362, [363]); (364, [365]); (366, [367]);
   (368, [369]); (370, [371]); (372, [373]); (374, [375]); (376, [255]);
   (377, [378]); (379, [380]); (381, [382]); (385, [595]); (386, [387]);
   (388, [389]); (390, [596]); (391, [392]); (393, [598]); (394, [599]);
   (395, [396]); (398, [477]); (399, [601]); (400, [603]); (401, [402]);
   (403, [608]); (404, [611]); (406, [617]); (407, [616]); (408, [409]);
   (412, [623]); (413, [626]); (415, [629]); (416, [417]); (418, [419]);
   (420, [421]); (422, [640]); (423, [424]); (425, [643]); (428, [429]);
   (430, [648]); (431, [432]); (433, [650]); (434, [651]); (435, [436]);
   (437, [438]); (439, [658]); (440, [441]); (444, [445]); (452, [454]);
   (453, [454]); (455, [457]); (456, [457]); (458, [460]); (459, [460]);
   (461, [462]); (463, [464]); (465, [466]); (467, [468]); (469, [470]);
   (471, [472]); (473, [474]); (475, [476]); (478, [479]); (480, [481]);
   (482, [483]); (484, [485]); (486, [487]); (488, [489]); (490, [491]);
   (492, [493]); (494, [495]); (497, [499]); (498, [499]); (500, [501]);
   (502, [405]); (503, [447]); (504, [505]); (506, [507]); (508, [509]);
   (510, [511]); (512, [513]); (514, [515]); (516, [517]); (518, [519]);
   (520, [521]); (522, [523]); (524, [525]); (526, [527]); (528, [529]);
   (530, [531]); (532, [533]); (534, [535]); (536, [537]); (538, [539]);
   (540, [541]); (542, [543]); (544, [414]); (546, [547]); (548, [549]);
   (550, [551]); (552, [553]); (554, [555]); (556, [557]); (558, [559]);
   (560, [561]); (562, [563]); (570, [11365]); (571, [572]); (573, [410]);
   (574, [11366]); (577, [578]); (579, [384]); (580, [649]); (581, [652]);
   (582, [583]); (584, [585]); (586, [587]); (588, [589]); (590, [591]);
   (880, [881]); (882, [883]); (886, [887]); (895, [1011]); (902, [940]);
   (904, [941]); (905, [942]); (906, [943]); (908, [972]); (910, [973]);
   (911, [974]); (913, [945]); (914, [946]); (915, [947]); (916, [948]);
   (917, [949]); (918, [950]); (919, [951]); (920, [952]); (921, [953]);
   (922, [954]); (923, [955]); (924, [956]); (925, [957]); (926, [958]);
   (927, [959]); (928, [960]); (929, [961]); (931, [963]); (932, [964]);
   (933, [965]); (934, [966]); (935, [967]); (936, [968]); (937, [969]);
   (938, [970]); (939, [971]); (975, [983]); (984, [985]); (986, [987]);
   (988, [989]); (990, [991]); (992, [993]); (994, [995]); (996, [997]);
   (998, [999]); (1000, [1001]); (1002, [1003]); (1004, [1005]);
   (1006, [1007]); (1012, [952]); (1015, [1016]); (1017, [1010]);
   (1018, [1019]); (1021, [891]); (1022, [892]); (1023, [893]);
   (1024, [1104]); (1025, [1105]); (1026, [1106]); (1027, [1107]);
   (1028, [1108]); (1029, [1109]); (1030, [1110]); (1031, [1111]);
   (1032, [1112]); (1033, [1113]); (1034, [1114]); (1035, [1115]);
   (1036, [1116]); (1037, [1117]); (1038, [1118]); (1039, [1119]);
   (1040, [1072]); (1041, [1073]); (1042, [1074]); (1043, [1075]);
   (1044, [1076]); (1045, [1077]); (1046, [1078]); (1047, [1079]);
   (1048, [1080]); (1049, [1081]); (1050, [1082]); (1051, [1083]);
   (1052, [1084]); (1053, [1085]); (1054, [1086]); (1055, [1087]);
   (1056, [1088]); (1057, [1089]); (1058, [1090]); (1059, [1091]);
   (1060, [1092]); (1061, [1093]); (1062, [1094]); (1063, [1095]);
   (1064, [1096]); (1065, [1097]); (1066, [1098]); (1067, [1099]);
   (1068, [1100]); (1069, [1101]); (1070, [1102]); (1071, [1103]);
   (1120, [1121]); (1122, [1123]); (1124, [1125]); (1126, [1127]);
   (1128, [1129]); (1130, [1131]); (1132, [1133]); (1134, [1135]);
   (1136, [1137]); (1138, [1139]); (1140, [1141]); (1142, [1143]);
   (1144, [1145]); (1146, [1147]); (1148, [1149]); (1150, [1151]);
   (1152, [1153]); (1162, [1163]); (1164, [1165]); (1166, [1167]);
   (1168, [1169]); (1170, [1171]); (1172, [1173]); (1174, [1175]);
   (1176, [1177]); (1178, [1179]); (1180, [1181]); (1182, [1183]);
   (1184, [1185]); (1186, [1187]); (1188, [1189]); (1190, [1191]);
   (1192, [1193]); (1194, [1195]); (1196, [1197]); (1198, [1199]);
   (1200, [1201]); (1202, [1203]); (1204, [1205]); (1206, [1207]);
   (1208, [1209]); (1210, [1211]); (1212, [1213]); (1214, [1215]);
   (1216, [1231]); (1217, [1218]); (1219, [1220]); (1221, [1222]);
   (1223, [1224]); (1225, [1226]); (1227, [1228]); (1229, [1230]);
   (1232, [1233]); (1234, [1235]); (1236, [1237]); (1238, [1239]);
   (1240, [1241]); (1242, [1243]); (1244, [1245]); (1246, [1247]);
   (1248, [1249]); (1250, [1251]); (1252, [1253]); (1254, [1255]);
   (1256, [1257]); (1258, [1259]); (1260, [1261]); (1262, [1263]);
   (1264, [1265]); (1266, [1267]); (1268, [1269]); (1270, [1271]);
   (1272, [1273]); (1274, [1275]); (1276, [1277]); (1278, [1279]);
   (1280, [1281]); (1282, [1283]); (1284, [1285]); (1286, [1287]);
   (1288, [1289]); (1290, [1291]); (1292, [1293]); (1294, [1295]);
   (1296, [1297]); (1298, [1299]); (1300, [1301]); (1302, [1303]);
   (1304, [1305]); (1306, [1307]); (1308, [1309]); (1310, [1311]);
   (1312, [1313]); (1314, [1315]); (1316, [1317]); (1318, [1319]);
   (1320, [1321]); (1322, [1323]); (1324, [1325]); (1326, [1327]);
   (1329, [1377]); (1330, [1378]); (1331, [1379]); (1332, [1380]);
   (1333, [1381]); (1334, [1382]); (1335, [1383]); (1336, [1384]);
   (1337, [1385]); (1338, [1386]); (1339, [1387]); (1340, [1388]);
   (1341, [1389]); (1342, [1390]); (1343, [1391]); (1344, [1392]);
   (1345, [1393]); (1346, [1394]); (1347, [1395]); (1348, [1396]);
   (1349, [1397]); (1350, [1398]); (1351, [1399]); (1352, [1400]);
   (1353, [1401]); (1354, [1402]); (1355, [1403]); (1356, [1404]);
   (1357, [1405]); (1358, [1406]); (1359, [1407]); (1360, [1408]);
   (1361, [1409]); (1362, [1410]); (1363, [1411]); (1364, [1412]);
   (1365, [1413]); (1366, [1414]); (4256, [11520]); (4257, [11521]);
   (4258, [11522]); (4259, [11523]); (4260, [11524]); (4261, [11525]);
   (4262, [11526]); (4263, [11527]); (4264, [11528]); (4265, [11529]);
   (4266, [11530]); (4267, [11531]); (4268, [11532]); (4269, [11533]);
   (4270, [11534]); (4271, [11535]); (4272, [11536]); (4273, [11537]);
   (4274, [11538]); (4275, [11539]); (4276, [11540]); (4277, [11541]);
   (4278, [11542]); (4279, [11543]); (4280, [11544]); (4281, [11545]);
   (4282, [11546]); (4283, [11547]); (4284, [11548]); (4285, [11549]);
   (4286, [11550]); (4287, [11551]); (4288, [11552]); (4289, [11553]);
   (4290, [11554]); (4291, [11555]); (4292, [11556]); (4293, [11557]);
   (4295, [11559]); (4301, [11565]); (5024, [43888]); (5025, [43889]);
   (5026, [43890]); (5027, [43891]); (5028, [43892]); (5029, [43893]);
   (5030, [43894]); (5031, [43895]); (5032, [43896]); (5033, [43897]);
   (5034, [43898]); (5035, [43899]); (5036, [43900]); (5037, [43901]);
   (5038, [43902]); (5039, [43903]); (5040, [43904]); (5041, [43905]);
   (5042, [43906]); (5043, [43907]); (5044, [43908]); (5045, [43909]);
   (5046, [43910]); (5047, [43911]); (5048, [43912]); (5049, [43913]);
   (5050, [43914]); (5051, [43915]); (5052, [43916]); (5053, [43917]);
   (5054, [43918]); (5055, [43919]); (5056, [43920]); (5057, [43921]);
   (5058, [43922]); (5059, [43923]); (5060, [43924]); (5061, [43925]);
   (5062, [43926]); (5063, [43927]); (5064, [43928]); (5065, [43929]);
   (5066, [43930]); (5067, [43931]); (5068, [43932]); (5069, [43933]);
   (5070, [43934]); (5071, [43935]); (5072, [43936]); (5073, [43937]);
   (5074, [43938]); (5075, [43939]); (5076, [43940]); (5077, [43941]);
   (5078, [43942]); (5079, [43943]); (5080, [43944]); (5081, [43945]);
   (5082, [43946]); (5083, [43947]); (5084, [43948]); (5085, [43949]);
   (5086, [43950]); (5087, [43951]); (5088, [43952]); (5089, [43953]);
   (5090, [43954]); (5091, [43955]); (5092, [43956]); (5093, [43957]);
   (5094, [43958]); (5095, [43959]); (5096, [43960]); (5097, [43961]);
   (5098, [43962]); (5099, [43963]); (5100, [43964]); (5101, [43965]);
   (5102, [43966]); (5103, [43967]); (5104, [5112]); (5105, [5113]);
   (5106, [5114]); (5107, [5115]); (5108, [5116]); (5109, [5117]);
   (7312, [4304]); (7313, [4305]); (7314, [4306]); (7315, [4307]);
   (7316, [4308]); (7317, [4309]); (7318, [4310]); (7319, [4311]);
   (7320, [4312]); (7321, [4313]); (7322, [4314]); (7323, [4315]);
   (7324, [4316]); (7325, [4317]); (7326, [4318]); (7327, [4319]);
   (7328, [4320]); (7329, [4321]); (7330, [4322]); (7331, [4323]);
   (7332, [4324]); (7333, [4325]); (7334, [4326]); (7335, [4327]);
   (7336, [4328]); (7337, [4329]); (7338, [4330]); (7339, [4331]);
   (7340, [4332]); (7341, [4333]); (7342, [4334]); (7343, [4335]);
   (7344, [4336]); (7345, [4337]); (7346, [4338]); (7347, [4339]);
   (7348, [4340]); (7349, [4341]); (7350, [4342]); (7351, [4343]);
   (7352, [4344]); (7353, [4345]); (7354, [4346]); (7357, [4349]);
   (7358, [4350]); (7359, [4351]); (7680, [7681]); (7682, [7683]);
   (7684, [7685]); (7686, [7687]); (7688, [7689]); (7690, [7691]);
   (7692, [7693]); (7694, [7695]); (7696, [7697]); (7698, [7699]);
   (7700, [7701]); (7702, [7703]); (7704, [7705]); (7706, [7707]);
   (7708, [7709]); (7710, [7711]); (7712, [7713]); (7714, [7715]);
   (7716, [7717]); (7718, [7719]); (7720, [7721]); (7722, [7723]);
   (7724, [7725]); (7726, [7727]); (7728, [7729]); (7730, [7731]);
   (7732, [7733]); (7734, [7735]); (7736, [7737]); (7738, [7739]);
   (7740, [7741]); (7742, [7743]); (7744, [7745]); (7746, [7747]);
   (7748, [7749]); (7750, [7751]); (7752, [7753]); (7754, [7755]);
   (7756, [7757]); (7758, [7759]); (7760, [7761]); (7762, [7763]);
   (7764, [7765]); (7766, [7767]); (7768, [7769]); (7770, [7771]);
   (7772, [7773]); (7774, [7775]); (7776, [7777]); (7778, [7779]);
   (7780, [7781]); (7782, [7783]); (7784, [7785]); (7786, [7787]);
   (7788, [7789]); (7790, [7791]); (7792, [7793]); (7794, [7795]);
   (7796, [7797]); (7798, [7799]); (7800, [7801]); (7802, [7803]);
   (7804, [7805]); (7806, [7807]); (7808, [7809]); (7810, [7811]);
   (7812, [7813]); (7814, [7815]); (7816, [7817]); (7818, [7819]);
   (7820, [7821]); (7822, [7823]); (7824, [7825]); (7826, [7827]);
   (7828, [7829]); (7838, [223]); (7840, [7841]); (7842, [7843]);
   (7844, [7845]); (7846, [7847]); (7848, [7849]); (7850, [7851]);
   (7852, [7853]); (7854, [7855]); (7856, [7857]); (7858, [7859]);
   (7860, [7861]); (7862, [7863]); (7864, [7865]); (7866, [7867]);
   (7868, [7869]); (7870, [7871]); (7872, [7873]); (7874, [7875]);
   (7876, [7877]); (7878, [7879]); (7880, [7881]); (7882, [7883]);
   (7884, [7885]); (7886, [7887]); (7888, [7889]); (7890, [7891]);
   (7892, [7893]); (7894, [7895]); (7896, [7897]); (7898, [7899]);
   (7900, [7901]); (7902, [7903]); (7904, [7905]); (7906, [7907]);
   (7908, [7909]); (7910, [7911]); (7912, [7913]); (7914, [7915]);
   (7916, [7917]); (7918, [7919]); (7920, [7921]); (7922, [7923]);
   (7924, [7925]); (7926, [7927]); (7928, [7929]); (7930, [7931]);
   (7932, [7933]); (7934, [7935]); (7944, [7936]); (7945, [7937]);
   (7946, [7938]); (7947, [7939]); (7948, [7940]); (7949, [7941]);
   (7950, [7942]); (7951, [7943]); (7960, [7952]); (7961, [7953]);
   (7962, [7954]); (7963, [7955]); (7964, [7956]); (7965, [7957]);
   (7976, [7968]); (7977, [7969]); (7978, [7970]); (7979, [7971]);
   (7980, [7972]); (7981, [7973]); (7982, [7974]); (7983, [7975]);
   (7992, [7984]); (7993, [7985]); (7994, [7986]); (7995, [7987]);
   (7996, [7988]); (7997, [7989]); (7998, [7990]); (7999, [7991]);
   (8008, [8000]); (8009, [8001]); (8010, [8002]); (8011, [8003]);
   (8012, [8004]); (8013, [8005]); (8025, [8017]); (8027, [8019]);
   (8029, [8021]); (8031, [8023]); (8040, [8032]); (8041, [8033]);
   (8042, [8034]); (8043, [8035]); (8044, [8036]); (8045, [8037]);
   (8046, [8038]); (8047, [8039]); (8072, [8064]); (8073, [8065]);
   (8074, [8066]); (8075, [8067]); (8076, [8068]); (8077, [8069]);
   (8078, [8070]); (8079, [8071]); (8088, [8080]); (8089, [8081]);
   (8090, [8082]); (8091, [8083]); (8092, [8084]); (8093, [8085]);
   (8094, [8086]); (8095, [8087]); (8104, [8096]); (8105, [8097]);
   (8106, [8098]); (8107, [8099]); (8108, [8100]); (8109, [8101]);
   (8110, [8102]); (8111, [8103]); (8120, [8112]); (8121, [8113]);
   (8122, [8048]); (8123, [8049]); (8124, [8115]); (8136, [8050]);
   (8137, [8051]); (8138, [8052]); (8139, [8053]); (8140, [8131]);
   (8152, [8144]); (8153, [8145]); (8154, [8054]); (8155, [8055]);
   (8168, [8160]); (8169, [8161]); (8170, [8058]); (8171, [8059]);
   (8172, [8165]); (8184, [8056]); (8185, [8057]); (8186, [8060]);
   (8187, [8061]); (8188, [8179]); (8486, [969]); (8490, [107]);
   (8491, [229]); (8498, [8526]); (8544, [8560]); (8545, [8561]);
   (8546, [8562]); (8547, [8563]); (8548, [8564]); (8549, [8565]);
   (8550, [8566]); (8551, [8567]); (8552, [8568]); (8553, [8569]);
   (8554, [8570]); (8555, [8571]); (8556, [8572]); (8557, [8573]);
   (8558, [8574]); (8559, [8575]); (8579, [8580]); (9398, [9424]);
   (9399, [9425]); (9400, [9426]); (9401, [9427]); (9402, [9428]);
   (9403, [9429]); (9404, [9430]); (9405, [9431]); (9406, [9432]);
   (9407, [9433]); (9408, [9434]); (9409, [9435]); (9410, [9436]);
   (9411, [9437]); (9412, [9438]); (9413, [9439]); (9414, [9440]);
   (9415, [9441]); (9416, [9442]); (9417, [9443]); (9418, [9444]);
   (9419, [9445]); (9420, [9446]); (9421, [9447]); (9422, [9448]);
   (9423, [9449]); (11264, [11312]); (11265, [11313]); (11266, [11314]);
   (11267, [11315]); (11268, [11316]); (11269, [11317]); (11270, [11318]);
   (11271, [11319]); (11272, [11320]); (11273, [11321]); (11274, [11322]);
   (11275, [11323]); (11276, [11324]); (11277, [11325]); (11278, [11326]);
   (11279, [11327]); (11280, [11328]); (11281, [11329]); (11282, [11330]);
   (11283, [11331]); (11284, [11332]); (11285, [11333]); (11286, [11334]);
   (11287, [11335]); (11288, [11336]); (11289, [11337]); (11290, [11338]);
   (11291, [11339]); (11292, [11340]); (11293, [11341]); (11294, [11342]);
   (11295, [11343]); (11296, [11344]); (11297, [11345]); (11298, [11346]);
   (11299, [11347]); (11300, [11348]); (11301, [11349]); (11302, [11350]);
   (11303, [11351]); (11304, [11352]); (11305, [11353]); (11306, [11354]);
   (11307, [11355]); (11308, [11356]); (11309, [11357]); (11310, [11358]);
   (11311, [11359]); (11360, [11361]); (11362, [619]); (11363, [7549]);
   (11364, [637]); (11367, [11368]); (11369, [11370]); (11371, [11372]);
   (11373, [593]); (11374, [625]); (11375, [592]); (11376, [594]);
   (11378, [11379]); (11381, [11382]); (11390, [575]); (11391, [576]);
   (11392, [11393]); (11394, [11395]); (11396, [11397]); (11398, [11399]);
   (11400, [11401]); (11402, [11403]); (11404, [11405]); (11406, [11407]);
   (11408, [11409]); (11410, [11411]); (11412, [11413]); (11414, [11415]);
   (11416, [11417]); (11418, [11419]); (11420, [11421]); (11422, [11423]);
   (11424, [11425]); (11426, [11427]); (11428, [11429]); (11430, [11431]);
   (11432, [11433]); (11434, [11435]); (11436, [11437]); (11438, [11439]);
   (11440, [11441]); (11442, [11443]); (11444, [11445]); (11446, [11447]);
   (11448, [11449]); (11450, [11451]); (11452, [11453]); (11454, [11455]);
   (11456, [11457]); (11458, [11459]); (11460, [11461]); (11462, [11463]);
   (11464, [11465]); (11466, [11467]); (11468, [11469]); (11470, [11471]);
   (11472, [11473]); (11474, [11475]); (11476, [11477]); (11478, [11479]);
   (11480, [11481]); (11482, [11483]); (11484, [11485]); (11486, [11487]);
   (11488, [11489]); (11490, [11491]); (11499, [11500]); (11501, [11502]);
   (11506, [11507]); (42560, [42561]); (42562, [42563]); (42564, [42565]);
   (42566, [42567]); (42568, [42569]); (42570, [42571]); (42572, [42573]);
   (42574, [42575]); (42576, [42577]); (42578, [42579]); (42580, [42581]);
   (42582, [42583]); (42584, [42585]); (42586, [42587]); (42588, [42589]);
   (42590, [42591]); (42592, [42593]); (42594, [42595]); (42596, [42597]);
   (42598, [42599]); (42600, [42601]); (42602, [42603]); (42604, [42605]);
   (42624, [42625]); (42626, [42627]); (42628, [42629]); (42630, [42631]);
   (42632, [42633]); (42634, [42635]); (42636, [42637]); (42638, [42639]);
   (42640, [42641]); (42642, [42643]); (42644, [42645]); (42646, [42647]);
   (42648, [42649]); (42650, [42651]); (42786, [42787]); (42788, [42789]);
   (42790, [42791]); (42792, [42793]); (42794, [42795]); (42796, [42797]);
   (42798, [42799]); (42802, [42803]); (42804, [42805]); (42806, [42807]);
   (42808, [42809]); (42810, [42811]); (42812, [42813]); (42814, [42815]);
   (42816, [42817]); (42818, [42819]); (42820, [42821]); (42822, [42823]);
   (42824, [42825]); (42826, [42827]); (42828, [42829]); (42830, [42831]);
   (42832, [42833]); (42834, [42835]); (42836, [42837]); (42838, [42839]);
   (42840, [42841]); (42842, [42843]); (42844, [42845]); (42846, [42847]);
   (42848, [42849]); (42850, [42851]); (42852, [42853]); (42854, [42855]);
   (42856, [42857]); (42858, [42859]); (42860, [42861]); (42862, [42863]);
   (42873, [42874]); (42875, [42876]); (42877, [7545]); (42878, [42879]);
   (42880, [42881]); (42882, [42883]); (42884, [42885]); (42886, [42887]);
   (42891, [42892]); (42893, [613]); (42896, [42897]); (42898, [42899]);
   (42902, [42903]); (42904, [42905]); (42906, [42907]); (42908, [42909]);
   (42910, [42911]); (42912, [42913]); (42914, [42915]); (42916, [42917]);
   (42918, [42919]); (42920, [42921]); (42922, [614]); (42923, [604]);
   (42924, [609]); (42925, [620]); (42926, [618]); (42928, [670]);
   (42929, [647]); (42930, [669]); (42931, [43859]); (42932, [42933]);
   (42934, [42935]); (42936, [42937]); (42938, [42939]); (42940, [42941]);
   (42942, [42943]); (42944, [42945]); (42946, [42947]); (42948, [42900]);
   (42949, [642]); (42950, [7566]); (42951, [42952]); (42953, [42954]);
   (42960, [42961]); (42966, [42967]); (42968, [42969]); (42997, [42998]);
   (65313, [65345]); (65314, [65346]); (65315, [65347]); (65316, [65348]);
   (65317, [65349]); (65318, [65350]); (65319, [65351]); (65320, [65352]);
   (65321, [65353]); (65322, [65354]); (65323, [65355]); (65324, [65356]);
   (65325, [65357]); (65326, [65358]); (65327, [65359]); (65328, [65360]);
   (65329, [65361]); (65330, [65362]); (65331, [65363]); (65332, [65364]);
   (65333, [65365]); (65334, [65366]); (65335, [65367]); (65336, [65368]);
   (65337, [65369]); (65338, [65370]); (66560, [66600]); (66561, [66601]);
   (66562, [66602]); (66563, [66603]); (66564, [66604]); (66565, [66605]);
   (66566, [66606]); (66567, [66607]); (66568, [66608]); (66569, [66609]);
   (66570, [66610]); (66571, [66611]); (66572, [66612]); (66573, [66613]);
   (66574, [66614]); (66575, [66615]); (66576, [66616]); (66577, [66617]);
   (66578, [66618]); (66579, [66619]); (66580, [66620]); (66581, [66621]);
   (66582, [66622]); (66583, [66623]); (66584, [66624]); (66585, [66625]);
   (66586, [66626]); (66587, [66627]); (66588, [66628]); (66589, [66629]);
   (66590, [66630]); (66591, [66631]); (66592, [66632]); (66593, [66633]);
   (66594, [66634]); (66595, [66635]); (66596, [66636]); (66597, [66637]);
   (66598, [66638]); (66599, [66639]); (66736, [66776]); (66737, [66777]);
   (66738, [66778]); (66739, [66779]); (66740, [66780]); (66741, [66781]);
   (66742, [66782]); (66743, [66783]); (66744, [66784]); (66745, [66785]);
   (66746, [66786]); (66747, [66787]); (66748, [66788]); (66749, [66789]);
   (66750, [66790]); (66751, [66791]); (66752, [66792]); (66753, [66793]);
   (66754, [66794]); (66755, [66795]); (66756, [66796]); (66757, [66797]);
   (66758, [66798]); (66759, [66799]); (66760, [66800]); (66761, [66801]);
   (66762, [66802]); (66763, [66803]); (66764, [66804]); (66765, [66805]);
   (66766, [66806]); (66767, [66807]); (66768, [66808]); (66769, [66809]);
   (66770, [66810]); (66771, [66811]); (66928, [66967]); (66929, [66968]);
   (66930, [66969]); (66931, [66970]); (66932, [66971]); (66933, [66972]);
   (66934, [66973]); (66935, [66974]); (66936, [66975]); (66937, [66976]);
   (66938, [66977]); (66940, [66979]); (66941, [66980]); (66942, [66981]);
   (66943, [66982]); (66944, [66983]); (66945, [66984]); (66946, [66985]);
   (66947, [66986]); (66948, [66987]); (66949, [66988]); (66950, [66989]);
   (66951, [66990]); (66952, [66991]); (66953, [66992]); (66954, [66993]);
   (66956, [66995]); (66957, [66996]); (66958, [66997]); (66959, [66998]);
   (66960, [66999]); (66961, [67000]); (66962, [67001]); (66964, [67003]);
   (66965, [67004]); (68736, [68800]); (68737, [68801]); (68738, [68802]);
   (68739, [68803]); (68740, [68804]); (68741, [68805]); (68742, [68806]);
   (68743, [68807]); (68744, [68808]); (68745, [68809]); (68746, [68810]);
   (68747, [68811]); (68748, [68812]); (68749, [68813]); (68750, [68814]);
   (68751, [68815]); (68752, [68816]); (68753, [68817]); (68754, [68818]);
   (68755, [68819]); (68756, [68820]); (68757, [68821]); (68758, [68822]);
   (68759, [68823]); (68760, [68824]); (68761, [68825]); (68762, [68826]);
   (68763, [68827]); (68764, [68828]); (68765, [68829]); (68766, [68830]);
   (68767, [68831]); (68768, [68832]); (68769, [68833]); (68770, [68834]);
   (68771, [68835]); (68772, [68836]); (68773, [68837]); (68774, [68838]);
   (68775, [68839]); (68776, [68840]); (68777, [68841]); (68778, [68842]);
   (68779, [68843]); (68780, [68844]); (68781, [68845]); (68782, [68846]);
   (68783, [68847]); (68784, [68848]); (68785, [68849]); (68786, [68850]);
   (71840, [71872]); (71841, [71873]); (71842, [71874]); (71843, [71875]);
   (71844, [71876]); (71845, [71877]); (71846, [71878]); (71847, [71879]);
   (71848, [71880]); (71849, [71881]); (71850, [71882]); (71851, [71883]);
   (71852, [71884]); (71853, [71885]); (71854, [71886]); (71855, [71887]);
   (71856, [71888]); (71857, [71889]); (71858, [71890]); (71859, [71891]);
   (71860, [71892]); (71861, [71893]); (71862, [71894]); (71863, [71895]);
   (71864, [71896]); (71865, [71897]); (71866, [71898]); (71867, [71899]);
   (71868, [71900]); (71869, [71901]); (71870, [71902]); (71871, [71903]);
   (93760, [93792]); (93761, [93793]); (93762, [93794]); (93763, [93795]);
   (93764, [93796]); (93765, [93797]); (93766, [93798]); (93767, [93799]);
   (93768, [93800]); (93769, [93801]); (93770, [93802]); (93771, [93803]);
   (93772, [93804]); (93773, [93805]); (93774, [93806]); (93775, [93807]);
   (93776, [93808]); (93777, [93809]); (93778, [93810]); (93779, [93811]);
   (93780, [93812]); (93781, [93813]); (93782, [93814]); (93783, [93815]);
   (93784, [93816]); (93785, [93817]); (93786, [93818]); (93787, [93819]);
   (93788, [93820]); (93789, [93821]); (93790, [93822]); (93791, [93823]);
   (125184, [125218]); (125185, [125219]); (125186, [125220]);
   (125187, [125221]); (125188, [125222]); (125189, [125223]);
   (125190, [125224]); (125191, [125225]); (125192, [125226]);
   (125193, [125227]); (125194, [125228]); (125195, [125229]);
   (125196, [125230]); (125197, [125231]); (125198, [125232]);
   (125199, [125233]); (125200, [125234]); (125201, [125235]);
   (125202, [125236]); (125203, [125237]); (125204, [125238]);
   (125205, [125239]); (125206, [125240]); (125207, [125241]);
   (125208, [125242]); (125209, [125243]); (125210, [125244]);
   (125211, [125245]); (125212, [125246]); (125213, [125247]);
   (125214, [125248]); (125215, [125249]); (125216, [125250]);
   (125217, [125251])]%N.

(** The code points whose full title-case mapping is not the code point
    itself. *)
Definition title_table : list (codepoint * list codepoint) :=
  [(97, [65]); (98, [66]); (99, [67]); (100, [68]); (101, [69]); (102, [70]);
   (103, [71]); (104, [72]); (105, [73]); (106, [74]); (107, [75]);
   (108, [76]); (109, [77]); (110, [78]); (111, [79]); (112, [80]);
   (113, [81]); (114, [82]); (115, [83]); (116, [84]); (117, [85]);
   (118, [86]); (119, [87]); (120, [88]); (121, [89]); (122, [90]);
   (181, [924]); (223, [83; 115]); (224, [192]); (225, [193]); (226, [194]);
   (227, [195]); (228, [196]); (229, [197]); (230, [198]); (231, [199]);
   (232, [200]); (233, [201]); (234, [202]); (235, [203]); (236, [204]);
   (237, [205]); (238, [206]); (239, [207]); (240, [208]); (241, [209]);
   (242, [210]); (243, [211]); (244, [212]); (245, [213]); (246, [214]);
   (248, [216]); (249, [217]); (250, [218]); (251, [219]); (252, [220]);
   (253, [221]); (254, [222]); (255, [376]); (257, [256]); (259, [258]);
   (261, [260]); (263, [262]); (265, [264]); (267, [266]); (269, [268]);
   (271, [270]); (273, [272]); (275, [274]); (277, [276]); (279, [278]);
   (281, [280]); (283, [282]); (285, [284]); (287, [286]); (289, [288]);
   (291, [290]); (293, [292]); (295, [294]); (297, [296]); (299, [298]);
   (301, [300]); (303, [302]); (305, [73]); (307, [306]); (309, [308]);
   (311, [310]); (314, [313]); (316, [315]); (318, [317]); (320, [319]);
   (322, [321]); (324, [323]); (326, [325]); (328, [327]); (329, [700; 78]);
   (331, [330]); (333, [332]); (335, [334]); (337, [336]); (339, [338]);
   (341, [340]); (343, [342]); (345, [344]); (347, [346]); (349, [348]);
   (351, [350]); (353, [352]); (355, [354]); (357, [356]); (359, [358]);
   (361, [360]); (363, [362]); (365, [364]); (367, [366]); (369, [368]);
   (371, [370]); (373, [372]); (375, [374]); (378, [377]); (380, [379]);
   (382, [381]); (383, [83]); (384, [579]); (387, [386]); (389, [388]);
   (392, [391]); (396, [395]); (402, [401]); (405, [502]); (409, [408]);
   (410, [573]); (414, [544]); (417, [416]); (419, [418]); (421, [420]);
   (424, [423]); (429, [428]); (432, [431]); (436, [435]); (438, [437]);
   (441, [440]); (445, [444]); (447, [503]); (452, [453]); (454, [453]);
   (455, [456]); (457, [456]); (458, [459]); (460, [459]); (462, [461]);
   (464, [463]); (466, [465]); (468, [467]); (470, [469]); (472, [471]);
   (474, [473]); (476, [475]); (477, [398]); (479, [478]); (481, [480]);
   (483, [482]); (485, [484]); (487, [486]); (489, [488]); (491, [490]);
   (493, [492]); (495, [494]); (496, [74; 780]); (497, [498]); (499, [498]);
   (501, [500]); (505, [504]); (507, [506]); (509, [508]); (511, [510]);
   (513, [512]); (515, [514]); (517, [516]); (519, [518]); (521, [520]);
   (523, [522]); (525, [524]); (527, [526]); (529, [528]); (531, [530]);
   (533, [532]); (535, [534]); (537, [536]); (539, [538]); (541, [540]);
   (543, [542]); (547, [546]); (549, [548]); (551, [550]); (553, [552]);
   (555, [554]); (557, [556]); (559, [558]); (561, [560]); (563, [562]);
   (572, [571]); (575, [11390]); (576, [11391]); (578, [577]); (583, [582]);
   (585, [584]); (587, [586]); (589, [588]); (591, [590]); (592, [11375]);
   (593, [11373]); (594, [11376]); (595, [385]); (596, [390]); (598, [393]);
   (599, [394]); (601, [399]); (603, [400]); (604, [42923]); (608, [403]);
   (609, [42924]); (611, [404]); (613, [42893]); (614, [42922]); (616, [407]);
   (617, [406]); (618, [42926]); (619, [11362]); (620, [42925]); (623, [412]);
   (625, [11374]); (626, [413]); (629, [415]); (637, [11364]); (640, [422]);
   (642, [42949]); (643, [425]); (647, [42929]); (648, [430]); (649, [580]);
   (650, [433]); (651, [434]); (652, [581]); (658, [439]); (669, [42930]);
   (670, [42928]); (837, [921]); (881, [880]); (883, [882]); (887, [886]);
   (891, [1021]); (892, [1022]); (893, [1023]); (912, [921; 776; 769]);
   (940, [902]); (941, [904]); (942, [905]); (943, [906]);
   (944, [933; 776; 769]); (945, [913]); (946, [914]); (947, [915]);
   (948, [916]); (949, [917]); (950, [918]); (951, [919]); (952, [920]);
   (953, [921]); (954, [922]); (955, [923]); (956, [924]); (957, [925]);
   (958, [926]); (959, [927]); (960, [928]); (961, [929]); (962, [931]);
   (963, [931]); (964, [932]); (965, [933]); (966, [934]); (967, [935]);
   (968, [936]); (969, [937]); (970, [938]); (971, [939]); (972, [908]);
   (973, [910]); (974, [911]); (976, [914]); (977, [920]); (981, [934]);
   (982, [928]); (983, [975]); (985, [984]); (987, [986]); (989, [988]);
   (991, [990]); (993, [992]); (995, [994]); (997, [996]); (999, [998]);
   (1001, [1000]); (1003, [1002]); (1005, [1004]); (1007, [1006]);
   (1008, [922]); (1009, [929]); (1010, [1017]); (1011, [895]); (1013, [917]);
   (1016, [1015]); (1019, [1018]); (1072, [1040]); (1073, [1041]);
   (1074, [1042]); (1075, [1043]); (1076, [1044]); (1077, [1045]);
   (1078, [1046]); (1079, [1047]); (1080, [1048]); (1081, [1049]);
   (1082, [1050]); (1083, [1051]); (1084, [1052]); (1085, [1053]);
   (1086, [1054]); (1087, [1055]); (1088, [1056]); (1089, [1057]);
   (1090, [1058]); (1091, [1059]); (1092, [1060]); (1093, [1061]);
   (1094, [1062]); (1095, [1063]); (1096, [1064]); (1097, [1065]);
   (1098, [1066]); (1099, [1067]); (1100, [1068]); (1101, [1069]);
   (1102, [1070]); (1103, [1071]); (1104, [1024]); (1105, [1025]);
   (1106, [1026]); (1107, [1027]); (1108, [1028]); (1109, [1029]);
   (1110, [1030]); (1111, [1031]); (1112, [1032]); (1113, [1033]);
   (1114, [1034]); (1115, [1035]); (1116, [1036]); (1117, [1037]);
   (1118, [1038]); (1119, [1039]); (1121, [1120]); (1123, [1122]);
   (1125, [1124]); (1127, [1126]); (1129, [1128]); (1131, [1130]);
   (1133, [1132]); (1135, [1134]); (1137, [1136]); (1139, [1138]);
   (1141, [1140]); (1143, [1142]); (1145, [1144]); (1147, [1146]);
   (1149, [1148]); (1151, [1150]); (1153, [1152]); (1163, [1162]);
   (1165, [1164]); (1167, [1166]); (1169, [1168]); (1171, [1170]);
   (1173, [1172]); (1175, [1174]); (1177, [1176]); (1179, [1178]);
   (1181, [1180]); (1183, [1182]); (1185, [1184]); (1187, [1186]);
   (1189, [1188]); (1191, [1190]); (1193, [1192]); (1195, [1194]);
   (1197, [1196]); (1199, [1198]); (1201, [1200]); (1203, [1202]);
   (1205, [1204]); (1207, [1206]); (1209, [1208]); (1211, [1210]);
   (1213, [1212]); (1215, [1214]); (1218, [1217]); (1220, [1219]);
   (1222, [1221]); (1224, [1223]); (1226, [1225]); (1228, [1227]);
   (1230, [1229]); (1231, [1216]); (1233, [1232]); (1235, [1234]);
   (1237, [1236]); (1239, [1238]); (1241, [1240]); (1243, [1242]);
   (1245, [1244]); (1247, [1246]); (1249, [1248]); (1251, [1250]);
   (1253, [1252]); (1255, [1254]); (1257, [1256]); (1259, [1258]);
   (1261, [1260]); (1263, [1262]); (1265, [1264]); (1267, [1266]);
   (1269, [1268]); (1271, [1270]); (1273, [1272]); (1275, [1274]);
   (1277, [1276]); (1279, [1278]); (1281, [1280]); (1283, [1282]);
   (1285, [1284]); (1287, [1286]); (1289, [1288]); (1291, [1290]);
   (1293, [1292]); (1295, [1294]); (1297, [1296]); (1299, [1298]);
   (1301, [1300]); (1303, [1302]); (1305, [1304]); (1307, [1306]);
   (1309, [1308]); (1311, [1310]); (1313, [1312]); (1315, [1314]);
   (1317, [1316]); (1319, [1318]); (1321, [1320]); (1323, [1322]);
   (1325, [1324]); (1327, [1326]); (1377, [1329]); (1378, [1330]);
   (1379, [1331]); (1380, [1332]); (1381, [1333]); (1382, [1334]);
   (1383, [1335]); (1384, [1336]); (1385, [1337]); (1386, [1338]);
   (1387, [1339]); (1388, [1340]); (1389, [1341]); (1390, [1342]);
   (1391, [1343]); (1392, [1344]); (1393, [1345]); (1394, [1346]);
   (1395, [1347]); (1396, [1348]); (1397, [1349]); (1398, [1350]);
   (1399, [1351]); (1400, [1352]); (1401, [1353]); (1402, [1354]);
   (1403, [1355]); (1404, [1356]); (1405, [1357]); (1406, [1358]);
   (1407, [1359]); (1408, [1360]); (1409, [1361]); (1410, [1362]);
   (1411, [1363]); (1412, [1364]); (1413, [1365]); (1414, [1366]);
   (1415, [1333; 1410]); (5112, [5104]); (5113, [5105]); (5114, [5106]);
   (5115, [5107]); (5116, [5108]); (5117, [5109]); (7296, [1042]);
   (7297, [1044]); (7298, [1054]); (7299, [1057]); (7300, [1058]);
   (7301, [1058]); (7302, [1066]); (7303, [1122]); (7304, [42570]);
   (7545, [42877]); (7549, [11363]); (7566, [42950]); (7681, [7680]);
   (7683, [7682]); (7685, [7684]); (7687, [7686]); (7689, [7688]);
   (7691, [7690]); (7693, [7692]); (7695, [7694]); (7697, [7696]);
   (7699, [7698]); (7701, [7700]); (7703, [7702]); (7705, [7704]);
   (7707, [7706]); (7709, [7708]); (7711, [7710]); (7713, [7712]);
   (7715, [7714]); (7717, [7716]); (7719, [7718]); (7721, [7720]);
   (7723, [7722]); (7725, [7724]); (7727, [7726]); (7729, [7728]);
   (7731, [7730]); (7733, [7732]); (7735, [7734]); (7737, [7736]);
   (7739, [7738]); (7741, [7740]); (7743, [7742]); (7745, [7744]);
   (7747, [7746]); (7749, [7748]); (7751, [7750]); (7753, [7752]);
   (7755, [7754]); (7757, [7756]); (7759, [7758]); (7761, [7760]);
   (7763, [7762]); (7765, [7764]); (7767, [7766]); (7769, [7768]);
   (7771, [7770]); (7773, [7772]); (7775, [7774]); (7777, [7776]);
   (7779, [7778]); (7781, [7780]); (7783, [7782]); (7785, [7784]);
   (7787, [7786]); (7789, [7788]); (7791, [7790]); (7793, [7792]);
   (7795, [7794]); (7797, [7796]); (7799, [7798]); (7801, [7800]);
   (7803, [7802]); (7805, [7804]); (7807, [7806]); (7809, [7808]);
   (7811, [7810]); (7813, [7812]); (7815, [7814]); (7817, [7816]);
   (7819, [7818]); (7821, [7820]); (7823, [7822]); (7825, [7824]);
   (7827, [7826]); (7829, [7828]); (7830, [72; 817]); (7831, [84; 776]);
   (7832, [87; 778]); (7833, [89; 778]); (7834, [65; 702]); (7835, [7776]);
   (7841, [7840]); (7843, [7842]); (7845, [7844]); (7847, [7846]);
   (7849, [7848]); (7851, [7850]); (7853, [7852]); (7855, [7854]);
   (7857, [7856]); (7859, [7858]); (7861, [7860]); (7863, [7862]);
   (7865, [7864]); (7867, [7866]); (7869, [7868]); (7871, [7870]);
   (7873, [7872]); (7875, [7874]); (7877, [7876]); (7879, [7878]);
   (7881, [7880]); (7883, [7882]); (7885, [7884]); (7887, [7886]);
   (7889, [7888]); (7891, [7890]); (7893, [7892]); (7895, [7894]);
   (7897, [7896]); (7899, [7898]); (7901, [7900]); (7903, [7902]);
   (7905, [7904]); (7907, [7906]); (7909, [7908]); (7911, [7910]);
   (7913, [7912]); (7915, [7914]); (7917, [7916]); (7919, [7918]);
   (7921, [7920]); (7923, [7922]); (7925, [7924]); (7927, [7926]);
   (7929, [7928]); (7931, [7930]); (7933, [7932]); (7935, [7934]);
   (7936, [7944]); (7937, [7945]); (7938, [7946]); (7939, [7947]);
   (7940, [7948]); (7941, [7949]); (7942, [7950]); (7943, [7951]);
   (7952, [7960]); (7953, [7961]); (7954, [7962]); (7955, [7963]);
   (7956, [7964]); (7957, [7965]); (7968, [7976]); (7969, [7977]);
   (7970, [7978]); (7971, [7979]); (7972, [7980]); (7973, [7981]);
   (7974, [7982]); (7975, [7983]); (7984, [7992]); (7985, [7993]);
   (7986, [7994]); (7987, [7995]); (7988, [7996]); (7989, [7997]);
   (7990, [7998]); (7991, [7999]); (8000, [8008]); (8001, [8009]);
   (8002, [8010]); (8003, [8011]); (8004, [8012]); (8005, [8013]);
   (8016, [933; 787]); (8017, [8025]); (8018, [933; 787; 768]);
   (8019, [8027]); (8020, [933; 787; 769]); (8021, [8029]);
   (8022, [933; 787; 834]); (8023, [8031]); (8032, [8040]); (8033, [8041]);
   (8034, [8042]); (8035, [8043]); (8036, [8044]); (8037, [8045]);
   (8038, [8046]); (8039, [8047]); (8048, [8122]); (8049, [8123]);
   (8050, [8136]); (8051, [8137]); (8052, [8138]); (8053, [8139]);
   (8054, [8154]); (8055, [8155]); (8056, [8184]); (8057, [8185]);
   (8058, [8170]); (8059, [8171]); (8060, [8186]); (8061, [8187]);
   (8064, [8072]); (8065, [8073]); (8066, [8074]); (8067, [8075]);
   (8068, [8076]); (8069, [8077]); (8070, [8078]); (8071, [8079]);
   (8080, [8088]); (8081, [8089]); (8082, [8090]); (8083, [8091]);
   (8084, [8092]); (8085, [8093]); (8086, [8094]); (8087, [8095]);
   (8096, [8104]); (8097, [8105]); (8098, [8106]); (8099, [8107]);
   (8100, [8108]); (8101, [8109]); (8102, [8110]); (8103, [8111]);
   (8112, [8120]); (8113, [8121]); (8114, [8122; 837]); (8115, [8124]);
   (8116, [902; 837]); (8118, [913; 834]); (8119, [913; 834; 837]);
   (8126, [921]); (8130, [8138; 837]); (8131, [8140]); (8132, [905; 837]);
   (8134, [919; 834]); (8135, [919; 834; 837]); (8144, [8152]);
   (8145, [8153]); (8146, [921; 776; 768]); (8147, [921; 776; 769]);
   (8150, [921; 834]); (8151, [921; 776; 834]); (8160, [8168]);
   (8161, [8169]); (8162, [933; 776; 768]); (8163, [933; 776; 769]);
   (8164, [929; 787]); (8165, [8172]); (8166, [933; 834]);
   (8167, [933; 776; 834]); (8178, [8186; 837]); (8179, [8188]);
   (8180, [911; 837]); (8182, [937; 834]); (8183, [937; 834; 837]);
   (8526, [8498]); (8560, [8544]); (8561, [8545]); (8562, [8546]);
   (8563, [8547]); (8564, [8548]); (8565, [8549]); (8566, [8550]);
   (8567, [8551]); (8568, [8552]); (8569, [8553]); (8570, [8554]);
   (8571, [8555]); (8572, [8556]); (8573, [8557]); (8574, [8558]);
   (8575, [8559]); (8580, [8579]); (9424, [9398]); (9425, [9399]);
   (9426, [9400]); (9427, [9401]); (9428, [9402]); (9429, [9403]);
   (9430, [9404]); (9431, [9405]); (9432, [9406]); (9433, [9407]);
   (9434, [9408]); (9435, [9409]); (9436, [9410]); (9437, [9411]);
   (9438, [9412]); (9439, [9413]); (9440, [9414]); (9441, [9415]);
   (9442, [9416]); (9443, [9417]); (9444, [9418]); (9445, [9419]);
   (9446, [9420]); (9447, [9421]); (9448, [9422]); (9449, [9423]);
   (11312, [11264]); (11313, [11265]); (11314, [11266]); (11315, [11267]);
   (11316, [11268]); (11317, [11269]); (11318, [11270]); (11319, [11271]);
   (11320, [11272]); (11321, [11273]); (11322, [11274]); (11323, [11275]);
   (11324, [11276]); (11325, [11277]); (11326, [11278]); (11327, [11279]);
   (11328, [11280]); (11329, [11281]); (11330, [11282]); (11331, [11283]);
   (11332, [11284]); (11333, [11285]); (11334, [11286]); (11335, [11287]);
   (11336, [11288]); (11337, [11289]); (11338, [11290]); (11339, [11291]);
   (11340, [11292]); (11341, [11293]); (11342, [11294]); (11343, [11295]);
   (11344, [11296]); (11345, [11297]); (11346, [11298]); (11347, [11299]);
   (11348, [11300]); (11349, [11301]); (11350, [11302]); (11351, [11303]);
   (11352, [11304]); (11353, [11305]); (11354, [11306]); (11355, [11307]);
   (11356, [11308]); (11357, [11309]); (11358, [11310]); (11359, [11311]);
   (11361, [11360]); (11365, [570]); (11366, [574]); (11368, [11367]);
   (11370, [11369]); (11372, [11371]); (11379, [11378]); (11382, [11381]);
   (11393, [11392]); (11395, [11394]); (11397, [11396]); (11399, [11398]);
   (11401, [11400]); (11403, [11402]); (11405, [11404]); (11407, [11406]);
   (11409, [11408]); (11411, [11410]); (11413, [11412]); (11415, [11414]);
   (11417, [11416]); (11419, [11418]); (11421, [11420]); (11423, [11422]);
   (11425, [11424]); (11427, [11426]); (11429, [11428]); (11431, [11430]);
   (11433, [11432]); (11435, [11434]); (11437, [11436]); (11439, [11438]);
   (11441, [11440]); (11443, [11442]); (11445, [11444]); (11447, [11446]);
   (11449, [11448]); (11451, [11450]); (11453, [11452]); (11455, [11454]);
   (11457, [11456]); (11459, [11458]); (11461, [11460]); (11463, [11462]);
   (11465, [11464]); (11467, [11466]); (11469, [11468]); (11471, [11470]);
   (11473, [11472]); (11475, [11474]); (11477, [11476]); (11479, [11478]);
   (11481, [11480]); (11483, [11482]); (11485, [11484]); (11487, [11486]);
   (11489, [11488]); (11491, [11490]); (11500, [11499]); (11502, [11501]);
   (11507, [11506]); (11520, [4256]); (11521, [4257]); (11522, [4258]);
   (11523, [4259]); (11524, [4260]); (11525, [4261]); (11526, [4262]);
   (11527, [4263]); (11528, [4264]); (11529, [4265]); (11530, [4266]);
   (11531, [4267]); (11532, [4268]); (11533, [4269]); (11534, [4270]);
   (11535, [4271]); (11536, [4272]); (11537, [4273]); (11538, [4274]);
   (11539, [4275]); (11540, [4276]); (11541, [4277]); (11542, [4278]);
   (11543, [4279]); (11544, [4280]); (11545, [4281]); (11546, [4282]);
   (11547, [4283]); (11548, [4284]); (11549, [4285]); (11550, [4286]);
   (11551, [4287]); (11552, [4288]); (11553, [4289]); (11554, [4290]);
   (11555, [4291]); (11556, [4292]); (11557, [4293]); (11559, [4295]);
   (11565, [4301]); (42561, [42560]); (42563, [42562]); (42565, [42564]);
   (42567, [42566]); (42569, [42568]); (42571, [42570]); (42573, [42572]);
   (42575, [42574]); (42577, [42576]); (42579, [42578]); (42581, [42580]);
   (42583, [42582]); (42585, [42584]); (42587, [42586]); (42589, [42588]);
   (42591, [42590]); (42593, [42592]); (42595, [42594]); (42597, [42596]);
   (42599, [42598]); (42601, [42600]); (42603, [42602]); (42605, [42604]);
   (42625, [42624]); (42627, [42626]); (42629, [42628]); (42631, [42630]);
   (42633, [42632]); (42635, [42634]); (42637, [42636]); (42639, [42638]);
   (42641, [42640]); (42643, [42642]); (42645, [42644]); (42647, [42646]);
   (42649, [42648]); (42651, [42650]); (42787, [42786]); (42789, [42788]);
   (42791, [42790]); (42793, [42792]); (42795, [42794]); (42797, [42796]);
   (42799, [42798]); (42803, [42802]); (42805, [42804]); (42807, [42806]);
   (42809, [42808]); (42811, [42810]); (42813, [42812]); (42815, [42814]);
   (42817, [42816]); (42819, [42818]); (42821, [42820]); (42823, [42822]);
   (42825, [42824]); (42827, [42826]); (42829, [42828]); (42831, [42830]);
   (42833, [42832]); (42835, [42834]); (42837, [42836]); (42839, [42838]);
   (42841, [42840]); (42843, [42842]); (42845, [42844]); (42847, [42846]);
   (42849, [42848]); (42851, [42850]); (42853, [42852]); (42855, [42854]);
   (42857, [42856]); (42859, [42858]); (42861, [42860]); (42863, [42862]);
   (42874, [42873]); (42876, [42875]); (42879, [42878]); (42881, [42880]);
   (42883, [42882]); (42885, [42884]); (42887, [42886]); (42892, [42891]);
   (42897, [42896]); (42899, [42898]); (42900, [42948]); (42903, [42902]);
   (42905, [42904]); (42907, [42906]); (42909, [42908]); (42911, [42910]);
   (42913, [42912]); (42915, [42914]); (42917, [42916]); (42919, [42918]);
   (42921, [42920]); (42933, [42932]); (42935, [42934]); (42937, [42936]);
   (42939, [42938]); (42941, [42940]); (42943, [42942]); (42945, [42944]);
   (42947, [42946]); (42952, [42951]); (42954, [42953]); (42961, [42960]);
   (42967, [42966]); (42969, [42968]); (42998, [42997]); (43859, [42931]);
   (43888, [5024]); (43889, [5025]); (43890, [5026]); (43891, [5027]);
   (43892, [5028]); (43893, [5029]); (43894, [5030]); (43895, [5031]);
   (43896, [5032]); (43897, [5033]); (43898, [5034]); (43899, [5035]);
   (43900, [5036]); (43901, [5037]); (43902, [5038]); (43903, [5039]);
   (43904, [5040]); (43905, [5041]); (43906, [5042]); (43907, [5043]);
   (43908, [5044]); (43909, [5045]); (43910, [5046]); (43911, [5047]);
   (43912, [5048]); (43913, [5049]); (43914, [5050]); (43915, [5051]);
   (43916, [5052]); (43917, [5053]); (43918, [5054]); (43919, [5055]);
   (43920, [5056]); (43921, [5057]); (43922, [5058]); (43923, [5059]);
   (43924, [5060]); (43925, [5061]); (43926, [5062]); (43927, [5063]);
   (43928, [5064]); (43929, [5065]); (43930, [5066]); (43931, [5067]);
   (43932, [5068]); (43933, [5069]); (43934, [5070]); (43935, [5071]);
   (43936, [5072]); (43937, [5073]); (43938, [5074]); (43939, [5075]);
   (43940, [5076]); (43941, [5077]); (43942, [5078]); (43943, [5079]);
   (43944, [5080]); (43945, [5081]); (43946, [5082]); (43947, [5083]);
   (43948, [5084]); (43949, [5085]); (43950, [5086]); (43951, [5087]);
   (43952, [5088]); (43953, [5089]); (43954, [5090]); (43955, [5091]);
   (43956, [5092]); (43957, [5093]); (43958, [5094]); (43959, [5095]);
   (43960, [5096]); (43961, [5097]); (43962, [5098]); (43963, [5099]);
   (43964, [5100]); (43965, [5101]); (43966, [5102]); (43967, [5103]);
   (64256, [70; 102]); (64257, [70; 105]); (64258, [70; 108]);
   (64259, [70; 102; 105]); (64260, [70; 102; 108]); (64261, [83; 116]);
   (64262, [83; 116]); (64275, [1348; 1398]); (64276, [1348; 1381]);
   (64277, [1348; 1387]); (64278, [1358; 1398]); (64279, [1348; 1389]);
   (65345, [65313]); (65346, [65314]); (65347, [65315]); (65348, [65316]);
   (65349, [65317]); (65350, [65318]); (65351, [65319]); (65352, [65320]);
   (65353, [65321]); (65354, [65322]); (65355, [65323]); (65356, [65324]);
   (65357, [65325]); (65358, [65326]); (65359, [65327]); (65360, [65328]);
   (65361, [65329]); (65362, [65330]); (65363, [65331]); (65364, [65332]);
   (65365, [65333]); (65366, [65334]); (65367, [65335]); (65368, [65336]);
   (65369, [65337]); (65370, [65338]); (66600, [66560]); (66601, [66561]);
   (66602, [66562]); (66603, [66563]); (66604, [66564]); (66605, [66565]);
   (66606, [66566]); (66607, [66567]); (66608, [66568]); (66609, [66569]);
   (66610, [66570]); (66611, [66571]); (66612, [66572]); (66613, [66573]);
   (66614, [66574]); (66615, [66575]); (66616, [66576]); (66617, [66577]);
   (66618, [66578]); (66619, [66579]); (66620, [66580]); (66621, [66581]);
   (66622, [66582]); (66623, [66583]); (66624, [66584]); (66625, [66585]);
   (66626, [66586]); (66627, [66587]); (66628, [66588]); (66629, [66589]);
   (66630, [66590]); (66631, [66591]); (66632, [66592]); (66633, [66593]);
   (66634, [66594]); (66635, [66595]); (66636, [66596]); (66637, [66597]);
   (66638, [66598]); (66639, [66599]); (66776, [66736]); (66777, [66737]);
   (66778, [66738]); (66779, [66739]); (66780, [66740]); (66781, [66741]);
   (66782, [66742]); (66783, [66743]); (66784, [66744]); (66785, [66745]);
   (66786, [66746]); (66787, [66747]); (66788, [66748]); (66789, [66749]);
   (66790, [66750]); (66791, [66751]); (66792, [66752]); (66793, [66753]);
   (66794, [66754]); (66795, [66755]); (66796, [66756]); (66797, [66757]);
   (66798, [66758]); (66799, [66759]); (66800, [66760]); (66801, [66761]);
   (66802, [66762]); (66803, [66763]); (66804, [66764]); (66805, [66765]);
   (66806, [66766]); (66807, [66767]); (66808, [66768]); (66809, [66769]);
   (66810, [66770]); (66811, [66771]); (66967, [66928]); (66968, [66929]);
   (66969, [66930]); (66970, [66931]); (66971, [66932]); (66972, [66933]);
   (66973, [66934]); (66974, [66935]); (66975, [66936]); (66976, [66937]);
   (66977, [66938]); (66979, [66940]); (66980, [66941]); (66981, [66942]);
   (66982, [66943]); (66983, [66944]); (66984, [66945]); (66985, [66946]);
   (66986, [66947]); (66987, [66948]); (66988, [66949]); (66989, [66950]);
   (66990, [66951]); (66991, [66952]); (66992, [66953]); (66993, [66954]);
   (66995, [66956]); (66996, [66957]); (66997, [66958]); (66998, [66959]);
   (66999, [66960]); (67000, [66961]); (67001, [66962]); (67003, [66964]);
   (67004, [66965]); (68800, [68736]); (68801, [68737]); (68802, [68738]);
   (68803, [68739]); (68804, [68740]); (68805, [68741]); (68806, [68742]);
   (68807, [68743]); (68808, [68744]); (68809, [68745]); (68810, [68746]);
   (68811, [68747]); (68812, [68748]); (68813, [68749]); (68814, [68750]);
   (68815, [68751]); (68816, [68752]); (68817, [68753]); (68818, [68754]);
   (68819, [68755]); (68820, [68756]); (68821, [68757]); (68822, [68758]);
   (68823, [68759]); (68824, [68760]); (68825, [68761]); (68826, [68762]);
   (68827, [68763]); (68828, [68764]); (68829, [68765]); (68830, [68766]);
   (68831, [68767]); (68832, [68768]); (68833, [68769]); (68834, [68770]);
   (68835, [68771]); (68836, [68772]); (68837, [68773]); (68838, [68774]);
   (68839, [68775]); (68840, [68776]); (68841, [68777]); (68842, [68778]);
   (68843, [68779]); (68844, [68780]); (68845, [68781]); (68846, [68782]);
   (68847, [68783]); (68848, [68784]); (68849, [68785]); (68850, [68786]);
   (71872, [71840]); (71873, [71841]); (71874, [71842]); (71875, [71843]);
   (71876, [71844]); (71877, [71845]); (71878, [71846]); (71879, [71847]);
   (71880, [71848]); (71881, [71849]); (71882, [71850]); (71883, [71851]);
   (71884, [71852]); (71885, [71853]); (71886, [71854]); (71887, [71855]);
   (71888, [71856]); (71889, [71857]); (71890, [71858]); (71891, [71859]);
   (71892, [71860]); (71893, [71861]); (71894, [71862]); (71895, [71863]);
   (71896, [71864]); (71897, [71865]); (71898, [71866]); (71899, [71867]);
   (71900, [71868]); (71901, [71869]); (71902, [71870]); (71903, [71871]);
   (93792, [93760]); (93793, [93761]); (93794, [93762]); (93795, [93763]);
   (93796, [93764]); (93797, [93765]); (93798, [93766]); (93799, [93767]);
   (93800, [93768]); (93801, [93769]); (93802, [93770]); (93803, [93771]);
   (93804, [93772]); (93805, [93773]); (93806, [93774]); (93807, [93775]);
   (93808, [93776]); (93809, [93777]); (93810, [93778]); (93811, [93779]);
   (93812, [93780]); (93813, [93781]); (93814, [93782]); (93815, [93783]);
   (93816, [93784]); (93817, [93785]); (93818, [93786]); (93819, [93787]);
   (93820, [93788]); (93821, [93789]); (93822, [93790]); (93823, [93791]);
   (125218, [125184]); (125219, [125185]); (125220, [125186]);
   (125221, [125187]); (125222, [125188]); (125223, [125189]);
   (125224, [125190]); (125225, [125191]); (125226, [125192]);
   (125227, [125193]); (125228, [125194]); (125229, [125195]);
   (125230, [125196]); (125231, [125197]); (125232, [125198]);
   (125233, [125199]); (125234, [125200]); (125235, [125201]);
   (125236, [125202]); (125237, [125203]); (125238, [125204]);
   (125239, [125205]); (125240, [125206]); (125241, [125207]);
   (125242, [125208]); (125243, [125209]); (125244, [125210]);
   (125245, [125211]); (125246, [125212]); (125247, [125213]);
   (125248, [125214]); (125249, [125215]); (125250, [125216]);
   (125251, [125217])]%N.

(** The case-ignorable code points, as closed ranges. *)
Definition case_ignorable_ranges : list (codepoint * codepoint) :=
  [(39, 39); (46, 46); (58, 58); (94, 94); (96, 96); (168, 168); (173, 173);
   (175, 175); (180, 180); (183, 184); (688, 879); (884, 885); (890, 890);
   (900, 901); (903, 903); (1155, 1161); (1369, 1369); (1375, 1375);
   (1425, 1469); (1471, 1471); (1473, 1474); (1476, 1477); (1479, 1479);
   (1524, 1524); (1536, 1541); (1552, 1562); (1564, 1564); (1600, 1600);
   (1611, 1631); (1648, 1648); (1750, 1757); (1759, 1768); (1770, 1773);
   (1807, 1807); (1809, 1809); (1840, 1866); (1958, 1968); (2027, 2037);
   (2042, 2042); (2045, 2045); (2070, 2093); (2137, 2139); (2184, 2184);
   (2192, 2193); (2200, 2207); (2249, 2306); (2362, 2362); (2364, 2364);
   (2369, 2376); (2381, 2381); (2385, 2391); (2402, 2403); (2417, 2417);
   (2433, 2433); (2492, 2492); (2497, 2500); (2509, 2509); (2530, 2531);
   (2558, 2558); (2561, 2562); (2620, 2620); (2625, 2626); (2631, 2632);
   (2635, 2637); (2641, 2641); (2672, 2673); (2677, 2677); (2689, 2690);
   (2748, 2748); (2753, 2757); (2759, 2760); (2765, 2765); (2786, 2787);
   (2810, 2815); (2817, 2817); (2876, 2876); (2879, 2879); (2881, 2884);
   (2893, 2893); (2901, 2902); (2914, 2915); (2946, 2946); (3008, 3008);
   (3021, 3021); (3072, 3072); (3076, 3076); (3132, 3132); (3134, 3136);
   (3142, 3144); (3146, 3149); (3157, 3158); (3170, 3171); (3201, 3201);
   (3260, 3260); (3263, 3263); (3270, 3270); (3276, 3277); (3298, 3299);
   (3328, 3329); (3387, 3388); (3393, 3396); (3405, 3405); (3426, 3427);
   (3457, 3457); (3530, 3530); (3538, 3540); (3542, 3542); (3633, 3633);
   (3636, 3642); (3654, 3662); (3761, 3761); (3764, 3772); (3782, 3782);
   (3784, 3789); (3864, 3865); (3893, 3893); (3895, 3895); (3897, 3897);
   (3953, 3966); (3968, 3972); (3974, 3975); (3981, 3991); (3993, 4028);
   (4038, 4038); (4141, 4144); (4146, 4151); (4153, 4154); (4157, 4158);
   (4184, 4185); (4190, 4192); (4209, 4212); (4226, 4226); (4229, 4230);
   (4237, 4237); (4253, 4253); (4348, 4348); (4957, 4959); (5906, 5908);
   (5938, 5939); (5970, 5971); (6002, 6003); (6068, 6069); (6071, 6077);
   (6086, 6086); (6089, 6099); (6103, 6103); (6109, 6109); (6155, 6159);
   (6211, 6211); (6277, 6278); (6313, 6313); (6432, 6434); (6439, 6440);
   (6450, 6450); (6457, 6459); (6679, 6680); (6683, 6683); (6742, 6742);
   (6744, 6750); (6752, 6752); (6754, 6754); (6757, 6764); (6771, 6780);
   (6783, 6783); (6823, 6823); (6832, 6862); (6912, 6915); (6964, 6964);
   (6966, 6970); (6972, 6972); (6978, 6978); (7019, 7027); (7040, 7041);
   (7074, 7077); (7080, 7081); (7083, 7085); (7142, 7142); (7144, 7145);
   (7149, 7149); (7151, 7153); (7212, 7219); (7222, 7223); (7288, 7293);
   (7376, 7378); (7380, 7392); (7394, 7400); (7405, 7405); (7412, 7412);
   (7416, 7417); (7468, 7530); (7544, 7544); (7579, 7679); (8125, 8125);
   (8127, 8129); (8141, 8143); (8157, 8159); (8173, 8175); (8189, 8190);
   (8203, 8207); (8216, 8217); (8228, 8228); (8231, 8231); (8234, 8238);
   (8288, 8292); (8294, 8303); (8305, 8305); (8319, 8319); (8336, 8348);
   (8400, 8432); (11388, 11389); (11503, 11505); (11631, 11631);
   (11647, 11647); (11744, 11775); (11823, 11823); (12293, 12293);
   (12330, 12333); (12337, 12341); (12347, 12347); (12441, 12446);
   (12540, 12542); (40981, 40981); (42232, 42237); (42508, 42508);
   (42607, 42610); (42612, 42621); (42623, 42623); (42652, 42655);
   (42736, 42737); (42752, 42785); (42864, 42864); (42888, 42890);
   (42994, 42996); (43000, 43001); (43010, 43010); (43014, 43014);
   (43019, 43019); (43045, 43046); (43052, 43052); (43204, 43205);
   (43232, 43249); (43263, 43263); (43302, 43309); (43335, 43345);
   (43392, 43394); (43443, 43443); (43446, 43449); (43452, 43453);
   (43471, 43471); (43493, 43494); (43561, 43566); (43569, 43570);
   (43573, 43574); (43587, 43587); (43596, 43596); (43632, 43632);
   (43644, 43644); (43696, 43696); (43698, 43700); (43703, 43704);
   (43710, 43711); (43713, 43713); (43741, 43741); (43756, 43757);
   (43763, 43764); (43766, 43766); (43867, 43871); (43881, 43883);
   (44005, 44005); (44008, 44008); (44013, 44013); (64286, 64286);
   (64434, 64450); (65024, 65039); (65043, 65043); (65056, 65071);
   (65106, 65106); (65109, 65109); (65279, 65279); (65287, 65287);
   (65294, 65294); (65306, 65306); (65342, 65342); (65344, 65344);
   (65392, 65392); (65438, 65439); (65507, 65507); (65529, 65531);
   (66045, 66045); (66272, 66272); (66422, 66426); (67456, 67461);
   (67463, 67504); (67506, 67514); (68097, 68099); (68101, 68102);
   (68108, 68111); (68152, 68154); (68159, 68159); (68325, 68326);
   (68900, 68903); (69291, 69292); (69446, 69456); (69506, 69509);
   (69633, 69633); (69688, 69702); (69744, 69744); (69747, 69748);
   (69759, 69761); (69811, 69814); (69817, 69818); (69821, 69821);
   (69826, 69826); (69837, 69837); (69888, 69890); (69927, 69931);
   (69933, 69940); (70003, 70003); (70016, 70017); (70070, 70078);
   (70089, 70092); (70095, 70095); (70191, 70193); (70196, 70196);
   (70198, 70199); (70206, 70206); (70367, 70367); (70371, 70378);
   (70400, 70401); (70459, 70460); (70464, 70464); (70502, 70508);
   (70512, 70516); (70712, 70719); (70722, 70724); (70726, 70726);
   (70750, 70750); (70835, 70840); (70842, 70842); (70847, 70848);
   (70850, 70851); (71090, 71093); (71100, 71101); (71103, 71104);
   (71132, 71133); (71219, 71226); (71229, 71229); (71231, 71232);
   (71339, 71339); (71341, 71341); (71344, 71349); (71351, 71351);
   (71453, 71455); (71458, 71461); (71463, 71467); (71727, 71735);
   (71737, 71738); (71995, 71996); (71998, 71998); (72003, 72003);
   (72148, 72151); (72154, 72155); (72160, 72160); (72193, 72202);
   (72243, 72248); (72251, 72254); (72263, 72263); (72273, 72278);
   (72281, 72283); (72330, 72342); (72344, 72345); (72752, 72758);
   (72760, 72765); (72767, 72767); (72850, 72871); (72874, 72880);
   (72882, 72883); (72885, 72886); (73009, 73014); (73018, 73018);
   (73020, 73021); (73023, 73029); (73031, 73031); (73104, 73105);
   (73109, 73109); (73111, 73111); (73459, 73460); (78896, 78904);
   (92912, 92916); (92976, 92982); (92992, 92995); (94031, 94031);
   (94095, 94111); (94176, 94177); (94179, 94180); (110576, 110579);
   (110581, 110587); (110589, 110590); (113821, 113822); (113824, 113827);
   (118528, 118573); (118576, 118598); (119143, 119145); (119155, 119170);
   (119173, 119179); (119210, 119213); (119362, 119364); (121344, 121398);
   (121403, 121452); (121461, 121461); (121476, 121476); (121499, 121503);
   (121505, 121519); (122880, 122886); (122888, 122904); (122907, 122913);
   (122915, 122916); (122918, 122922); (123184, 123197); (123566, 123566);
   (123628, 123631); (125136, 125142); (125252, 125259); (127995, 127999);
   (917505, 917505); (917536, 917631); (917760, 917999)]%N.

(** The cased code points that are not case-ignorable, as closed ranges. *)
Definition cased_ranges : list (codepoint * codepoint) :=
  [(65, 90); (97, 122); (170, 170); (181, 181); (186, 186); (192, 214);
   (216, 246); (248, 442); (444, 447); (452, 659); (661, 687); (880, 883);
   (886, 887); (891, 893); (895, 895); (902, 902); (904, 906); (908, 908);
   (910, 929); (931, 1013); (1015, 1153); (1162, 1327); (1329, 1366);
   (1376, 1416); (4256, 4293); (4295, 4295); (4301, 4301); (4304, 4346);
   (4349, 4351); (5024, 5109); (5112, 5117); (7296, 7304); (7312, 7354);
   (7357, 7359); (7424, 7467); (7531, 7543); (7545, 7578); (7680, 7957);
   (7960, 7965); (7968, 8005); (8008, 8013); (8016, 8023); (8025, 8025);
   (8027, 8027); (8029, 8029); (8031, 8061); (8064, 8116); (8118, 8124);
   (8126, 8126); (8130, 8132); (8134, 8140); (8144, 8147); (8150, 8155);
   (8160, 8172); (8178, 8180); (8182, 8188); (8450, 8450); (8455, 8455);
   (8458, 8467); (8469, 8469); (8473, 8477); (8484, 8484); (8486, 8486);
   (8488, 8488); (8490, 8493); (8495, 8500); (8505, 8505); (8508, 8511);
   (8517, 8521); (8526, 8526); (8544, 8575); (8579, 8580); (9398, 9449);
   (11264, 11387); (11390, 11492); (11499, 11502); (11506, 11507);
   (11520, 11557); (11559, 11559); (11565, 11565); (42560, 42605);
   (42624, 42651); (42786, 42863); (42865, 42887); (42891, 42894);
   (42896, 42954); (42960, 42961); (42963, 42963); (42965, 42969);
   (42997, 42998); (43002, 43002); (43824, 43866); (43872, 43880);
   (43888, 43967); (64256, 64262); (64275, 64279); (65313, 65338);
   (65345, 65370); (66560, 66639); (66736, 66771); (66776, 66811);
   (66928, 66938); (66940, 66954); (66956, 66962); (66964, 66965);
   (66967, 66977); (66979, 66993); (66995, 67001); (67003, 67004);
   (68736, 68786); (68800, 68850); (71840, 71903); (93760, 93823);
   (119808, 119892); (119894, 119964); (119966, 119967); (119970, 119970);
   (119973, 119974); (119977, 119980); (119982, 119993); (119995, 119995);
   (119997, 120003); (120005, 120069); (120071, 120074); (120077, 120084);
   (120086, 120092); (120094, 120121); (120123, 120126); (120128, 120132);
   (120134, 120134); (120138, 120144); (120146, 120485); (120488, 120512);
   (120514, 120538); (120540, 120570); (120572, 120596); (120598, 120628);
   (120630, 120654); (120656, 120686); (120688, 120712); (120714, 120744);
   (120746, 120770); (120772, 120779); (122624, 122633); (122635, 122654);
   (125184, 125251); (127280, 127305); (127312, 127337); (127344, 127369)]%N.

(** Lookup in a table sorted by code point. *)
Fixpoint assoc (c : codepoint) (table : list (codepoint * list codepoint))
    : option (list codepoint) :=
  match table with
  | [] => None
  | (k, v) :: r =>
      if (c =? k)%N then Some v
      else if (c <? k)%N then None
      else assoc c r
  end.

Definition full_mapping (table : list (codepoint * list codepoint))
    (c : codepoint) : list codepoint :=
  match assoc c table with
  | Some v => v
  | None => [c]
  end.

Fixpoint in_ranges (c : codepoint) (ranges : list (codepoint * codepoint))
    : bool :=
  match ranges with
  | [] => false
  | (lo, hi) :: r =>
      if (c <? lo)%N then false
      else if (c <=? hi)%N then true
      else in_ranges c r
  end.

Definition upper_full : codepoint -> list codepoint := full_mapping upper_table.
Definition lower_full : codepoint -> list codepoint := full_mapping lower_table.
Definition title_full : codepoint -> list codepoint := full_mapping title_table.
Definition case_ignorable (c : codepoint) : bool :=
  in_ranges c case_ignorable_ranges.
Definition cased (c : codepoint) : bool := in_ranges c cased_ranges.

Fixpoint prepend (l : list codepoint) (s : str) : str :=
  match l with
  | [] => s
  | c :: r => Str c (prepend r s)
  end.

(** [s.upper()]: every code point by its full upper-case mapping. *)
Fixpoint upper (s : str) : str :=
  match s with
  | EmptyStr => EmptyStr
  | Str c r => prepend (upper_full c) (upper r)
  end.

(** Lower-casing maps a capital sigma to the final small sigma when a
    cased code point comes before it and none comes after it, case-ignorable
    code points skipped on both sides. *)
Definition capital_sigma : codepoint := 931%N.
Definition small_sigma : codepoint := 963%N.
Definition final_sigma : codepoint := 962%N.

(** No cased code point follows: the rest is case-ignorable up to its
    end or up to a code point that is not cased. *)
Fixpoint none_cased_next (s : str) : bool :=
  match s with
  | EmptyStr => true
  | Str c r => if case_ignorable c then none_cased_next r else negb (cased c)
  end.

(** The context a code point leaves for what follows it. *)
Definition cased_before (before : bool) (c : codepoint) : bool :=
  if case_ignorable c then before else cased c.

(** Lower-casing [s], where [before] says whether a cased code point
    comes before [s]. *)
Fixpoint lower_from (before : bool) (s : str) : str :=
  match s with
  | EmptyStr => EmptyStr
  | Str c r =>
      prepend
        (if (c =? capital_sigma)%N
         then (if before && none_cased_next r then [final_sigma] else [small_sigma])
         else lower_full c)
        (lower_from (cased_before before c) r)
  end.

(** [s.lower()]. *)
Definition lower (s : str) : str := lower_from false s.

(** [s.capitalize()]: the first code point by its title-case mapping, the
    rest lower-cased. *)
Definition capitalize (s : str) : str :=
  match s with
  | EmptyStr => EmptyStr
  | Str c r => prepend (title_full c) (lower_from (cased_before false c) r)
  end.

(** Strings as members of stdpp's finite sets. *)
#[global] Instance str_eq_dec : EqDecision str.
Proof. solve_decision. Defined.

#[global] Instance str_countable : Countable str.
Proof.
  refine (inj_countable' list_of_str str_of_list _).
  intros s. induction s as [|c s IH]; cbn; congruence.
Defined.

(** [s.replace(old, new)] where [old] and [new] are one character each,
    the only form the notebook uses. *)
Fixpoint replace_char (old new : codepoint) (s : str) : str :=
  match s with
  | EmptyStr => EmptyStr
  | Str c r => Str (if (c =? old)%N then new else c) (replace_char old new r)
  end.

Definition space : codepoint := 32%N.
Definition underscore : codepoint := 95%N.
Definition open_brace : codepoint := 123%N.
Definition close_brace : codepoint := 125%N.

(** [str(n)] for an int: its decimal digits, with a minus sign in front
    of a negative one. *)
Fixpoint str_of_digits (s : string) : str :=
  match s with
  | EmptyString => EmptyStr
  | String a r => Str (N_of_ascii a) (str_of_digits r)
  end.

Definition str_of_int (z : Z) : str :=
  str_of_digits (NilZero.string_of_int (Z.to_int z)).

(** *** Exceptions *)

(** Exceptions the notebook can raise.  A [KeyError] carries the keys that
    were not found. *)
Inductive error : Type :=
| KeyError (keys : list str)
| IndexError
| ValueError
| AssertionError.

(** A computation that either raises or returns. *)
Definition result (A : Type) : Type := (error + A)%type.

Definition ok {A} (a : A) : result A := inr a.
Definition raise {A} (e : error) : result A := inl e.

Definition rbind {A B} (r : result A) (k : A -> result B) : result B :=
  match r with
  | inl e => inl e
  | inr a => k a
  end.

(** *** Values and truth *)

(** Values that [mo.cli_args().get(...)] hands back: [None] when the flag
    is absent, otherwise the parsed flag value. *)
#[warnings="-register-all"]
Inductive pyval : Type :=
| PNone
| PBool (b : bool)
| PInt (z : Z)
| PStr (s : str)
| PList (l : list pyval).

(** Python truth value testing. *)
Definition truthy (v : pyval) : bool :=
  match v with
  | PNone => false
  | PBool b => b
  | PInt z => negb (z =? 0)%Z
  | PStr s => negb (str_eqb s "")
  | PList l => match l with [] => false | _ :: _ => true end
  end.

(** [a or b]: [a] when it is truthy, else [b]. *)
Definition py_or (a b : pyval) : pyval := if truthy a then a else b.

(** *** Templates *)

(** [template.format(args...)] for templates whose replacement fields are
    the automatically numbered [{}], with the escapes [{{] and [}}].
    Running out of arguments is an [IndexError]; a lone brace, or a field
    with a name, an index or a format specification, is reported as
    [ValueError] (no template of the notebook has one). *)
Fixpoint format (template : str) (args : list str) : result str :=
  match template with
  | EmptyStr => ok EmptyStr
  | Str c r =>
      if (c =? open_brace)%N then
        match r with
        | EmptyStr => raise ValueError
        | Str d r' =>
            if (d =? open_brace)%N
            then rbind (format r' args) (fun s => ok (Str open_brace s))
            else if (d =? close_brace)%N
            then match args with
                 | [] => raise IndexError
                 | a :: args' => rbind (format r' args') (fun s => ok (a ++ s))
                 end
            else raise ValueError
        end
      else if (c =? close_brace)%N then
        match r with
        | EmptyStr => raise ValueError
        | Str d r' =>
            if (d =? close_brace)%N
            then rbind (format r' args) (fun s => ok (Str close_brace s))
            else raise ValueError
        end
      else rbind (format r args) (fun s => ok (Str c s))
  end.

(** *** Dicts

    A dict keeps its items in insertion order; assigning to a key that is
    already there replaces the value and keeps the position. *)
Definition dict (V : Type) : Type := list (str * V).

Fixpoint dict_get {V} (d : dict V) (k : str) : option V :=
  match d with
  | [] => None
  | (k', v) :: d' => if str_eqb k k' then Some v else dict_get d' k
  end.

Fixpoint dict_set {V} (d : dict V) (k : str) (v : V) : dict V :=
  match d with
  | [] => [(k, v)]
  | (k', v') :: d' =>
      if str_eqb k k' then (k', v) :: d' else (k', v') :: dict_set d' k v
  end.

Definition dict_keys {V} (d : dict V) : list str := map fst d.
Definition dict_values {V} (d : dict V) : list V := map snd d.

(** [d[k]], raising [KeyError] on a missing key. *)
Definition dict_item {V} (d : dict V) (k : str) : result V :=
  match dict_get d k with
  | Some v => ok v
  | None => raise (KeyError [k])
  end.

(** [{key(x): value(x) for x in xs}], where computing the key may raise.
    Items are evaluated and stored left to right. *)
Fixpoint dict_comp_from {A V} (key : A -> result str) (value : A -> V)
    (xs : list A) (acc : dict V) : result (dict V) :=
  match xs with
  | [] => ok acc
  | x :: xs' =>
      rbind (key x) (fun k => dict_comp_from key value xs' (dict_set acc k (value x)))
  end.

Definition dict_comp {A V} (key : A -> result str) (value : A -> V)
    (xs : list A) : result (dict V) :=
  dict_comp_from key value xs [].

End Py.

Import Py.
Open Scope str_scope.

(* ===================================================================== *)
(** ** The dataframe layer *)
(* ===================================================================== *)

Module Frame.
Import Py.

Section WithCell.

(** The type of one table entry.  The notebook never computes with the
    readouts, it only moves them around, so the type is left open. *)
Context {readout : Type}.

(** A table in wide form: the number of rows and, per column header in
    file order, the column's values. *)
Record DataFrame : Type := mkDataFrame {
  df_len : nat;
  df_data : list (str * list readout)
}.

(** [len(df)]. *)
Definition len (df : DataFrame) : nat := df_len df.

(** [df.columns]. *)
Definition df_columns (df : DataFrame) : list str := map fst (df_data df).

Definition has_column (df : DataFrame) (c : str) : bool :=
  existsb (str_eqb c) (df_columns df).

Definition column (df : DataFrame) (c : str) : list readout :=
  match dict_get (df_data df) c with
  | Some vs => vs
  | None => []
  end.

(** The keys of [keys] that are no column of [df]. *)
Definition missing (df : DataFrame) (keys : list str) : list str :=
  List.filter (fun k => negb (has_column df k)) keys.

(** [df[keys]]: the sub-table of the columns [keys], in that order.  One
    key that is no column makes the whole lookup a [KeyError]. *)
Definition getitem (df : DataFrame) (keys : list str) : result DataFrame :=
  match missing df keys with
  | [] => ok (mkDataFrame (df_len df) (map (fun k => (k, column df k)) keys))
  | k :: ks => raise (KeyError (k :: ks))
  end.

(** [df.rename(columns=mapping)]: headers that are keys of [mapping] are
    replaced, the others kept. *)
Definition rename (df : DataFrame) (mapping : dict str) : DataFrame :=
  mkDataFrame (df_len df)
    (map (fun '(c, vs) =>
            (match dict_get mapping c with Some l => l | None => c end, vs))
         (df_data df)).

(** A table in long form: one row per (slide, column) pair of the wide
    table, holding the identifier value if an identifier column was kept,
    the header of the column the value comes from, and the value. *)
Record LongFrame : Type := mkLongFrame {
  lf_id_name : option str;
  lf_var_name : str;
  lf_value_name : str;
  lf_rows : list (option readout * str * readout)
}.

(** [df.melt(var_name=..., value_name=..., id_vars=...)] with at most one
    identifier column.  A [value_name] that is already a column header
    is a [ValueError]; after that check, an identifier that is no column
    is a [KeyError]. *)
Definition melt (df : DataFrame) (var_name value_name : str)
    (id_vars : option str) : result LongFrame :=
  if has_column df value_name then raise ValueError else
  match id_vars with
  | None =>
      ok (mkLongFrame None var_name value_name
            (flat_map (fun '(c, vs) => map (fun v => (None, c, v)) vs)
                      (df_data df)))
  | Some i =>
      match dict_get (df_data df) i with
      | None => raise (KeyError [i])
      | Some ids =>
          ok (mkLongFrame (Some i) var_name value_name
                (flat_map
                   (fun '(c, vs) =>
                      map (fun '(iv, v) => (Some iv, c, v)) (combine ids vs))
                   (List.filter (fun '(c, _) => negb (str_eqb c i))
                                (df_data df))))
      end
  end.

(** The column headers of a long table. *)
Definition lf_columns (data : LongFrame) : list str :=
  (match lf_id_name data with Some i => [i] | None => [] end
   ++ [lf_var_name data; lf_value_name data])%list.

Fixpoint distinct (l : list str) : bool :=
  match l with
  | [] => true
  | x :: r => negb (existsb (str_eqb x) r) && distinct r
  end.

(** What [px.box] and [update_layout] fix of a figure. *)
Record Figure : Type := mkFigure {
  fig_data : LongFrame;
  fig_x : str;
  fig_y : str;
  fig_color : option str;
  fig_title : str;
  fig_xaxis_title : str;
  fig_yaxis_title : str;
  fig_legend_title : option str
}.

(** [px.box(data, x=..., y=..., color=...)]: the headers of [data] must
    be distinct and the arguments must be among them, else a
    [ValueError].  The figure starts with no title, its axes titled by
    their columns and its legend by the colour column. *)
Definition px_box (data : LongFrame) (x y : str) (color : option str)
    : result Figure :=
  let named c := existsb (str_eqb c) (lf_columns data) in
  if distinct (lf_columns data) && named x && named y
     && match color with Some c => named c | None => true end
  then ok (mkFigure data x y color "" x y color)
  else raise ValueError.

(** [fig.update_layout(title=..., xaxis_title=..., yaxis_title=...,
    legend_title=...)]. *)
Definition update_layout (fig : Figure) (title xaxis_title yaxis_title : str)
    (legend_title : option str) : Figure :=
  mkFigure (fig_data fig) (fig_x fig) (fig_y fig) (fig_color fig)
    title xaxis_title yaxis_title legend_title.

End WithCell.

Arguments DataFrame : clear implicits.
Arguments LongFrame : clear implicits.
Arguments Figure : clear implicits.

End Frame.

(* ===================================================================== *)
(** ** The notebook *)
(* ===================================================================== *)

Module Notebook.
Import Py Frame.

(** *** The global plot counter

    [plot_index] is the one global the notebook writes.  A cell's code is
    a function of the counter that returns the new counter next to its
    result; when it raises, the counter is as the raise found it. *)
Definition M (A : Type) : Type := Z -> result A * Z.

Definition ret {A} (a : A) : M A := fun i => (ok a, i).

Definition bind {A B} (m : M A) (k : A -> M B) : M B :=
  fun i =>
    match m i with
    | (inl e, i') => (inl e, i')
    | (inr a, i') => k a i'
    end.

Definition lift {A} (r : result A) : M A := fun i => (r, i).

Definition get_plot_index : M Z := fun i => (ok i, i).
Definition set_plot_index (j : Z) : M unit := fun _ => (ok tt, j).

Declare Scope nb_scope.
Delimit Scope nb_scope with nb.
Notation "'do' x <- m ; k" := (bind m (fun x => k))
  (at level 10, x name, m at level 100, k at level 200) : nb_scope.
Open Scope nb_scope.

(** A list comprehension whose body runs a plot: left to right, stopping
    at the first raise. *)
Fixpoint for_each {A B} (f : A -> M B) (xs : list A) : M (list B) :=
  match xs with
  | [] => ret []
  | x :: xs' => do y <- f x; do ys <- for_each f xs'; ret (y :: ys)
  end.

(** *** Statistics and classes (third cell) *)

Record statistic : Type := mkStatistic {
  name : str;
  unit : option str
}.

Definition tissue_stat_dict : dict statistic :=
  [ ("AREA", mkStatistic "Area" (Some "μm<sup>2</sup>"));
    ("REGION_COUNT", mkStatistic "Region count" None);
    ("LARGEST_FILLED_AREA", mkStatistic "Largest filled area" (Some "μm<sup>2</sup>"));
    ("AVG_ECCENTRICITY", mkStatistic "Average eccentricity" None) ].

Definition cell_stat_dict : dict statistic :=
  [ ("CELL_PERC", mkStatistic "Percentage of total number of cells" (Some "%"));
    ("CELL_DENS", mkStatistic "Density of cells" (Some "cells/μm<sup>2</sup>"));
    ("CELL_COUNT", mkStatistic "Cell count" None) ].

Definition neighborhood_stat_dict : dict statistic :=
  [ ("RATIO", mkStatistic "Ratio of cells" None);
    ("DENSITY", mkStatistic "Density of cells" (Some "cells/μm<sup>2</sup>"));
    ("AVG_MIN_DISTANCE", mkStatistic "Average minimum distance of cells" (Some "μm")) ].

Definition tissue_classes : list str :=
  [ "Carcinoma"; "Stroma"; "Necrosis"; "Blood"; "Vessel";
    "Epithelial tissue"; "Other" ].

Definition cell_classes : list str :=
  [ "Carcinoma cell"; "Lymphocyte"; "Macrophage"; "Granulocyte";
    "Plasma cell"; "Epithelial cell"; "Endothelial cell"; "Fibroblast";
    "Other" ].

(** *** Print mode and its presets (first cell) *)

(** [mo.cli_args().get("print") or True], as a function of what
    [get("print")] returns. *)
Definition print_mode (cli_print : pyval) : pyval :=
  py_or cli_print (PBool true).

Record tissue_kwargs : Type := mkTissueKw { tk_statistic : str }.

Record cell_kwargs : Type := mkCellKw {
  ck_statistic : str;
  ck_tissue_type : str
}.

Record neighborhood_kwargs : Type := mkNeighborhoodKw {
  nk_cell_class_a : str;
  nk_roi : str;
  nk_statistic : str;
  nk_radius : Z
}.

Record graph_settings : Type := mkSettings {
  tissue : list tissue_kwargs;
  cell : list cell_kwargs;
  neighborhood : list neighborhood_kwargs
}.

Definition print_mode_graph_settings : graph_settings :=
  {| tissue := [ mkTissueKw "AREA" ];
     cell := [ mkCellKw "CELL_PERC" "All tissue types";
               mkCellKw "CELL_DENS" "Carcinoma";
               mkCellKw "CELL_DENS" "Stroma" ];
     neighborhood :=
       flat_map
         (fun radius =>
            map (fun statistic =>
                   mkNeighborhoodKw "Carcinoma cell" "Carcinoma" statistic radius)
                (dict_keys neighborhood_stat_dict))
         [20%Z; 40%Z] |}.

(** *** Loading the table (fourth cell) *)

(** [load_readouts_data], as a function of what [pd.read_csv] returns. *)
Definition load_readouts_data {readout} (read_csv : result (DataFrame readout))
    : result (DataFrame readout) :=
  rbind read_csv (fun df =>
    let n_initial := len df in
    (* ensure we have a unique mapping *)
    if Nat.eqb n_initial (len df) then ok df else raise AssertionError).

(** *** Box plots (fifth cell) *)

Definition to_allcaps (cls : str) : str :=
  replace_char space underscore (upper cls).


(** [if subtitle:] *)
Definition subtitle_given (subtitle : option str) : bool :=
  match subtitle with
  | Some s => negb (str_eqb s "")
  | None => false
  end.

(** The y-axis label of [plot_boxplot], lines 192-194. *)
Definition y_label (stat : statistic) : str :=
  let y_label := capitalize (name stat) in
  match unit stat with
  | Some u => y_label ++ " (" ++ u ++ ")"
  | None => y_label
  end.

Definition plot_boxplot {readout} (print_mode : pyval) (df : DataFrame readout)
    (variable : str) (stat : statistic) (title : str)
    (color : option str) (subtitle : option str) : M (Figure readout) :=
  do long <- lift (melt df variable (name stat) color);
  let y_label := y_label stat in
  let title := capitalize ("Distribution of " ++ title) in
  let title :=
    match subtitle with
    | Some s =>
        if subtitle_given subtitle
        then title ++ "<br><sub>Data from column(s): " ++ s ++ "</sub>"
        else title
    | None => title
    end in
  do title <- (if truthy print_mode
               then do plot_index <- get_plot_index;
                    do _ <- set_plot_index (plot_index + 1);
                    ret (str_of_int plot_index ++ ". " ++ title)
               else ret title);
  do fig <- lift (px_box long variable (name stat) color);
  let legend_title := option_map capitalize color in
  ret (update_layout fig title (capitalize variable) y_label legend_title).

(** *** Dropdowns (sixth, eighth and tenth cell) *)

(** [mo.ui.dropdown(options=..., label=..., value=...)]. *)
Record dropdown (O V : Type) : Type := mkDropdown {
  options : O;
  label : str;
  value : V
}.
Arguments mkDropdown {O V}.
Arguments options {O V}.
Arguments label {O V}.
Arguments value {O V}.

(** [l[0]]. *)
Definition first_item {A} (l : list A) : result A :=
  match l with
  | [] => raise IndexError
  | x :: _ => ok x
  end.

(** The options are a dict from display name to statistic code; the
    initial selection is the display name of the first statistic. *)
Definition dict_to_dropdown (d : dict statistic) (label : str)
    : result (dropdown (dict str) str) :=
  let options :=
    fold_left (fun acc '(key, value) => dict_set acc (name value) key) d [] in
  rbind (first_item (dict_values d)) (fun s =>
    ok (mkDropdown options label (name s))).

Definition tissue_stat_dropdown :=
  dict_to_dropdown tissue_stat_dict "Select the statistic you would like to display".

Definition tissue_all : str := "All tissue types".

Definition tissue_type_dropdown : dropdown (gset str) str :=
  mkDropdown
    (list_to_set ([tissue_all] ++ tissue_classes)
       ∖ list_to_set ["Necrosis"; "Blood"])
    "Select tissue type"
    tissue_all.

Definition cell_stat_dropdown :=
  dict_to_dropdown cell_stat_dict "Select statistic to display".

Definition cell_class_a_dropdown : result (dropdown (list str) str) :=
  rbind (first_item cell_classes) (fun v =>
    ok (mkDropdown cell_classes "Select cell class" v)).

Definition roi_dropdown : dropdown (gset str) str :=
  mkDropdown
    (list_to_set tissue_classes ∖ list_to_set ["Necrosis"; "Blood"])
    "Select tissue type"
    "Carcinoma".

Definition nb_stat_dropdown :=
  dict_to_dropdown neighborhood_stat_dict "Select statistic to display".

Definition radius_dropdown : dropdown (list Z) Z :=
  mkDropdown [20%Z; 40%Z] "Select compute radius" 20%Z.

(** What the dropdowns currently hold ([dropdown.value]); for a dropdown
    built from a statistic dict that is the statistic code. *)
Record widgets : Type := mkWidgets {
  w_tissue_stat : str;
  w_tissue_type : str;
  w_cell_stat : str;
  w_cell_class_a : str;
  w_roi : str;
  w_nb_stat : str;
  w_radius : Z
}.

(** *** Column names

    Each plot function first builds the dict from column names to class
    labels; these are those first lines, with the template they use. *)

(** [plot_tissue_areas], lines 270-271. *)
Definition tissue_columns (tissue_classes : list str) (statistic : str)
    : str * result (dict str) :=
  let column_format := statistic ++ "_{}" in
  (column_format,
   dict_comp (fun cls => format column_format [to_allcaps cls])
             (fun cls => cls) tissue_classes).

(** [plot_cell_stat], lines 357-369. *)
Definition cell_columns (cell_classes : list str)
    (tissue_type statistic : str) : str * result (dict str) :=
  let column_format :=
    if str_eqb tissue_type tissue_all
    then statistic ++ "_{}"
    else statistic ++ "_{}_" ++ to_allcaps tissue_type in
  (column_format,
   dict_comp (fun cell_class => format column_format [to_allcaps cell_class])
             (fun cell_class => cell_class) cell_classes).

(** [plot_neighborhood_stat], lines 484-492. *)
Definition neighborhood_columns (cell_classes : list str)
    (cell_class_a roi statistic : str) (radius : Z)
    : str * result (dict str) :=
  let column :=
    to_allcaps (statistic ++ "_OF_{}S_AROUND_" ++ cell_class_a ++ "_IN_"
                  ++ roi ++ "_" ++ str_of_int radius) in
  (column,
   dict_comp (fun cell_class_b =>
                rbind (format column [cell_class_b]) (fun s => ok (to_allcaps s)))
             (fun cell_class_b => cell_class_b) cell_classes).

(** *** The three plots (seventh, ninth and eleventh cell) *)

Section Cells.

Context {readout : Type}.
Variable tissue_classes cell_classes : list str.
Variable print_mode : pyval.
Variable df : DataFrame readout.

Definition plot_tissue_areas (statistic : str) : M (Figure readout) :=
  let '(column_format, cols) := tissue_columns tissue_classes statistic in
  do cols <- lift cols;
  do sub <- lift (getitem df (dict_keys cols));
  let _df := rename sub cols in
  do stat <- lift (dict_item tissue_stat_dict statistic);
  let title := name stat ++ " of a specific tissue type per slide" in
  plot_boxplot print_mode _df "tissue type" stat title None (Some column_format).

Definition plot_cell_stat (tissue_type statistic : str) : M (Figure readout) :=
  do stat <- lift (dict_item cell_stat_dict statistic);
  let title :=
    if str_eqb tissue_type tissue_all
    then name stat ++ " of a specific class per slide"
    else name stat ++ " of a specific class within " ++ tissue_type
           ++ " area per slide" in
  let '(column_format, columns) :=
    cell_columns cell_classes tissue_type statistic in
  do columns <- lift columns;
  do sub <- lift (getitem df (dict_keys columns));
  let _df := rename sub columns in
  plot_boxplot print_mode _df "cell class" stat title None (Some column_format).

Definition plot_neighborhood_stat (cell_class_a roi statistic : str)
    (radius : Z) : M (Figure readout) :=
  do stat <- lift (dict_item neighborhood_stat_dict statistic);
  let '(column, columns_to_labels) :=
    neighborhood_columns cell_classes cell_class_a roi statistic radius in
  do columns_to_labels <- lift columns_to_labels;
  do sub <- lift (getitem df (dict_keys columns_to_labels));
  let _df := rename sub columns_to_labels in
  let title :=
    name stat ++ " of a specific class in a " ++ str_of_int radius
      ++ " μm radius of<br>" ++ cell_class_a ++ "s within " ++ roi
      ++ " area per slide" in
  plot_boxplot print_mode _df "cell class" stat title None (Some column).

(** What a display function hands to the page: the stack of the preset
    figures, or the one figure of the current selection. *)
Inductive rendered : Type :=
| VStack (figures : list (Figure readout))
| Plot (figure : Figure readout).

Definition figures_of (r : rendered) : list (Figure readout) :=
  match r with
  | VStack fs => fs
  | Plot f => [f]
  end.

Variable w : widgets.

Definition display_tissue_graph : M rendered :=
  if truthy print_mode
  then do figs <- for_each (fun kwargs => plot_tissue_areas (tk_statistic kwargs))
                           (tissue print_mode_graph_settings);
       ret (VStack figs)
  else let statistic := w_tissue_stat w in
       do fig <- plot_tissue_areas statistic; ret (Plot fig).

Definition display_cell_graphs : M rendered :=
  if truthy print_mode
  then do figs <- for_each (fun kwargs => plot_cell_stat (ck_tissue_type kwargs)
                                                         (ck_statistic kwargs))
                           (cell print_mode_graph_settings);
       ret (VStack figs)
  else let tissue := w_tissue_type w in
       let statistic := w_cell_stat w in
       do fig <- plot_cell_stat tissue statistic; ret (Plot fig).

Definition display_neighbourbood_graphs : M rendered :=
  if truthy print_mode
  then do figs <- for_each
                    (fun kwargs =>
                       plot_neighborhood_stat (nk_cell_class_a kwargs) (nk_roi kwargs)
                                              (nk_statistic kwargs) (nk_radius kwargs))
                    (neighborhood print_mode_graph_settings);
       ret (VStack figs)
  else let cell_class_a := w_cell_class_a w in
       let roi := w_roi w in
       let statistic := w_nb_stat w in
       let radius := w_radius w in
       do fig <- plot_neighborhood_stat cell_class_a roi statistic radius;
       ret (Plot fig).

(** One run of the notebook's three display cells, in file order, and
    the figures they put on the page, top to bottom.  A raise in one
    cell ends the run. *)
Definition display_all : M (list (Figure readout)) :=
  do t <- display_tissue_graph;
  do c <- display_cell_graphs;
  do n <- display_neighbourbood_graphs;
  ret (figures_of t ++ figures_of c ++ figures_of n)%list.

End Cells.

Arguments rendered : clear implicits.

End Notebook.

Import Py Frame Notebook.

(* ===================================================================== *)
(** ** Vocabulary of the statements *)
(* ===================================================================== *)

(** What [to_allcaps] makes of one code point. *)
Definition space_to_underscore (c : codepoint) : codepoint :=
  if (c =? space)%N then underscore else c.

Definition allcaps_cp (c : codepoint) : list codepoint :=
  map space_to_underscore (upper_full c).

(** Strings without braces, the ones [format] copies unchanged. *)
Definition is_brace (c : codepoint) : bool :=
  (c =? open_brace)%N || (c =? close_brace)%N.

Fixpoint brace_free (s : str) : bool :=
  match s with
  | EmptyStr => true
  | Str c r => negb (is_brace c) && brace_free r
  end.

(** An entry of the upper-case table is well-behaved when its mapping
    is not empty, holds no brace, and holds only code points that
    [str.upper] leaves alone. *)
Definition upper_entry_ok (entry : codepoint * list codepoint) : bool :=
  let '(_, v) := entry in
  match v with [] => false | _ :: _ => true end
  && forallb (fun e => negb (is_brace e)
                       && match assoc e upper_table with
                          | None => true
                          | Some _ => false
                          end) v.

(** Increasing code points, and closed ranges in increasing order that do
    not touch: the order the lookups rely on. *)
Fixpoint increasing (l : list codepoint) : bool :=
  match l with
  | [] => true
  | a :: r =>
      match r with
      | [] => true
      | b :: _ => (a <? b)%N && increasing r
      end
  end.

Fixpoint ranges_increasing (l : list (codepoint * codepoint)) : bool :=
  match l with
  | [] => true
  | (lo, hi) :: r =>
      (lo <=? hi)%N
      && match r with
         | [] => true
         | (lo', _) :: _ => (hi <? lo')%N && ranges_increasing r
         end
  end.

(* The case tables are looked up, never unfolded, in the proofs. *)
Arguments assoc : simpl never.
Arguments upper_full : simpl never.
Arguments lower_full : simpl never.
Arguments title_full : simpl never.
Arguments case_ignorable : simpl never.
Arguments cased : simpl never.

(** [to_allcaps] after [format]: substitute first, normalise once. *)
Definition format_allcaps (template : str) (args : list str)
    : result str :=
  rbind (format template args) (fun s => ok (to_allcaps s)).

(** The keyword arguments of one plot call, tagged with the plot function
    they go to (the three keys of [print_mode_graph_settings]). *)
Inductive query : Type :=
| TissueQuery (kwargs : tissue_kwargs)
| CellQuery (kwargs : cell_kwargs)
| NeighborhoodQuery (kwargs : neighborhood_kwargs).

(** The template and the column dict a plot call builds, with the
    notebook's own class lists. *)
Definition resolve (q : query) : str * result (dict str) :=
  match q with
  | TissueQuery kw => tissue_columns tissue_classes (tk_statistic kw)
  | CellQuery kw =>
      cell_columns cell_classes (ck_tissue_type kw) (ck_statistic kw)
  | NeighborhoodQuery kw =>
      neighborhood_columns cell_classes (nk_cell_class_a kw) (nk_roi kw)
        (nk_statistic kw) (nk_radius kw)
  end.

(** The plot call itself. *)
Definition plot {readout} (print_mode : pyval) (df : DataFrame readout)
    (q : query) : M (Figure readout) :=
  match q with
  | TissueQuery kw =>
      plot_tissue_areas tissue_classes print_mode df (tk_statistic kw)
  | CellQuery kw =>
      plot_cell_stat cell_classes print_mode df
        (ck_tissue_type kw) (ck_statistic kw)
  | NeighborhoodQuery kw =>
      plot_neighborhood_stat cell_classes print_mode df
        (nk_cell_class_a kw) (nk_roi kw) (nk_statistic kw) (nk_radius kw)
  end.

(** What a plot call does once its dict is built, step by step: the
    catalog lookup comes first in the cell and neighbourhood plots and
    after the column lookup in the tissue plot. *)
Definition after_resolve {readout} (print_mode : pyval)
    (df : DataFrame readout) (q : query) (template : str)
    (cols : dict str) : M (Figure readout) :=
  match q with
  | TissueQuery kw =>
      do sub <- lift (getitem df (dict_keys cols));
      do stat <- lift (dict_item tissue_stat_dict (tk_statistic kw));
      plot_boxplot print_mode (rename sub cols) "tissue type" stat
        (name stat ++ " of a specific tissue type per slide") None (Some template)
  | CellQuery kw =>
      do stat <- lift (dict_item cell_stat_dict (ck_statistic kw));
      do sub <- lift (getitem df (dict_keys cols));
      plot_boxplot print_mode (rename sub cols) "cell class" stat
        (if str_eqb (ck_tissue_type kw) tissue_all
         then name stat ++ " of a specific class per slide"
         else name stat ++ " of a specific class within " ++ ck_tissue_type kw
                ++ " area per slide")
        None (Some template)
  | NeighborhoodQuery kw =>
      do stat <- lift (dict_item neighborhood_stat_dict (nk_statistic kw));
      do sub <- lift (getitem df (dict_keys cols));
      plot_boxplot print_mode (rename sub cols) "cell class" stat
        (name stat ++ " of a specific class in a " ++ str_of_int (nk_radius kw)
           ++ " μm radius of<br>" ++ nk_cell_class_a kw ++ "s within "
           ++ nk_roi kw ++ " area per slide")
        None (Some template)
  end.

(** The enumeration a query ranges over, its catalog and its statistic. *)
Definition categories (q : query) : list str :=
  match q with
  | TissueQuery _ => tissue_classes
  | CellQuery _ | NeighborhoodQuery _ => cell_classes
  end.

Definition catalog (q : query) : dict statistic :=
  match q with
  | TissueQuery _ => tissue_stat_dict
  | CellQuery _ => cell_stat_dict
  | NeighborhoodQuery _ => neighborhood_stat_dict
  end.

Definition statistic_of (q : query) : str :=
  match q with
  | TissueQuery kw => tk_statistic kw
  | CellQuery kw => ck_statistic kw
  | NeighborhoodQuery kw => nk_statistic kw
  end.

(** The x-label a plot function passes to [plot_boxplot]. *)
Definition variable_of (q : query) : str :=
  match q with
  | TissueQuery _ => "tissue type"
  | CellQuery _ | NeighborhoodQuery _ => "cell class"
  end.

Definition mem (x : str) (l : list str) : bool :=
  existsb (str_eqb x) l.

(** Queries built from the catalogs and enumerations: a statistic code of
    the query's catalog, a tissue type or region among the tissue classes
    (or "All tissue types" for a cell plot), a reference class among the
    cell classes, a radius of 20 or 40. *)
Definition admissible (q : query) : bool :=
  match q with
  | TissueQuery kw => mem (tk_statistic kw) (dict_keys tissue_stat_dict)
  | CellQuery kw =>
      mem (ck_statistic kw) (dict_keys cell_stat_dict)
      && mem (ck_tissue_type kw) (tissue_all :: tissue_classes)
  | NeighborhoodQuery kw =>
      mem (nk_statistic kw) (dict_keys neighborhood_stat_dict)
      && mem (nk_cell_class_a kw) cell_classes
      && mem (nk_roi kw) tissue_classes
      && existsb (Z.eqb (nk_radius kw)) (options radius_dropdown)
  end.

(** One name per class, in the order of the classes, and names and
    labels in one-to-one correspondence: no name and no label occurs
    twice, and looking a name up gives back its label. *)
Definition one_to_one (classes : list str) (cols : dict str) : Prop :=
  dict_values cols = classes
  /\ List.NoDup (dict_keys cols)
  /\ List.NoDup (dict_values cols)
  /\ forall k l, In (k, l) cols -> dict_get cols k = Some l.

Fixpoint nodupb (l : list str) : bool :=
  match l with
  | [] => true
  | x :: r => negb (mem x r) && nodupb r
  end.

(** The presets of print mode as queries, in the order the display cells
    run them, and the columns they read. *)
Definition preset_queries : list query :=
  (map TissueQuery (tissue print_mode_graph_settings)
   ++ map CellQuery (cell print_mode_graph_settings)
   ++ map NeighborhoodQuery (neighborhood print_mode_graph_settings))%list.

Definition columns_of (q : query) : list str :=
  match snd (resolve q) with
  | inr cols => dict_keys cols
  | inl _ => []
  end.

Definition print_mode_columns : list str := flat_map columns_of preset_queries.


(** The statistics of the three catalogs. *)
Definition catalog_statistics : list statistic :=
  (dict_values tissue_stat_dict ++ dict_values cell_stat_dict
   ++ dict_values neighborhood_stat_dict)%list.

(** Row [i] of a table, read across its columns. *)
Definition row {readout} (df : DataFrame readout) (i : nat)
    : list (option readout) :=
  map (fun '(_, vs) => nth_error vs i) (df_data df).

(** *** Sample tables *)

(** Two rows for the same slide. *)
Definition duplicate_slide_table : DataFrame str :=
  mkDataFrame 2
    [ ("SLIDE", ["slide-1"; "slide-1"]);
      ("AREA_CARCINOMA", ["10.5"; "10.5"]) ].

(** One slide, with every column the presets read. *)
Definition full_table : DataFrame str :=
  mkDataFrame 1 (map (fun c => (c, ["0.5"])) print_mode_columns).

(** One slide, with the cell densities of two classes only. *)
Definition two_class_table : DataFrame str :=
  mkDataFrame 1
    [ ("CELL_DENS_CARCINOMA_CELL", ["0.25"]);
      ("CELL_DENS_LYMPHOCYTE", ["0.75"]) ].


(* ===================================================================== *)
(** ** Facts about strings, templates and dicts *)
(* ===================================================================== *)

Section StringFacts.

Lemma str_eqb_refl (s : str) : str_eqb s s = true.
Proof.
  induction s as [|c s IH]; cbn; [reflexivity|].
  now rewrite N.eqb_refl, IH.
Qed.

Lemma str_eqb_eq (s t : str) : str_eqb s t = true <-> s = t.
Proof.
  split; [|intros ->; apply str_eqb_refl].
  revert t. induction s as [|c s IH]; intros [|d t]; cbn; try discriminate.
  - reflexivity.
  - intros [Hc Hs]%andb_prop. apply N.eqb_eq in Hc. subst.
    f_equal. now apply IH.
Qed.

Lemma str_eqb_spec (s t : str) : reflect (s = t) (str_eqb s t).
Proof.
  destruct (str_eqb s t) eqn:E; constructor.
  - now apply str_eqb_eq.
  - intros H. apply str_eqb_eq in H. congruence.
Qed.

Lemma append_assoc (s t u : str) : (s ++ t) ++ u = s ++ (t ++ u).
Proof.
  induction s as [|c s IH]; cbn; [reflexivity | now rewrite IH].
Qed.

Lemma append_nil_r (s : str) : s ++ "" = s.
Proof.
  induction s as [|c s IH]; cbn; [reflexivity | now rewrite IH].
Qed.

Lemma append_length (s t : str) :
  str_length (s ++ t) = (str_length s + str_length t)%nat.
Proof.
  induction s as [|c s IH]; cbn; [reflexivity | now rewrite IH].
Qed.

Lemma append_inv_head (p s t : str) : p ++ s = p ++ t -> s = t.
Proof.
  induction p as [|c p IH]; cbn; intros H; [exact H | injection H; auto].
Qed.

Lemma append_inv_tail (u : str) :
  forall s t : str, s ++ u = t ++ u -> s = t.
Proof.
  induction s as [|c s IH]; intros [|d t] H; cbn in H.
  - reflexivity.
  - apply (f_equal str_length) in H. cbn in H.
    rewrite append_length in H. lia.
  - apply (f_equal str_length) in H. cbn in H.
    rewrite append_length in H. lia.
  - injection H as -> H. f_equal. now apply IH.
Qed.

Lemma prepend_app (l : list codepoint) (s t : str) :
  prepend l (s ++ t) = prepend l s ++ t.
Proof.
  induction l as [|c l IH]; cbn; [reflexivity | now rewrite IH].
Qed.

Lemma prepend_prepend (l m : list codepoint) (s : str) :
  prepend (l ++ m)%list s = prepend l (prepend m s).
Proof.
  induction l as [|c l IH]; cbn; [reflexivity | now rewrite IH].
Qed.

Lemma replace_char_prepend (old new : codepoint) (l : list codepoint) (s : str) :
  replace_char old new (prepend l s)
  = prepend (map (fun c => if (c =? old)%N then new else c) l)
            (replace_char old new s).
Proof.
  induction l as [|c l IH]; cbn; [reflexivity | now rewrite IH].
Qed.

(** [to_allcaps], one code point at a time. *)
Lemma to_allcaps_cons (c : codepoint) (s : str) :
  to_allcaps (Str c s) = prepend (allcaps_cp c) (to_allcaps s).
Proof.
  unfold to_allcaps. cbn [upper]. now rewrite replace_char_prepend.
Qed.

Lemma to_allcaps_app (s t : str) :
  to_allcaps (s ++ t) = to_allcaps s ++ to_allcaps t.
Proof.
  induction s as [|c s IH]; [reflexivity|].
  cbn [str_app]. now rewrite !to_allcaps_cons, IH, prepend_app.
Qed.

Lemma to_allcaps_prepend (l : list codepoint) (s : str) :
  to_allcaps (prepend l s)
  = prepend (flat_map allcaps_cp l) (to_allcaps s).
Proof.
  induction l as [|c l IH]; cbn [prepend flat_map]; [reflexivity|].
  now rewrite to_allcaps_cons, IH, prepend_prepend.
Qed.

(** *** The upper-case table *)

Lemma assoc_In (c : codepoint) (table : list (codepoint * list codepoint))
    (v : list codepoint) :
  assoc c table = Some v -> In (c, v) table.
Proof.
  induction table as [|[k w] r IH]; [discriminate|].
  change (assoc c ((k, w) :: r))
    with (if (c =? k)%N then Some w
          else if (c <? k)%N then None else assoc c r).
  destruct (N.eqb_spec c k) as [->|_].
  - intros [= ->]. now left.
  - destruct (c <? k)%N; [discriminate|]. intros H. right. now apply IH.
Qed.

Lemma increasing_head (a : codepoint) (l : list codepoint) :
  increasing (a :: l) = true -> forall b, In b l -> (a < b)%N.
Proof.
  revert a. induction l as [|x l IH]; intros a H b Hb; [destruct Hb|].
  cbn [increasing] in H. apply andb_prop in H as [Hax Hl].
  apply N.ltb_lt in Hax. destruct Hb as [<-|Hb]; [exact Hax|].
  specialize (IH x Hl b Hb). lia.
Qed.

Lemma increasing_tail (a : codepoint) (l : list codepoint) :
  increasing (a :: l) = true -> increasing l = true.
Proof.
  destruct l as [|x l]; [reflexivity|]. cbn [increasing].
  now intros [_ H]%andb_prop.
Qed.

(** In a table sorted by code point the lookup finds every entry. *)
Lemma assoc_complete (c : codepoint) (table : list (codepoint * list codepoint))
    (v : list codepoint) :
  increasing (map fst table) = true ->
  In (c, v) table -> assoc c table = Some v.
Proof.
  induction table as [|[k w] r IH]; [intros _ []|].
  cbn [map fst]. intros Hs Hin.
  change (assoc c ((k, w) :: r))
    with (if (c =? k)%N then Some w
          else if (c <? k)%N then None else assoc c r).
  destruct Hin as [[= -> ->]|Hin]; [now rewrite N.eqb_refl|].
  assert (Hlt : (k < c)%N).
  { apply (increasing_head k (map fst r) Hs).
    change c with (fst (c, v)). now apply in_map. }
  destruct (N.eqb_spec c k) as [->|_]; [lia|].
  destruct (N.ltb_spec c k); [lia|].
  apply IH; [now apply increasing_tail in Hs | exact Hin].
Qed.

Lemma in_ranges_complete (c lo hi : codepoint)
    (ranges : list (codepoint * codepoint)) :
  ranges_increasing ranges = true ->
  In (lo, hi) ranges -> (lo <= c <= hi)%N -> in_ranges c ranges = true.
Proof.
  induction ranges as [|[l h] r IH]; [intros _ []|].
  cbn [ranges_increasing in_ranges]. intros [Hlh Hr]%andb_prop Hin Hc.
  apply N.leb_le in Hlh.
  destruct Hin as [[= -> ->]|Hin].
  - destruct (N.ltb_spec c lo); [lia|]. destruct (N.leb_spec c hi); [reflexivity|lia].
  - destruct r as [|[l' h'] r']; [destruct Hin|].
    apply andb_prop in Hr as [Hhl Hr]. apply N.ltb_lt in Hhl.
    specialize (IH Hr Hin Hc).
    destruct (N.ltb_spec c l) as [Hcl|_].
    + (* [c] lies before this range, hence before every later one *)
      exfalso. clear IH. revert l' h' Hhl Hr Hin.
      induction r' as [|[l2 h2] r2 IH2]; intros l' h' Hhl Hr Hin.
      * destruct Hin as [[= -> ->]|[]]. lia.
      * cbn [ranges_increasing] in Hr. apply andb_prop in Hr as [Hl'h' Hr].
        apply N.leb_le in Hl'h'. apply andb_prop in Hr as [Hh'l2 Hr].
        apply N.ltb_lt in Hh'l2.
        destruct Hin as [[= -> ->]|Hin]; [lia|].
        apply (IH2 l2 h2); [lia | exact Hr | exact Hin].
    + destruct (N.leb_spec c h); [reflexivity | exact IH].
Qed.

Lemma tables_sorted :
  increasing (map fst upper_table) = true
  /\ increasing (map fst lower_table) = true
  /\ increasing (map fst title_table) = true
  /\ ranges_increasing case_ignorable_ranges = true
  /\ ranges_increasing cased_ranges = true.
Proof. repeat split; vm_compute; reflexivity. Qed.

Lemma upper_table_ok : forallb upper_entry_ok upper_table = true.
Proof. vm_compute. reflexivity. Qed.

(** Either [str.upper] leaves a code point alone, or the code point has
    a well-behaved entry in the table. *)
Lemma upper_full_cases (c : codepoint) :
  upper_full c = [c]
  \/ upper_entry_ok (c, upper_full c) = true.
Proof.
  unfold upper_full, full_mapping.
  destruct (assoc c upper_table) as [v|] eqn:E; [right | now left].
  apply assoc_In in E.
  pose proof upper_table_ok as H. rewrite forallb_forall in H.
  exact (H _ E).
Qed.

Lemma upper_full_fixed (c e : codepoint) :
  In e (upper_full c) -> upper_full e = [e].
Proof.
  destruct (upper_full_cases c) as [Hc | H].
  - rewrite Hc. intros [<-|[]]. exact Hc.
  - intros He. unfold upper_entry_ok in H. apply andb_prop in H as [_ H].
    rewrite forallb_forall in H. specialize (H e He).
    apply andb_prop in H as [_ H].
    unfold upper_full, full_mapping.
    now destruct (assoc e upper_table).
Qed.

Lemma upper_full_not_nil (c : codepoint) : upper_full c <> [].
Proof.
  destruct (upper_full_cases c) as [Hc | H]; [now rewrite Hc|].
  unfold upper_entry_ok in H. apply andb_prop in H as [H _].
  now destruct (upper_full c).
Qed.

Lemma upper_full_brace (c e : codepoint) :
  is_brace c = false -> In e (upper_full c) -> is_brace e = false.
Proof.
  intros Hb. destruct (upper_full_cases c) as [Hc | H].
  - rewrite Hc. now intros [<-|[]].
  - intros He. unfold upper_entry_ok in H. apply andb_prop in H as [_ H].
    rewrite forallb_forall in H. specialize (H e He).
    apply andb_prop in H as [H _]. now destruct (is_brace e).
Qed.

Lemma upper_full_of_brace (c : codepoint) :
  is_brace c = true -> upper_full c = [c].
Proof.
  unfold is_brace. intros [H|H]%orb_prop; apply N.eqb_eq in H; subst;
    vm_compute; reflexivity.
Qed.

(** *** One code point of [to_allcaps] *)

Lemma space_to_underscore_brace (e : codepoint) :
  is_brace (space_to_underscore e) = is_brace e.
Proof.
  unfold space_to_underscore. destruct (N.eqb_spec e space) as [->|_];
    reflexivity.
Qed.

Lemma allcaps_cp_of_brace (c : codepoint) :
  is_brace c = true -> allcaps_cp c = [c].
Proof.
  intros H. unfold allcaps_cp. rewrite (upper_full_of_brace c H). cbn [map].
  unfold space_to_underscore.
  destruct (N.eqb_spec c space) as [->|_]; [discriminate H | reflexivity].
Qed.

Lemma allcaps_cp_not_nil (c : codepoint) : allcaps_cp c <> [].
Proof.
  unfold allcaps_cp. pose proof (upper_full_not_nil c).
  now destruct (upper_full c).
Qed.

Lemma allcaps_cp_brace (c d : codepoint) :
  is_brace c = false -> In d (allcaps_cp c) -> is_brace d = false.
Proof.
  unfold allcaps_cp. intros Hb (e & <- & He)%in_map_iff.
  rewrite space_to_underscore_brace. now apply (upper_full_brace c).
Qed.

Lemma allcaps_cp_fixed (c d : codepoint) :
  In d (allcaps_cp c) -> allcaps_cp d = [d].
Proof.
  unfold allcaps_cp at 1. intros (e & <- & He)%in_map_iff.
  apply upper_full_fixed in He.
  destruct (N.eqb_spec e space) as [->|Hne].
  - vm_compute. reflexivity.
  - assert (E : space_to_underscore e = e).
    { unfold space_to_underscore. now destruct (N.eqb_spec e space). }
    rewrite E. unfold allcaps_cp. rewrite He. cbn [map]. now rewrite E.
Qed.

Lemma flat_map_allcaps_fixed (l : list codepoint) :
  (forall d, In d l -> allcaps_cp d = [d]) -> flat_map allcaps_cp l = l.
Proof.
  induction l as [|d l IH]; cbn [flat_map]; intros H; [reflexivity|].
  rewrite (H d) by now left. cbn [app]. f_equal.
  apply IH. intros e He. apply H. now right.
Qed.

Lemma to_allcaps_idem (s : str) : to_allcaps (to_allcaps s) = to_allcaps s.
Proof.
  induction s as [|c s IH]; [reflexivity|].
  rewrite to_allcaps_cons, to_allcaps_prepend, IH. f_equal.
  apply flat_map_allcaps_fixed. intros d. apply allcaps_cp_fixed.
Qed.

(** Beyond the Latin letters: a micro sign, a sharp s that becomes two
    letters, and a capital sigma that is lower-cased by its place in the
    word. *)
Lemma case_mapping_examples :
  to_allcaps "μm straße" = "ΜM_STRASSE"
  /\ capitalize "éCOLE ΑΣ ΟΔΟΣ" = "École ας οδος"
  /\ capitalize "20 μm radius of<br>Carcinoma cells"
     = "20 μm radius of<br>carcinoma cells".
Proof. repeat split; vm_compute; reflexivity. Qed.

(** *** Braces *)

Lemma brace_free_app (s t : str) :
  brace_free (s ++ t) = brace_free s && brace_free t.
Proof.
  induction s as [|c s IH]; cbn [str_app brace_free]; [reflexivity|].
  now rewrite IH, andb_assoc.
Qed.

Lemma brace_free_prepend (l : list codepoint) (s : str) :
  brace_free (prepend l s)
  = forallb (fun c => negb (is_brace c)) l && brace_free s.
Proof.
  induction l as [|c l IH]; cbn [prepend brace_free forallb]; [reflexivity|].
  now rewrite IH, andb_assoc.
Qed.

Lemma allcaps_cp_brace_free (c : codepoint) :
  forallb (fun d => negb (is_brace d)) (allcaps_cp c) = negb (is_brace c).
Proof.
  destruct (is_brace c) eqn:Hb.
  - rewrite (allcaps_cp_of_brace c Hb). cbn. now rewrite Hb.
  - apply forallb_forall. intros d Hd.
    now rewrite (allcaps_cp_brace c d Hb Hd).
Qed.

Lemma brace_free_to_allcaps (s : str) :
  brace_free (to_allcaps s) = brace_free s.
Proof.
  induction s as [|c s IH]; [reflexivity|].
  rewrite to_allcaps_cons, brace_free_prepend, IH, allcaps_cp_brace_free.
  reflexivity.
Qed.

Lemma is_brace_false (c : codepoint) :
  is_brace c = false ->
  (c =? open_brace)%N = false /\ (c =? close_brace)%N = false.
Proof. unfold is_brace. now intros [? ?]%orb_false_elim. Qed.

Lemma format_cons_plain (c : codepoint) (r : str) (args : list str) :
  is_brace c = false ->
  format (Str c r) args = rbind (format r args) (fun s => ok (Str c s)).
Proof.
  intros [Ho Hc]%is_brace_false. cbn [format]. now rewrite Ho, Hc.
Qed.

Lemma format_prepend_plain (l : list codepoint) (r : str) (args : list str) :
  forallb (fun c => negb (is_brace c)) l = true ->
  format (prepend l r) args
  = rbind (format r args) (fun s => ok (prepend l s)).
Proof.
  induction l as [|c l IH]; cbn [prepend forallb]; intros H.
  - now destruct (format r args).
  - apply andb_prop in H as [Hc Hl]. apply negb_true_iff in Hc.
    rewrite format_cons_plain by exact Hc. rewrite IH by exact Hl.
    now destruct (format r args).
Qed.

Lemma format_brace_free (s : str) (args : list str) :
  brace_free s = true -> format s args = ok s.
Proof.
  induction s as [|c s IH]; [reflexivity|].
  cbn [brace_free]. intros [Hc Hs]%andb_prop. apply negb_true_iff in Hc.
  rewrite format_cons_plain by exact Hc.
  now rewrite IH.
Qed.

(** A template with one hole: the argument lands in the hole. *)
Lemma format_hole (pre suf a : str) :
  brace_free pre = true -> brace_free suf = true ->
  format (pre ++ "{}" ++ suf) [a] = ok (pre ++ a ++ suf).
Proof.
  intros Hp Hs. induction pre as [|c pre IH].
  - cbn [str_app format]. cbn. now rewrite format_brace_free.
  - cbn [brace_free] in Hp. apply andb_prop in Hp as [Hc Hp].
    apply negb_true_iff in Hc.
    specialize (IH Hp). cbn [str_app] in *.
    rewrite format_cons_plain by exact Hc.
    now rewrite IH.
Qed.

End StringFacts.

Section FormatFacts.

Lemma is_brace_cases (c : codepoint) :
  is_brace c = true -> c = open_brace \/ c = close_brace.
Proof.
  unfold is_brace. intros [H|H]%orb_prop; apply N.eqb_eq in H; auto.
Qed.

Lemma format_open_other (d : codepoint) (r : str) (args : list str) :
  is_brace d = false -> format (Str open_brace (Str d r)) args = raise ValueError.
Proof.
  intros [Ho Hc]%is_brace_false. cbn [format].
  now rewrite N.eqb_refl, Ho, Hc.
Qed.

Lemma format_close_other (d : codepoint) (r : str) (args : list str) :
  d <> close_brace -> format (Str close_brace (Str d r)) args = raise ValueError.
Proof.
  intros H%N.eqb_neq. cbn [format].
  change (close_brace =? open_brace)%N with false. cbn iota.
  now rewrite N.eqb_refl, H.
Qed.

Lemma rbind_allcaps_step (x y : result str) (f g : str -> str) :
  x = rbind y (fun s => ok (to_allcaps s)) ->
  (forall s, f (to_allcaps s) = to_allcaps (g s)) ->
  rbind x (fun s => ok (f s))
  = rbind (rbind y (fun s => ok (g s))) (fun s => ok (to_allcaps s)).
Proof.
  intros -> H. destruct y as [e|s]; cbn; [reflexivity|].
  unfold ok. f_equal. apply H.
Qed.

Lemma to_allcaps_cons_brace (c : codepoint) (s : str) :
  is_brace c = true -> to_allcaps (Str c s) = Str c (to_allcaps s).
Proof.
  intros H. now rewrite to_allcaps_cons, (allcaps_cp_of_brace c H).
Qed.

(** What follows an opening brace decides the field; a code point that
    is no brace stays none under [to_allcaps], so the field is refused
    before and after. *)
Lemma format_open_plain (l : list codepoint) (r : str) (args : list str) :
  l <> [] -> forallb (fun c => negb (is_brace c)) l = true ->
  format (Str open_brace (prepend l r)) args = raise ValueError.
Proof.
  destruct l as [|d l]; [congruence|]. intros _ H. cbn [forallb] in H.
  apply andb_prop in H as [Hd _]. apply negb_true_iff in Hd.
  cbn [prepend]. now apply format_open_other.
Qed.

Lemma format_close_plain (l : list codepoint) (r : str) (args : list str) :
  l <> [] -> forallb (fun c => negb (is_brace c)) l = true ->
  format (Str close_brace (prepend l r)) args = raise ValueError.
Proof.
  destruct l as [|d l]; [congruence|]. intros _ H. cbn [forallb] in H.
  apply andb_prop in H as [Hd _]. apply negb_true_iff in Hd.
  cbn [prepend]. apply format_close_other. intros ->. discriminate Hd.
Qed.

(** Substituting normalised arguments into the normalised template is
    normalising the substituted template: the same name, or the same
    error. *)
Lemma format_to_allcaps_length (n : nat) :
  forall (t : str) (args : list str),
    (str_length t <= n)%nat ->
    format (to_allcaps t) (map to_allcaps args) = format_allcaps t args.
Proof.
  unfold format_allcaps.
  induction n as [|n IH]; intros t args Hlen.
  - destruct t; [reflexivity | cbn in Hlen; lia].
  - destruct t as [|c r]; [reflexivity|].
    cbn [str_length] in Hlen.
    destruct (is_brace c) eqn:Hc.
    + rewrite (to_allcaps_cons_brace c r Hc).
      destruct r as [|d r'].
      { apply is_brace_cases in Hc as [-> | ->]; reflexivity. }
      cbn [str_length] in Hlen.
      destruct (is_brace d) eqn:Hd.
      * rewrite (to_allcaps_cons_brace d r' Hd).
        apply is_brace_cases in Hc as [-> | ->];
          apply is_brace_cases in Hd as [-> | ->].
        -- cbn [format]. cbn iota. apply rbind_allcaps_step; [apply IH; lia|].
           intros s. now rewrite to_allcaps_cons_brace.
        -- cbn [format]. cbn iota. destruct args as [|a args']; [reflexivity|].
           cbn [map]. apply rbind_allcaps_step; [apply IH; lia|].
           intros s. now rewrite to_allcaps_app.
        -- rewrite !format_close_other by discriminate. reflexivity.
        -- cbn [format]. cbn iota. apply rbind_allcaps_step; [apply IH; lia|].
           intros s. now rewrite to_allcaps_cons_brace.
      * rewrite to_allcaps_cons.
        pose proof (allcaps_cp_not_nil d) as Hne.
        pose proof (allcaps_cp_brace_free d) as Hbf. rewrite Hd in Hbf.
        apply is_brace_cases in Hc as [-> | ->].
        -- rewrite format_open_plain by assumption.
           now rewrite format_open_other.
        -- rewrite format_close_plain by assumption.
           rewrite format_close_other; [reflexivity|].
           intros ->. discriminate Hd.
    + rewrite to_allcaps_cons.
      pose proof (allcaps_cp_brace_free c) as Hbf. rewrite Hc in Hbf.
      rewrite format_prepend_plain by exact Hbf.
      rewrite format_cons_plain by exact Hc.
      apply rbind_allcaps_step; [apply IH; lia|].
      intros s. now rewrite to_allcaps_cons.
Qed.

Lemma format_to_allcaps (t : str) (args : list str) :
  format (to_allcaps t) (map to_allcaps args) = format_allcaps t args.
Proof. now apply (format_to_allcaps_length (str_length t)). Qed.

(** Normalising the template before the substitution changes nothing
    once the result is normalised. *)
Lemma format_allcaps_template (t : str) (args : list str) :
  format_allcaps (to_allcaps t) args = format_allcaps t args.
Proof.
  rewrite <- (format_to_allcaps (to_allcaps t)), to_allcaps_idem.
  apply format_to_allcaps.
Qed.

End FormatFacts.

Section DictFacts.

Context {V : Type}.
Implicit Types (d acc : dict V) (k : str) (v : V).

Lemma dict_set_fresh d k v :
  ~ In k (dict_keys d) -> dict_set d k v = (d ++ [(k, v)])%list.
Proof.
  induction d as [|[k' v'] d IH]; cbn; intros H; [reflexivity|].
  destruct (str_eqb_spec k k') as [->|_]; [tauto|].
  rewrite IH; [reflexivity | tauto].
Qed.

Lemma dict_set_In d k v k0 v0 :
  In (k0, v0) (dict_set d k v) -> (k0, v0) = (k, v) \/ In (k0, v0) d.
Proof.
  induction d as [|[k' v'] d IH]; cbn.
  - intros [H|[]]; auto.
  - destruct (str_eqb_spec k k') as [->|_]; cbn.
    + intros [H|H]; auto.
    + intros [H|H]; auto. destruct (IH H); auto.
Qed.

Lemma dict_get_In d k v :
  List.NoDup (dict_keys d) -> In (k, v) d -> dict_get d k = Some v.
Proof.
  induction d as [|[k' v'] d IH]; cbn; [tauto|].
  intros Hnd [H|H].
  - injection H as -> ->. now rewrite str_eqb_refl.
  - apply NoDup_cons_iff in Hnd as [Hk Hnd].
    destruct (str_eqb_spec k k') as [->|_]; [|auto].
    exfalso. apply Hk. change k' with (fst (k', v)). now apply in_map.
Qed.

Context {A : Type}.
Variable key : A -> result str.
Variable value : A -> V.

(** Comprehensions whose keys agree item by item are the same dict. *)
Lemma dict_comp_from_ext (key' : A -> result str) (xs : list A) :
  (forall x, In x xs -> key x = key' x) ->
  forall acc, dict_comp_from key value xs acc = dict_comp_from key' value xs acc.
Proof.
  induction xs as [|x xs IH]; intros E acc; [reflexivity|].
  cbn. rewrite <- (E x) by now left.
  destruct (key x) as [e|k]; cbn; [reflexivity|].
  apply IH. intros y Hy. apply E. now right.
Qed.

(** Keys that never raise and never collide: one item per element, in
    the order of the elements. *)
Lemma dict_comp_from_fresh (kf : A -> str) (xs : list A) :
  (forall x, In x xs -> key x = ok (kf x)) ->
  forall acc,
    List.NoDup (dict_keys acc ++ map kf xs) ->
    dict_comp_from key value xs acc
    = ok (acc ++ map (fun x => (kf x, value x)) xs)%list.
Proof.
  induction xs as [|x xs IH]; intros E acc Hnd; cbn.
  - now rewrite app_nil_r.
  - rewrite (E x) by now left. cbn.
    rewrite dict_set_fresh.
    + rewrite IH.
      * now rewrite <- app_assoc.
      * intros y Hy. apply E. now right.
      * unfold dict_keys in *. rewrite map_app. cbn.
        now rewrite <- app_assoc.
    + cbn in Hnd. apply NoDup_remove_2 in Hnd.
      intros H. apply Hnd. apply in_or_app. now left.
Qed.

Lemma dict_comp_fresh (kf : A -> str) (xs : list A) :
  (forall x, In x xs -> key x = ok (kf x)) ->
  List.NoDup (map kf xs) ->
  dict_comp key value xs = ok (map (fun x => (kf x, value x)) xs).
Proof.
  intros E Hnd. unfold dict_comp. now rewrite (dict_comp_from_fresh kf).
Qed.

(** Whatever holds of each computed item holds of every item of the
    comprehension, collisions or not. *)
Lemma dict_comp_from_items (P : str -> V -> Prop) (xs : list A) :
  (forall x k, In x xs -> key x = ok k -> P k (value x)) ->
  forall acc d,
    (forall k v, In (k, v) acc -> P k v) ->
    dict_comp_from key value xs acc = ok d ->
    forall k v, In (k, v) d -> P k v.
Proof.
  induction xs as [|x xs IH]; intros HP acc d Hacc; cbn.
  - intros [= <-]. exact Hacc.
  - destruct (key x) as [e|k0] eqn:Ek; cbn; [discriminate|].
    apply IH.
    + intros y k Hy. apply HP. now right.
    + intros k v [[= -> ->]|H]%dict_set_In; [|auto].
      apply HP; [now left | exact Ek].
Qed.

Lemma dict_comp_items (P : str -> V -> Prop) (xs : list A) (d : dict V) :
  (forall x k, key x = ok k -> P k (value x)) ->
  dict_comp key value xs = ok d ->
  forall k v, In (k, v) d -> P k v.
Proof.
  intros HP E. apply (dict_comp_from_items P xs) with (acc := []).
  - intros x k _. apply HP.
  - intros k v [].
  - exact E.
Qed.

End DictFacts.
(* ===================================================================== *)
(** ** Name normalisation *)
(* ===================================================================== *)

(** C10.  [to_allcaps] is idempotent on every str, and the
    neighbourhood plot, which normalises the column template and then
    the template with the raw class label substituted, builds the same
    dict as substituting the label into the raw template and normalising
    that name once. *)
Theorem to_allcaps_idempotent :
  (forall s : str, to_allcaps (to_allcaps s) = to_allcaps s)
  /\ (forall (classes : list str) (cell_class_a roi statistic : str)
             (radius : Z),
        snd (neighborhood_columns classes cell_class_a roi statistic radius)
        = dict_comp
            (fun cell_class_b =>
               format_allcaps
                 (statistic ++ "_OF_{}S_AROUND_" ++ cell_class_a ++ "_IN_"
                    ++ roi ++ "_" ++ str_of_int radius)
                 [cell_class_b])
            (fun cell_class_b => cell_class_b) classes).
Proof.
  split; [exact to_allcaps_idem|].
  intros classes a roi stat radius. cbn [neighborhood_columns snd].
  unfold dict_comp. apply dict_comp_from_ext.
  intros b _. apply format_allcaps_template.
Qed.

(* ===================================================================== *)
(** ** The print-mode flag *)
(* ===================================================================== *)

Section PrintMode.

Context {readout : Type}.
Variable df : DataFrame readout.
Variable w : widgets.

Lemma print_mode_truthy (cli_print : pyval) :
  truthy (print_mode cli_print) = true.
Proof.
  unfold print_mode, py_or.
  destruct (truthy cli_print) eqn:E; [exact E | reflexivity].
Qed.

(** C1.  Whatever the command line gives for the flag (absent, false,
    true, anything else), [print_mode] is truthy; with the flag absent
    or false it is [True].  The display cells therefore always take the
    preset branch: the branch that reads the dropdowns is never run, and
    what the three display cells render is the same for every state of
    the dropdowns. *)
Theorem print_mode_always_on :
  print_mode PNone = PBool true
  /\ print_mode (PBool false) = PBool true
  /\ forall cli_print : pyval,
       truthy (print_mode cli_print) = true
       /\ display_cell_graphs cell_classes (print_mode cli_print) df w
          = bind (for_each
                    (fun kwargs =>
                       plot_cell_stat cell_classes (print_mode cli_print) df
                         (ck_tissue_type kwargs) (ck_statistic kwargs))
                    (cell print_mode_graph_settings))
                 (fun figs => ret (VStack figs))
       /\ forall w' : widgets,
            display_all tissue_classes cell_classes (print_mode cli_print) df w'
            = display_all tissue_classes cell_classes (print_mode cli_print) df w.
Proof.
  split; [reflexivity|]. split; [reflexivity|].
  intros cli_print. split; [apply print_mode_truthy|]. split.
  - unfold display_cell_graphs. now rewrite print_mode_truthy.
  - intros w'.
    unfold display_all, display_tissue_graph, display_cell_graphs,
      display_neighbourbood_graphs.
    now rewrite print_mode_truthy.
Qed.

End PrintMode.

(* ===================================================================== *)
(** ** Loading *)
(* ===================================================================== *)

(** C2.  The check in [load_readouts_data] compares the row count with
    itself: every table that [read_csv] returns is handed on, and so is
    the sample table whose two rows are the same slide. *)
Theorem load_readouts_data_accepts_duplicates :
  (forall (readout : Type) (df : DataFrame readout),
      load_readouts_data (ok df) = ok df)
  /\ row duplicate_slide_table 0 = row duplicate_slide_table 1
  /\ load_readouts_data (ok duplicate_slide_table) = ok duplicate_slide_table.
Proof.
  assert (H : forall (readout : Type) (df : DataFrame readout),
             load_readouts_data (ok df) = ok df).
  { intros readout df. unfold load_readouts_data, ok, rbind.
    now rewrite Nat.eqb_refl. }
  split; [exact H | split; [reflexivity | apply H]].
Qed.

(* ===================================================================== *)
(** ** Dropdown options *)
(* ===================================================================== *)

Lemma mem_In (x : str) (l : list str) : mem x l = true <-> In x l.
Proof.
  unfold mem. rewrite existsb_exists. split.
  - intros (y & Hy & E). apply str_eqb_eq in E. now subst.
  - intros H. exists x. split; [exact H | apply str_eqb_refl].
Qed.

(** C8, as stated, fails: "Necrosis" is a tissue class and is offered by
    neither tissue dropdown. *)
Lemma necrosis_not_offered :
  In "Necrosis" tissue_classes
  /\ ("Necrosis" ∉ options tissue_type_dropdown)
  /\ ("Necrosis" ∉ options roi_dropdown).
Proof.
  split; [cbn; tauto|].
  unfold tissue_type_dropdown, roi_dropdown. cbn [options].
  split; intros [_ H]%elem_of_difference; apply H;
    apply elem_of_list_to_set, list_elem_of_In; cbn; tauto.
Qed.

(** C8, amended.  The tissue-type dropdown offers "All tissue types" and
    the tissue classes other than "Necrosis" and "Blood", and nothing
    else; the region dropdown offers the tissue classes other than
    "Necrosis" and "Blood", and nothing else; the cell-class dropdown
    offers exactly the cell classes.  The column names of the tissue plot
    are still built from the full tissue enumeration: for every
    statistic of the tissue catalog the dict has one name per tissue
    class, the names for "Necrosis" and "Blood" among them. *)
Theorem dropdown_options :
  (forall t : str,
      t ∈ (options tissue_type_dropdown)
      <-> (t = tissue_all \/ In t tissue_classes)
          /\ t <> "Necrosis" /\ t <> "Blood")
  /\ (forall t : str,
        t ∈ (options roi_dropdown)
        <-> In t tissue_classes /\ t <> "Necrosis" /\ t <> "Blood")
  /\ (exists d, cell_class_a_dropdown = ok d /\ options d = cell_classes)
  /\ Forall
       (fun statistic =>
          exists cols,
            snd (tissue_columns tissue_classes statistic) = ok cols
            /\ dict_values cols = tissue_classes
            /\ dict_get cols (statistic ++ "_NECROSIS") = Some "Necrosis"
            /\ dict_get cols (statistic ++ "_BLOOD") = Some "Blood")
       (dict_keys tissue_stat_dict).
Proof.
  split; [|split; [|split]].
  - intros t. unfold tissue_type_dropdown. cbn [options].
    rewrite elem_of_difference, !elem_of_list_to_set, !list_elem_of_In.
    cbn [app In]. intuition (subst; auto; try congruence).
  - intros t. unfold roi_dropdown. cbn [options].
    rewrite elem_of_difference, !elem_of_list_to_set, !list_elem_of_In.
    cbn [In]. intuition (subst; auto; try congruence).
  - eexists. split; reflexivity.
  - repeat (apply List.Forall_cons || apply List.Forall_nil);
      (eexists; split; [lazy; reflexivity|]; repeat split; reflexivity).
Qed.

(* ===================================================================== *)
(** ** Column names *)
(* ===================================================================== *)

Section Resolver.

Lemma nodupb_sound (l : list str) : nodupb l = true -> List.NoDup l.
Proof.
  induction l as [|x r IH]; cbn; intros H; constructor.
  - apply andb_prop in H as [H _]. intros Hin%mem_In.
    now rewrite Hin in H.
  - apply IH. now apply andb_prop in H as [_ H].
Qed.

Lemma mem_brace_free (x : str) (l : list str) :
  forallb brace_free l = true -> mem x l = true -> brace_free x = true.
Proof.
  intros Hl Hx%mem_In. rewrite forallb_forall in Hl. now apply Hl.
Qed.

(** Filling the hole of a fixed template keeps distinct classes apart. *)
Lemma NoDup_hole (pre suf : str) (classes : list str) :
  List.NoDup (map to_allcaps classes) ->
  List.NoDup (map (fun cls => pre ++ to_allcaps cls ++ suf) classes).
Proof.
  induction classes as [|x xs IH]; cbn; intros H; [constructor|].
  apply NoDup_cons_iff in H as [Hx Hxs]. constructor; [|auto].
  intros (y & E & Hy)%in_map_iff. apply Hx.
  apply append_inv_head, append_inv_tail in E. rewrite <- E.
  now apply in_map.
Qed.

Lemma hole_comp (pre suf : str) (classes : list str) :
  brace_free pre = true -> brace_free suf = true ->
  List.NoDup (map to_allcaps classes) ->
  dict_comp (fun cls => format (pre ++ "{}" ++ suf) [to_allcaps cls])
            (fun cls => cls) classes
  = ok (map (fun cls => (pre ++ to_allcaps cls ++ suf, cls)) classes).
Proof.
  intros Hp Hs Hnd.
  apply (dict_comp_fresh _ _ (fun cls => pre ++ to_allcaps cls ++ suf)).
  - intros cls _. now apply format_hole.
  - now apply NoDup_hole.
Qed.

Lemma hole_comp_allcaps (pre suf : str) (classes : list str) :
  brace_free pre = true -> brace_free suf = true ->
  List.NoDup (map to_allcaps classes) ->
  dict_comp (fun b => rbind (format (to_allcaps (pre ++ "{}" ++ suf)) [b])
                            (fun s => ok (to_allcaps s)))
            (fun b => b) classes
  = ok (map (fun b => (to_allcaps pre ++ to_allcaps b ++ to_allcaps suf, b))
            classes).
Proof.
  intros Hp Hs Hnd.
  apply (dict_comp_fresh _ _
           (fun b => to_allcaps pre ++ to_allcaps b ++ to_allcaps suf)).
  - intros b _.
    change (format_allcaps (to_allcaps (pre ++ "{}" ++ suf)) [b]
            = ok (to_allcaps pre ++ to_allcaps b ++ to_allcaps suf)).
    rewrite format_allcaps_template. unfold format_allcaps.
    rewrite format_hole by assumption. cbn.
    now rewrite !to_allcaps_app.
  - now apply NoDup_hole.
Qed.

Lemma one_to_one_hole (pre suf : str) (classes : list str) :
  List.NoDup classes -> List.NoDup (map to_allcaps classes) ->
  one_to_one classes (map (fun cls => (pre ++ to_allcaps cls ++ suf, cls)) classes).
Proof.
  intros Hc Hnd.
  assert (Hv : dict_values
                 (map (fun cls => (pre ++ to_allcaps cls ++ suf, cls)) classes)
               = classes).
  { unfold dict_values. rewrite map_map. cbn. apply map_id. }
  assert (Hk : List.NoDup
                 (dict_keys
                    (map (fun cls => (pre ++ to_allcaps cls ++ suf, cls)) classes))).
  { unfold dict_keys. rewrite map_map. cbn. now apply NoDup_hole. }
  unfold one_to_one. rewrite Hv. repeat split; try assumption.
  intros k l. now apply dict_get_In.
Qed.

Lemma classes_distinct :
  List.NoDup tissue_classes /\ List.NoDup (map to_allcaps tissue_classes)
  /\ List.NoDup cell_classes /\ List.NoDup (map to_allcaps cell_classes).
Proof. repeat split; apply nodupb_sound; reflexivity. Qed.

(** The dict of an admissible query, written out: a fixed prefix and
    suffix around the normalised class. *)
Lemma resolve_hole (q : query) :
  admissible q = true ->
  exists pre suf,
    snd (resolve q)
    = ok (map (fun cls => (pre ++ to_allcaps cls ++ suf, cls)) (categories q)).
Proof.
  destruct classes_distinct as (_ & Ht & _ & Hc).
  destruct q as [[stat] | [stat tt] | [a roi stat radius]];
    cbn [admissible resolve categories tk_statistic ck_statistic
         ck_tissue_type nk_cell_class_a nk_roi nk_statistic nk_radius].
  - intros Hs. apply mem_brace_free in Hs; [|reflexivity].
    exists (stat ++ "_"), "". cbn [tissue_columns snd].
    rewrite <- hole_comp; try assumption; try reflexivity.
    + now rewrite append_assoc.
    + now rewrite brace_free_app, Hs.
  - intros [Hs Htt]%andb_prop.
    apply mem_brace_free in Hs; [|reflexivity].
    apply mem_brace_free in Htt; [|reflexivity].
    assert (Hpre : brace_free (stat ++ "_") = true)
      by now rewrite brace_free_app, Hs.
    cbn [cell_columns snd]. destruct (str_eqb tt tissue_all).
    + exists (stat ++ "_"), "".
      rewrite <- hole_comp; try assumption; try reflexivity.
      now rewrite append_assoc.
    + exists (stat ++ "_"), ("_" ++ to_allcaps tt).
      rewrite <- hole_comp; try assumption.
      * now rewrite append_assoc.
      * now rewrite brace_free_app, brace_free_to_allcaps, Htt.
  - intros [[[Hs Ha]%andb_prop Hr]%andb_prop Hrad]%andb_prop.
    apply mem_brace_free in Hs; [|reflexivity].
    apply mem_brace_free in Ha; [|reflexivity].
    apply mem_brace_free in Hr; [|reflexivity].
    assert (Hd : brace_free (str_of_int radius) = true).
    { cbn in Hrad. apply orb_prop in Hrad as [E|E].
      - apply Z.eqb_eq in E. now subst.
      - rewrite orb_false_r in E. apply Z.eqb_eq in E. now subst. }
    exists (to_allcaps (stat ++ "_OF_")),
           (to_allcaps ("S_AROUND_" ++ a ++ "_IN_" ++ roi ++ "_"
                          ++ str_of_int radius)).
    cbn [neighborhood_columns snd].
    rewrite <- hole_comp_allcaps; try assumption.
    + now rewrite append_assoc.
    + now rewrite brace_free_app, Hs.
    + now rewrite !brace_free_app, Ha, Hr, Hd.
Qed.

End Resolver.

(** C3.  For a statistic code of a catalog and qualifiers from the
    enumerations, the resolver returns a dict with exactly one column
    name per class of the query's enumeration, in the order of the
    enumeration, and names and labels are in one-to-one correspondence. *)
Theorem resolver_one_to_one (q : query) :
  admissible q = true ->
  exists cols, snd (resolve q) = ok cols /\ one_to_one (categories q) cols.
Proof.
  intros Hq. destruct (resolve_hole q Hq) as (pre & suf & E).
  eexists. split; [exact E|].
  destruct classes_distinct as (Ht & Ht' & Hc & Hc').
  apply one_to_one_hole; destruct q; assumption.
Qed.

Lemma resolver_one_to_one_witness :
  admissible (NeighborhoodQuery
                (mkNeighborhoodKw "Plasma cell" "Epithelial tissue"
                                  "AVG_MIN_DISTANCE" 40)) = true
  /\ exists cols,
       snd (resolve (NeighborhoodQuery
                       (mkNeighborhoodKw "Plasma cell" "Epithelial tissue"
                                         "AVG_MIN_DISTANCE" 40))) = ok cols
       /\ one_to_one cell_classes cols.
Proof.
  split; [reflexivity|].
  apply (resolver_one_to_one
           (NeighborhoodQuery
              (mkNeighborhoodKw "Plasma cell" "Epithelial tissue"
                                "AVG_MIN_DISTANCE" 40))).
  reflexivity.
Defined.

(** C4.  With the tissue type "All tissue types" the cell plot uses the
    template [STAT_{}]: for every statistic of the cell catalog the name
    built for a cell class is the statistic code, an underscore and the
    normalised class, with no tissue segment after it.  For "CELL_DENS"
    over the classes "Carcinoma cell" and "Lymphocyte" the dict is the
    one the specification gives. *)
Theorem all_tissue_types_omits_suffix :
  Forall
    (fun statistic =>
       cell_columns cell_classes "All tissue types" statistic
       = (statistic ++ "_{}",
          ok (map (fun cell_class =>
                     (statistic ++ "_" ++ to_allcaps cell_class, cell_class))
                  cell_classes)))
    (dict_keys cell_stat_dict)
  /\ cell_columns ["Carcinoma cell"; "Lymphocyte"] "All tissue types" "CELL_DENS"
     = ("CELL_DENS_{}",
        ok [ ("CELL_DENS_CARCINOMA_CELL", "Carcinoma cell");
             ("CELL_DENS_LYMPHOCYTE", "Lymphocyte") ]).
Proof.
  split; [|reflexivity].
  repeat constructor.
Qed.

(** C6.  For every item of a resolver's dict, substituting the
    normalised label into the template of the plot gives back the
    item's column name; this holds for the tissue, the cell and the
    neighbourhood resolver, whatever their arguments. *)
Theorem template_round_trip (q : query) (cols : dict str)
    (column label : str) :
  snd (resolve q) = ok cols ->
  In (column, label) cols ->
  format (fst (resolve q)) [to_allcaps label] = ok column.
Proof.
  destruct q as [[stat] | [stat tt] | [a roi stat radius]];
    cbn [resolve tissue_columns cell_columns neighborhood_columns fst snd
         tk_statistic ck_statistic ck_tissue_type nk_cell_class_a nk_roi
         nk_statistic nk_radius];
    intros E Hin; revert column label Hin.
  - apply (dict_comp_items _ _
             (fun k v => format (stat ++ "_{}") [to_allcaps v] = ok k)
             _ _ (fun x k H => H) E).
  - apply (dict_comp_items _ _
             (fun k v =>
                format (if str_eqb tt tissue_all
                        then stat ++ "_{}"
                        else stat ++ "_{}_" ++ to_allcaps tt)
                       [to_allcaps v] = ok k)
             _ _ (fun x k H => H) E).
  - refine (dict_comp_items _ _
              (fun k v =>
                 format (to_allcaps
                           (stat ++ "_OF_{}S_AROUND_" ++ a ++ "_IN_" ++ roi
                              ++ "_" ++ str_of_int radius))
                        [to_allcaps v] = ok k)
              _ _ _ E).
    intros b k H.
    set (raw := stat ++ "_OF_{}S_AROUND_" ++ a ++ "_IN_" ++ roi ++ "_"
                  ++ str_of_int radius) in *.
    change (format (to_allcaps raw) (map to_allcaps [b]) = ok k).
    rewrite format_to_allcaps, <- format_allcaps_template. exact H.
Qed.

Lemma template_round_trip_witness :
  format "RATIO_OF_{}S_AROUND_CARCINOMA_CELL_IN_CARCINOMA_20"
         [to_allcaps "Plasma cell"]
  = ok "RATIO_OF_PLASMA_CELLS_AROUND_CARCINOMA_CELL_IN_CARCINOMA_20".
Proof.
  refine (template_round_trip
            (NeighborhoodQuery
               (mkNeighborhoodKw "Carcinoma cell" "Carcinoma" "RATIO" 20))
            _ _ "Plasma cell" eq_refl _).
  vm_compute. tauto.
Defined.

(* ===================================================================== *)
(** ** Box plots *)
(* ===================================================================== *)

Section BoxPlot.

Context {readout : Type}.
Implicit Types (df : DataFrame readout) (i : Z).

Lemma melt_wide df (var_name value_name : str) :
  has_column df value_name = false ->
  melt df var_name value_name None
  = ok (mkLongFrame None var_name value_name
          (flat_map (fun '(c, vs) => map (fun v => (None, c, v)) vs)
                    (df_data df))).
Proof. intros H. unfold melt. now rewrite H. Qed.

Lemma melt_clash df (var_name value_name : str) (id_vars : option str) :
  has_column df value_name = true ->
  melt df var_name value_name id_vars = raise ValueError.
Proof. intros H. unfold melt. now rewrite H. Qed.

Lemma px_box_wide (var_name value_name : str)
    (rows : list (option readout * str * readout)) :
  str_eqb var_name value_name = false ->
  px_box (mkLongFrame None var_name value_name rows) var_name value_name None
  = ok (mkFigure (mkLongFrame None var_name value_name rows)
          var_name value_name None "" var_name value_name None).
Proof.
  intros H. unfold px_box, lf_columns. cbn [lf_id_name lf_var_name lf_value_name app].
  cbn [distinct existsb]. now rewrite H, !str_eqb_refl, !orb_true_r.
Qed.

Lemma px_box_same (var_name : str)
    (rows : list (option readout * str * readout)) :
  px_box (mkLongFrame None var_name var_name rows) var_name var_name None
  = raise ValueError.
Proof.
  unfold px_box, lf_columns. cbn [lf_id_name lf_var_name lf_value_name app].
  cbn [distinct existsb]. now rewrite !str_eqb_refl.
Qed.

(** Without a colour column [plot_boxplot] returns a figure when the
    display name of the statistic is no header of the table it gets and
    differs from the x-label; the figure carries [y_label], and in
    print mode the counter. *)
Lemma plot_boxplot_returns print_mode df variable stat title subtitle i :
  has_column df (name stat) = false ->
  str_eqb variable (name stat) = false ->
  exists fig i',
    plot_boxplot print_mode df variable stat title None subtitle i = (ok fig, i')
    /\ fig_yaxis_title fig = y_label stat
    /\ (truthy print_mode = true ->
        i' = (i + 1)%Z
        /\ exists rest, fig_title fig = str_of_int i ++ ". " ++ rest).
Proof.
  intros Hcol Hvar.
  unfold plot_boxplot, bind, lift, ret, get_plot_index, set_plot_index.
  rewrite (melt_wide _ _ _ Hcol). unfold ok at 1. cbn beta iota.
  destruct (truthy print_mode); cbn beta iota;
    rewrite (px_box_wide _ _ _ Hvar); unfold ok at 1; cbn beta iota.
  - do 2 eexists. split; [reflexivity|]. split; [reflexivity|].
    intros _. split; [reflexivity|]. eexists. reflexivity.
  - do 2 eexists. split; [reflexivity|]. split; [reflexivity|].
    discriminate.
Qed.

(** When the display name of the statistic is a header of the table,
    [plot_boxplot] stops at [melt]: no figure, the counter as it was. *)
Lemma plot_boxplot_clash print_mode df variable stat title color subtitle i :
  has_column df (name stat) = true ->
  plot_boxplot print_mode df variable stat title color subtitle i
  = (raise ValueError, i).
Proof.
  intros H. unfold plot_boxplot, bind, lift.
  now rewrite (melt_clash _ _ _ _ H).
Qed.

End BoxPlot.

Lemma catalog_names_capitalized :
  Forall (fun stat => capitalize (name stat) = name stat) catalog_statistics.
Proof. repeat constructor. Qed.

(** C9, as stated, fails: the label is not the display name when
    [capitalize] changes the display name.  The statistic "DNA content"
    without a unit gets the label "Dna content". *)
Lemma y_label_changes_case :
  y_label (mkStatistic "DNA content" None) = "Dna content"
  /\ y_label (mkStatistic "DNA content" None)
     <> name (mkStatistic "DNA content" None)
  /\ exists fig i',
       plot_boxplot (PBool true) two_class_table "cell class"
                    (mkStatistic "DNA content" None) "" None None 1%Z
       = (ok fig, i')
       /\ fig_yaxis_title fig = "Dna content".
Proof.
  split; [reflexivity|]. split; [discriminate|].
  destruct (plot_boxplot_returns (PBool true) two_class_table "cell class"
              (mkStatistic "DNA content" None) "" None 1%Z eq_refl eq_refl)
    as (fig & i' & E & Hy & _).
  exists fig, i'. split; [exact E|]. rewrite Hy. reflexivity.
Qed.

(** C9, amended.  Take a call of [plot_boxplot] without a colour column,
    for a statistic whose display name is no header of the table and is
    not the x-label.  The call returns a figure, and the y-axis label of
    the figure is the display name after [capitalize], followed by the
    unit in parentheses when there is a unit and by nothing when the
    unit is [None].  For a statistic of the three catalogs [capitalize]
    leaves the display name as it is, so there the label is the display
    name itself with the unit appended when there is one. *)
Theorem y_label_unit {readout : Type} (print_mode : pyval)
    (df : DataFrame readout) (variable : str) (stat : statistic)
    (title : str) (subtitle : option str) (i : Z) :
  has_column df (name stat) = false ->
  str_eqb variable (name stat) = false ->
  exists fig i',
    plot_boxplot print_mode df variable stat title None subtitle i = (ok fig, i')
    /\ fig_yaxis_title fig
       = match unit stat with
         | Some u => capitalize (name stat) ++ " (" ++ u ++ ")"
         | None => capitalize (name stat)
         end
    /\ (In stat catalog_statistics ->
        fig_yaxis_title fig
        = match unit stat with
          | Some u => name stat ++ " (" ++ u ++ ")"
          | None => name stat
          end).
Proof.
  intros Hcol Hvar.
  destruct (plot_boxplot_returns print_mode df variable stat title subtitle i
              Hcol Hvar) as (fig & i' & E & Hy & _).
  exists fig, i'. split; [exact E|]. rewrite Hy. split; [reflexivity|].
  intros Hin. pose proof catalog_names_capitalized as H.
  rewrite List.Forall_forall in H. unfold y_label. now rewrite (H stat Hin).
Qed.

Lemma y_label_unit_witness :
  exists fig i',
    plot_boxplot (PBool true) two_class_table "cell class"
                 (mkStatistic "Percentage of total number of cells" (Some "%"))
                 "cells" None None 2%Z
    = (ok fig, i')
    /\ fig_yaxis_title fig = "Percentage of total number of cells (%)".
Proof.
  destruct (y_label_unit (PBool true) two_class_table "cell class"
              (mkStatistic "Percentage of total number of cells" (Some "%"))
              "cells" None 2%Z eq_refl eq_refl)
    as (fig & i' & E & _ & H).
  exists fig, i'. split; [exact E|].
  apply H. vm_compute. tauto.
Defined.
(* ===================================================================== *)
(** ** Plot calls *)
(* ===================================================================== *)

Section PlotCalls.

Context {readout : Type}.
Implicit Types (df : DataFrame readout) (i : Z) (q : query).

Lemma missing_nil df (keys : list str) :
  forallb (has_column df) keys = true -> missing df keys = [].
Proof.
  unfold missing. induction keys as [|k ks IH]; cbn; [reflexivity|].
  intros [Hk Hks]%andb_prop. rewrite Hk. cbn. auto.
Qed.

Lemma missing_cons df (keys : list str) (c : str) :
  In c keys -> has_column df c = false -> missing df keys <> [].
Proof.
  intros Hin Hc E.
  assert (H : In c (missing df keys)).
  { unfold missing. apply filter_In. split; [exact Hin | now rewrite Hc]. }
  now rewrite E in H.
Qed.

Lemma getitem_present df (keys : list str) :
  forallb (has_column df) keys = true ->
  getitem df keys
  = ok (mkDataFrame (df_len df) (map (fun k => (k, column df k)) keys)).
Proof. intros H. unfold getitem. now rewrite missing_nil. Qed.

Lemma getitem_missing df (keys : list str) :
  missing df keys <> [] ->
  getitem df keys = raise (KeyError (missing df keys)).
Proof. unfold getitem. now destruct (missing df keys). Qed.

Lemma plot_after_resolve print_mode df q (cols : dict str) i :
  snd (resolve q) = ok cols ->
  plot print_mode df q i
  = after_resolve print_mode df q (fst (resolve q)) cols i.
Proof.
  destruct q as [[stat] | [stat tt] | [a roi stat radius]];
    unfold plot, plot_tissue_areas, plot_cell_stat, plot_neighborhood_stat;
    cbn [resolve tissue_columns cell_columns neighborhood_columns fst snd
         after_resolve tk_statistic ck_statistic ck_tissue_type
         nk_cell_class_a nk_roi nk_statistic nk_radius];
    intros E.
  - unfold bind, lift. now rewrite E.
  - unfold bind, lift.
    destruct (dict_item cell_stat_dict stat); [reflexivity|]. now rewrite E.
  - unfold bind, lift.
    destruct (dict_item neighborhood_stat_dict stat); [reflexivity|].
    now rewrite E.
Qed.

Lemma dict_item_known {V} (d : dict V) (k : str) :
  dict_get d k <> None -> exists v, dict_item d k = ok v.
Proof.
  unfold dict_item. destruct (dict_get d k); [eauto | congruence].
Qed.

Lemma dict_item_cases {V} (d : dict V) (k : str) :
  (exists v, dict_item d k = ok v) \/ dict_item d k = raise (KeyError [k]).
Proof. unfold dict_item. destruct (dict_get d k); eauto. Qed.

Lemma dict_get_values {V} (d : dict V) (k : str) (v : V) :
  dict_get d k = Some v -> In v (dict_values d).
Proof.
  induction d as [|[k' v'] d IH]; cbn; [discriminate|].
  destruct (str_eqb k k'); [intros [= ->]; now left | auto].
Qed.

Lemma dict_get_key {V} (d : dict V) (k : str) :
  In k (dict_keys d) -> exists v, dict_get d k = Some v.
Proof.
  induction d as [|[k' v'] d IH]; cbn; [tauto|].
  destruct (str_eqb_spec k k') as [->|Hne]; [eauto|].
  intros [H|H]; [congruence | auto].
Qed.

(** The labels of a resolver's dict are classes of its enumeration. *)
Lemma resolve_values q (cols : dict str) :
  snd (resolve q) = ok cols ->
  forall l, In l (dict_values cols) -> In l (categories q).
Proof.
  intros E.
  assert (H : forall k l, In (k, l) cols -> In l (categories q)).
  { destruct q as [[stat] | [stat tt] | [a roi stat radius]];
      cbn [resolve tissue_columns cell_columns neighborhood_columns snd
           categories] in *;
      refine (dict_comp_from_items _ _ (fun _ l => In l _) _ _ [] cols _ E);
      try (intros x k Hx _; exact Hx); intros k v []. }
  intros l (kl & <- & Hkl)%in_map_iff. destruct kl as [k l']. eauto.
Qed.

(** After the renaming every header of the sub-table is a label of the
    dict. *)
Lemma renamed_headers df (cols : dict str) (x : str) :
  has_column
    (rename (mkDataFrame (df_len df)
               (map (fun k => (k, column df k)) (dict_keys cols))) cols) x
  = true ->
  In x (dict_values cols).
Proof.
  unfold has_column, df_columns, rename. cbn [df_data].
  rewrite !map_map. cbn [fst].
  intros (h & Hh & Hx)%existsb_exists. apply str_eqb_eq in Hx. subst h.
  apply in_map_iff in Hh as (k & <- & Hk).
  destruct (dict_get_key cols k Hk) as [v Hv]. rewrite Hv.
  now apply (dict_get_values cols k).
Qed.

(** No display name of a catalog is a class label or an x-label. *)
Lemma catalog_names_free q (stat : statistic) :
  dict_get (catalog q) (statistic_of q) = Some stat ->
  mem (name stat) (categories q) = false
  /\ str_eqb (variable_of q) (name stat) = false.
Proof.
  intros H%dict_get_values.
  assert (Hall : Forall (fun st => mem (name st) (categories q) = false
                                   /\ str_eqb (variable_of q) (name st) = false)
                        (dict_values (catalog q))).
  { destruct q; repeat constructor. }
  rewrite List.Forall_forall in Hall. now apply Hall.
Qed.

Lemma dict_item_get {V} (d : dict V) (k : str) (v : V) :
  dict_item d k = ok v <-> dict_get d k = Some v.
Proof.
  unfold dict_item, ok, raise. destruct (dict_get d k); split; congruence.
Qed.

(** [plot_boxplot], as the plot functions call it. *)
Lemma plot_boxplot_of_query print_mode df q (cols : dict str)
    (stat : statistic) (title : str) (subtitle : option str) i :
  snd (resolve q) = ok cols ->
  dict_get (catalog q) (statistic_of q) = Some stat ->
  exists fig i',
    plot_boxplot print_mode
      (rename (mkDataFrame (df_len df)
                 (map (fun k => (k, column df k)) (dict_keys cols))) cols)
      (variable_of q) stat title None subtitle i = (ok fig, i')
    /\ (truthy print_mode = true ->
        i' = (i + 1)%Z
        /\ exists rest, fig_title fig = str_of_int i ++ ". " ++ rest).
Proof.
  intros E Hst. destruct (catalog_names_free q stat Hst) as [Hfree Hvar].
  destruct (plot_boxplot_returns print_mode
              (rename (mkDataFrame (df_len df)
                         (map (fun k => (k, column df k)) (dict_keys cols))) cols)
              (variable_of q) stat title subtitle i) as (fig & i' & Hp & _ & Hn).
  - destruct (has_column _ (name stat)) eqn:Hc; [|reflexivity].
    apply renamed_headers, (resolve_values q cols E), mem_In in Hc.
    congruence.
  - exact Hvar.
  - now exists fig, i'.
Qed.

(** A plot call whose columns are all there and whose statistic is in
    the catalog returns a figure; in print mode the figure carries the
    counter and the counter moves on by one. *)
Lemma plot_returns print_mode df q (cols : dict str) i :
  snd (resolve q) = ok cols ->
  forallb (has_column df) (dict_keys cols) = true ->
  dict_get (catalog q) (statistic_of q) <> None ->
  exists fig i',
    plot print_mode df q i = (ok fig, i')
    /\ (truthy print_mode = true ->
        i' = (i + 1)%Z
        /\ exists rest, fig_title fig = str_of_int i ++ ". " ++ rest).
Proof.
  intros E Hcols Hstat. rewrite (plot_after_resolve _ _ _ cols) by exact E.
  destruct (dict_get (catalog q) (statistic_of q)) as [st|] eqn:Hget;
    [clear Hstat | congruence].
  pose proof (proj2 (dict_item_get _ _ _) Hget) as Hst.
  pose proof (plot_boxplot_of_query print_mode df q cols st) as Hbox.
  destruct q as [kw | kw | kw];
    cbn [after_resolve catalog statistic_of variable_of] in *;
    unfold bind, lift; rewrite Hst, (getitem_present _ _ Hcols);
    unfold ok; cbn beta iota;
    apply Hbox; assumption.
Qed.


(** A plot call with a column that is not there raises a [KeyError] and
    leaves the counter alone. *)
Lemma plot_raises print_mode df q (cols : dict str) i :
  snd (resolve q) = ok cols ->
  missing df (dict_keys cols) <> [] ->
  exists ks, plot print_mode df q i = (raise (KeyError ks), i).
Proof.
  intros E Hmiss. rewrite (plot_after_resolve _ _ _ cols) by exact E.
  destruct q as [kw | kw | kw]; cbn [after_resolve]; unfold bind, lift.
  - rewrite (getitem_missing _ _ Hmiss). eauto.
  - destruct (dict_item_cases cell_stat_dict (ck_statistic kw)) as [[st ->]| ->].
    + rewrite (getitem_missing _ _ Hmiss). eauto.
    + eauto.
  - destruct (dict_item_cases neighborhood_stat_dict (nk_statistic kw))
      as [[st ->]| ->].
    + rewrite (getitem_missing _ _ Hmiss). eauto.
    + eauto.
Qed.

End PlotCalls.

(** C7.  Take a plot call whose resolver has built its dict.  If one of
    the names is no column of the table, the column lookup is a
    [KeyError] naming the missing columns, and the plot call ends in a
    [KeyError] with no figure and the plot counter untouched.  If all
    names are columns, the lookup returns the sub-table, and the call
    returns a figure whenever its statistic is in its catalog. *)
Theorem missing_column_raises {readout : Type} (print_mode : pyval)
    (df : DataFrame readout) (q : query) (cols : dict str) (i : Z) :
  snd (resolve q) = ok cols ->
  ((exists c, In c (dict_keys cols) /\ has_column df c = false) ->
   getitem df (dict_keys cols) = raise (KeyError (missing df (dict_keys cols)))
   /\ exists ks, plot print_mode df q i = (raise (KeyError ks), i))
  /\ ((forall c, In c (dict_keys cols) -> has_column df c = true) ->
      (exists sub, getitem df (dict_keys cols) = ok sub)
      /\ (dict_get (catalog q) (statistic_of q) <> None ->
          exists fig i', plot print_mode df q i = (ok fig, i'))).
Proof.
  intros E. split.
  - intros (c & Hin & Hc).
    pose proof (missing_cons df _ c Hin Hc) as Hmiss. split.
    + now apply getitem_missing.
    + now apply plot_raises with (cols := cols).
  - intros Hall. apply forallb_forall in Hall. split.
    + eexists. now apply getitem_present.
    + intros Hstat.
      destruct (plot_returns print_mode df q cols i E Hall Hstat)
        as (fig & i' & Hp & _).
      eauto.
Qed.

Lemma missing_column_raises_witness :
  (exists ks,
      plot (PBool true) two_class_table
           (CellQuery (mkCellKw "CELL_DENS" "All tissue types")) 1%Z
      = (raise (KeyError ks), 1%Z))
  /\ (exists fig i',
        plot (PBool true) full_table
             (CellQuery (mkCellKw "CELL_DENS" "Stroma")) 3%Z
        = (ok fig, i')).
Proof.
  split.
  - refine (proj2 (proj1 (missing_column_raises (PBool true) two_class_table
                            (CellQuery (mkCellKw "CELL_DENS" "All tissue types"))
                            _ 1%Z eq_refl) _)).
    exists "CELL_DENS_MACROPHAGE". split; [vm_compute; tauto | reflexivity].
  - refine (proj2 (proj2 (missing_column_raises (PBool true) full_table
                            (CellQuery (mkCellKw "CELL_DENS" "Stroma"))
                            _ 3%Z eq_refl) _) _).
    + apply forallb_forall. vm_compute. reflexivity.
    + vm_compute. discriminate.
Defined.

(* ===================================================================== *)
(** ** Print mode *)
(* ===================================================================== *)

Section Batch.

Context {readout : Type}.
Implicit Types (df : DataFrame readout) (i : Z).





Variable df : DataFrame readout.
Variable print_mode : pyval.
Hypothesis print_mode_on : truthy print_mode = true.
Hypothesis columns_present : forallb (has_column df) print_mode_columns = true.


End Batch.

Section Counter.

Context {readout : Type}.
Variable df : DataFrame readout.
Variable print_mode : pyval.
Hypothesis print_mode_on : truthy print_mode = true.


End Counter.


